(** * WSLSnapit-MCP: the take_screenshot request handler

    A shallow embedding of [src/index.js]: the image compressor that the
    Direct-mode branch runs on the bitmap returned by the PowerShell bridge,
    the destination-path computation, the generated PowerShell scripts and
    the decisions those scripts take (window search, monitor selection).

    Further on: what the handler makes of the output of the bridge (the
    messages for an ambiguous or failed search, the image or the file
    that it answers with), and the read_clipboard handler.

    What the handler does not implement itself is taken as an interface:
    - [Sharp]: the image library (decoding, resizing, JPEG encoding);
    - [NodeHost]: [process.cwd], [path.join], [path.resolve];
    - [PowerShell]: the operators of the bridge that the scripts use
      ([-like], expansion of double-quoted strings, [Sort-Object]);
    - [Base64]: the base64 codec of the bridge and of Node;
    - [SharpCheck]: the message of the error that the image library
      throws for a quality that it does not accept.

    JavaScript strings are modelled as [string] (sequences of 8-bit
    characters), numbers that the handler uses as integers as [Z], a
    [Buffer] as [list byte]. *)

From Stdlib Require Import ZArith List Bool Lia Strings.Ascii Strings.String Strings.Byte.
From Stdlib Require Import Permutation Sorted.
From Stdlib Require Import Numbers.DecimalString Numbers.DecimalZ Numbers.DecimalPos.
From Equations Require Import Equations.
Import ListNotations.

Open Scope Z_scope.

(** ** The image library *)

Definition Buffer := list byte.

(** [buffer.length] *)
Definition Buffer_length (b : Buffer) : Z := Z.of_nat (List.length b).

(** A [sharp] pipeline over the decoded PNG: [sharp(pngBuffer)] or
    [sharp(pngBuffer).resize({ width })].  A second [resize] on a pipeline
    is never issued by the handler. *)
Inductive Pipeline : Type :=
| Original
| Resize (width : Z).

Class Sharp : Type := {
  (** [(await sharp(png).metadata()).width] *)
  metadata_width : Buffer -> Z;
  (** [await pipeline.jpeg({ quality, mozjpeg: true }).toBuffer()], for a
      quality that the library accepts: an integer from 1 to 100.  For
      another quality the call throws and there is no output; the handler
      makes its first call with the requested quality (line 603). *)
  jpeg : Buffer -> Pipeline -> Z -> Buffer
}.

Module Compressor.

(** [const maxSizeBytes = 950 * 1024;] *)
Definition maxSizeBytes : Z := 950 * 1024.

(** The places of the handler that call the encoder. *)
Inductive Stage : Type :=
| RequestedQuality    (* line 603 *)
| QualityReduction    (* line 608, inside the while loop *)
| Fallback1280        (* line 616 *)
| Fallback800.        (* line 622 *)

(** One call of [jpeg(...).toBuffer()], as the handler issues it. *)
Record Encode : Type := mkEncode {
  enc_stage : Stage;
  enc_image : Pipeline;
  enc_quality : Z;
  enc_output : Buffer
}.

(** The mutable locals of the handler, together with the log of the
    encoder calls made so far (most recent last). *)
Record State : Type := mkState {
  processedImage : Pipeline;
  finalBuffer : Buffer;
  finalQuality : Z;
  wasResized : bool;
  encodes : list Encode
}.

Definition too_large (b : Buffer) : bool := maxSizeBytes <? Buffer_length b.

Section WithSharp.
Context `{Sharp}.
Variable pngBuffer : Buffer.

(** [finalBuffer = await processedImage.jpeg({ quality: finalQuality }).toBuffer()] *)
Definition encode (stage : Stage) (s : State) : State :=
  let out := jpeg pngBuffer (processedImage s) (finalQuality s) in
  {| processedImage := processedImage s;
     finalBuffer := out;
     finalQuality := finalQuality s;
     wasResized := wasResized s;
     encodes := encodes s ++ [mkEncode stage (processedImage s) (finalQuality s) out] |}.

Definition set_quality (q : Z) (s : State) : State :=
  {| processedImage := processedImage s;
     finalBuffer := finalBuffer s;
     finalQuality := q;
     wasResized := wasResized s;
     encodes := encodes s |}.

Definition set_image (p : Pipeline) (resized : bool) (s : State) : State :=
  {| processedImage := p;
     finalBuffer := finalBuffer s;
     finalQuality := finalQuality s;
     wasResized := resized;
     encodes := encodes s |}.

(** [while (finalBuffer.length > maxSizeBytes && finalQuality > 20)] *)
Definition loop_guard (s : State) : bool :=
  too_large (finalBuffer s) && (20 <? finalQuality s).

(** [finalQuality -= 10; finalBuffer = await processedImage.jpeg(...)] *)
Definition loop_body (s : State) : State :=
  encode QualityReduction (set_quality (finalQuality s - 10) s).

Equations reduce_quality (s : State) : State
  by wf (Z.to_nat (finalQuality s - 20)) lt :=
  reduce_quality s with Sumbool.sumbool_of_bool (loop_guard s) := {
    | left _ := reduce_quality (loop_body s);
    | right _ := s }.
Next Obligation.
  match goal with G : loop_guard _ = true |- _ =>
    apply andb_prop in G; destruct G as [_ G]; apply Z.ltb_lt in G end.
  lia.
Qed.

(** Lines 611-624: the two resize fallbacks. *)
Definition fallbacks (s : State) : State :=
  if too_large (finalBuffer s) then
    let s1 :=
      encode Fallback1280 (set_quality 60 (set_image (Resize 1280) true s)) in
    if too_large (finalBuffer s1) then
      encode Fallback800
        (set_quality 50 (set_image (Resize 800) (wasResized s1) s1))
    else s1
  else s.

(** Lines 588-624, for the requested [quality], when the encoder accepts
    it (from 1 to 100); otherwise line 603 throws and nothing of what
    follows is run. *)
Definition compress (quality : Z) : State :=
  let resize := 1920 <? metadata_width pngBuffer in
  let s0 := {| processedImage := if resize then Resize 1920 else Original;
               finalBuffer := [];
               finalQuality := quality;
               wasResized := resize;
               encodes := [] |} in
  fallbacks (reduce_quality (encode RequestedQuality s0)).

End WithSharp.

(** The number of iterations that the loop can still make at quality [q]. *)
Definition iterations_left (q : Z) : Z := Z.max 0 ((q - 11) / 10).

End Compressor.


(** ** JavaScript strings *)

Module Js.

Local Open Scope string_scope.

Definition dquote : string := String "034"%char EmptyString.
Definition LF : string := String "010"%char EmptyString.

(** Joins the lines of a multi-line string literal. *)
Definition lines (ls : list string) : string := String.concat LF ls.

(** [s.startsWith(p)] *)
Definition startsWith (s p : string) : bool := String.prefix p s.

(** [s.includes(sub)] *)
Fixpoint includes (s sub : string) : bool :=
  String.prefix sub s ||
  match s with
  | EmptyString => false
  | String _ s' => includes s' sub
  end.

(** [s.charAt(n)]: the empty string past the end. *)
Definition charAt (s : string) (n : nat) : string :=
  match String.get n s with
  | Some c => String c EmptyString
  | None => EmptyString
  end.

(** [s.slice(n)] for [n >= 0]. *)
Fixpoint slice (s : string) (n : nat) : string :=
  match n, s with
  | O, _ => s
  | S n', String _ s' => slice s' n'
  | S _, EmptyString => EmptyString
  end.

Definition is_lower (c : ascii) : bool :=
  (97 <=? nat_of_ascii c)%nat && (nat_of_ascii c <=? 122)%nat.
Definition is_upper (c : ascii) : bool :=
  (65 <=? nat_of_ascii c)%nat && (nat_of_ascii c <=? 90)%nat.

Definition upper (c : ascii) : ascii :=
  if is_lower c then ascii_of_nat (nat_of_ascii c - 32) else c.
Definition lower (c : ascii) : ascii :=
  if is_upper c then ascii_of_nat (nat_of_ascii c + 32) else c.

(** [s.toUpperCase()] *)
Fixpoint toUpperCase (s : string) : string :=
  match s with
  | EmptyString => EmptyString
  | String c s' => String (upper c) (toUpperCase s')
  end.

(** [s.replace(/c/g, r)] for a one-character pattern [c] and a
    replacement text [r] without [$]. *)
Fixpoint replace_all (c : ascii) (r : string) (s : string) : string :=
  match s with
  | EmptyString => EmptyString
  | String d s' =>
      if Ascii.eqb d c then r ++ replace_all c r s'
      else String d (replace_all c r s')
  end.

(** [s.replace(/^\/mnt\/([a-z])\//i, (match, drive) => drive.toUpperCase() + ':\\')] *)
Definition mnt_to_drive (s : string) : string :=
  match s with
  | String c0 (String c1 (String c2 (String c3 (String c4
      (String drive (String c6 rest)))))) =>
      if Ascii.eqb c0 "/" && Ascii.eqb (lower c1) "m" && Ascii.eqb (lower c2) "n"
         && Ascii.eqb (lower c3) "t" && Ascii.eqb c4 "/"
         && (is_lower drive || is_upper drive) && Ascii.eqb c6 "/"
      then String (upper drive) (":\" ++ rest)
      else s
  | _ => s
  end.

(** [String(n)] for a safe integer [n] (below 2^53 in absolute value).
    A larger integer reaches the handler rounded, and from 10^21 on
    JavaScript writes it with an exponent. *)
Definition Number_toString (n : Z) : string :=
  NilZero.string_of_int (Z.to_int n).

(** Truthiness of a possibly missing string: [undefined] and [''] are
    falsy. *)
Definition truthy (o : option string) : bool :=
  match o with
  | Some s => negb (String.eqb s "")
  | None => false
  end.

(** [o || d] *)
Definition or_else (o : option string) (d : string) : string :=
  match o with
  | Some s => if String.eqb s "" then d else s
  | None => d
  end.

End Js.

(** ** The Node.js runtime *)

Class NodeHost : Type := {
  (** [process.cwd()] *)
  cwd : string;
  (** [path.join(...segments)] *)
  path_join : list string -> string;
  (** [path.resolve(p)], an absolute path *)
  path_resolve : string -> string;
  path_resolve_absolute : forall p, String.prefix "/" (path_resolve p) = true
}.

(** ** The request *)

Inductive MonitorArg : Type :=
| MonitorString (s : string)
| MonitorNumber (n : Z).

(** [request.params.arguments]; [None] is a property that is absent (or
    [undefined]), for which destructuring puts the default. *)
Record Args : Type := mkArgs {
  filename : option string;
  monitor : option MonitorArg;
  windowTitle : option string;
  windowIndex : option Z;
  processName : option string;
  folder : option string;
  returnDirect : option bool;
  quality : option Z
}.

Definition get {A} (o : option A) (d : A) : A :=
  match o with Some a => a | None => d end.

(** The request without arguments. *)
Definition no_args : Args :=
  {| filename := None; monitor := None; windowTitle := None;
     windowIndex := None; processName := None; folder := None;
     returnDirect := None; quality := None |}.

(** The request [a] with another processName, with another filename. *)
Definition with_processName (p : option string) (a : Args) : Args :=
  {| filename := filename a; monitor := monitor a;
     windowTitle := windowTitle a; windowIndex := windowIndex a;
     processName := p; folder := folder a;
     returnDirect := returnDirect a; quality := quality a |}.

Definition with_filename (f : option string) (a : Args) : Args :=
  {| filename := f; monitor := monitor a;
     windowTitle := windowTitle a; windowIndex := windowIndex a;
     processName := processName a; folder := folder a;
     returnDirect := returnDirect a; quality := quality a |}.

(** ** The handler, up to the call of the bridge *)

Module Handler.

Import Js.
Local Open Scope string_scope.

(** The destructuring defaults of lines 102-111. *)
Definition arg_filename (a : Args) : string := get (filename a) "screenshot.png".
Definition arg_monitor (a : Args) : MonitorArg := get (monitor a) (MonitorString "all").
Definition arg_windowIndex (a : Args) : Z := get (windowIndex a) 1.
Definition arg_returnDirect (a : Args) : bool := get (returnDirect a) true.
Definition arg_quality (a : Args) : Z := get (quality a) 80.

(** [args.hasOwnProperty('windowIndex')] *)
Definition windowIndexProvided (a : Args) : bool :=
  match windowIndex a with Some _ => true | None => false end.

(** What a request does to the filesystem: [fs_mkdir] is the handler's
    [fs.mkdir(dir, { recursive: true })], [Bitmap_Save] the [$bitmap.Save]
    of the bridge script. *)
Inductive FsOp : Type :=
| fs_mkdir (dir : string)
| Bitmap_Save (path : string).

Record Destination : Type := mkDestination {
  screenshotsDir : string;
  customFolder : option string    (* [false] is [None] *)
}.

Section WithHost.
Context `{NodeHost}.

(** [.replace(/^\/mnt\/([a-z])\//i, ...).replace(/\//g, '\\')] *)
Definition to_windows (p : string) : string :=
  replace_all "/" "\" (mnt_to_drive p).

(** Lines 122-141. *)
Definition windowsFolder (folder : string) : string :=
  if startsWith folder "/mnt/" then
    toUpperCase (charAt folder 5) ++ ":\" ++ replace_all "/" "\" (slice folder 7)
  else if startsWith folder "/" then to_windows (path_resolve folder)
  else if negb (includes folder ":\") then to_windows (path_resolve folder)
  else folder.

(** Lines 117-149: where to save, with the filesystem operations made on
    the way. *)
Definition destination (a : Args) : list FsOp * Destination :=
  match folder a with
  | Some f =>
      if String.eqb f "" then
        let dir := path_join [cwd; "screenshots"] in
        ([fs_mkdir dir], mkDestination dir None)
      else ([], mkDestination f (Some (windowsFolder f)))
  | None =>
      let dir := path_join [cwd; "screenshots"] in
      ([fs_mkdir dir], mkDestination dir None)
  end.

(** Lines 151-154. *)
Definition windowsPath (a : Args) : string :=
  or_else (customFolder (snd (destination a)))
    (to_windows (path_join [cwd; "screenshots"; arg_filename a])).

(** Line 161. *)
Definition windowsPathEscaped (a : Args) : string :=
  replace_all "\" "\\" (windowsPath a).

(** Lines 162-173. *)
Definition captureCode (a : Args) : string :=
  if arg_returnDirect a then
    lines
      [ "# Return as PNG base64 for Node.js processing";
        "          $ms = New-Object System.IO.MemoryStream";
        "          $bitmap.Save($ms, [System.Drawing.Imaging.ImageFormat]::Png)";
        "          $base64 = [Convert]::ToBase64String($ms.ToArray())";
        "          Write-Output " ++ dquote ++ "BASE64:$base64" ++ dquote;
        "          $ms.Dispose()";
        "          $bitmap.Dispose()" ]
  else
    lines
      [ "# Save to file";
        "          $bitmap.Save('" ++ windowsPathEscaped a
          ++ "', [System.Drawing.Imaging.ImageFormat]::Png)";
        "          $bitmap.Dispose()";
        "          $graphics.Dispose()" ].

(** Lines 671-683: the path that is checked and the path that is reported
    once the bridge has returned in File mode. *)
Definition outputPath (a : Args) : string :=
  path_join [screenshotsDir (snd (destination a)); arg_filename a].

Definition successPath (a : Args) : string :=
  match customFolder (snd (destination a)) with
  | Some c =>
      if String.eqb c "" then "screenshots/" ++ arg_filename a
      else replace_all "\" "/" (path_join [c; arg_filename a])
  | None => "screenshots/" ++ arg_filename a
  end.

Definition successMessage (a : Args) : string :=
  "Screenshot saved successfully to: " ++ successPath a.

End WithHost.

(** Lines 177-181. *)
Definition psWindowIndexProvided (a : Args) : string :=
  if windowIndexProvided a then "$true" else "$false".

Definition escapedWindowTitle (a : Args) : string :=
  replace_all "034" (dquote ++ dquote) (or_else (windowTitle a) "").

Definition escapedProcessName (a : Args) : string :=
  replace_all "034" (dquote ++ dquote) (or_else (processName a) "").

(** The text that [${monitor}] puts into the script. *)
Definition monitor_text (a : Args) : string :=
  match arg_monitor a with
  | MonitorString s => s
  | MonitorNumber n => Number_toString n
  end.

(** [monitor === 'all'] *)
Definition monitor_is_all (a : Args) : bool :=
  match arg_monitor a with
  | MonitorString s => String.eqb s "all"
  | MonitorNumber _ => false
  end.

End Handler.

(** ** The PowerShell scripts

    The template literals of lines 184-483, line for line; the parameters
    are the interpolated JavaScript values. *)

Module Template.

Import Js.
Local Open Scope string_scope.

Definition psScriptBase : string :=
  lines
    [ EmptyString;
      "          try {";
      "          $ErrorActionPreference = 'Stop'";
      "          Add-Type -AssemblyName System.Drawing";
      "          Add-Type @" ++ dquote;
      "            using System;";
      "            using System.Runtime.InteropServices;";
      "            using System.Drawing;";
      "            ";
      "            public class Win32 {";
      "              [DllImport(" ++ dquote ++ "user32.dll" ++ dquote ++ ")]";
      "              public static extern bool SetProcessDPIAware();";
      "              ";
      "              [DllImport(" ++ dquote ++ "user32.dll" ++ dquote ++ ")]";
      "              public static extern IntPtr FindWindow(string lpClassName, string lpWindowName);";
      "              ";
      "              [DllImport(" ++ dquote ++ "user32.dll" ++ dquote ++ ")]";
      "              public static extern bool GetWindowRect(IntPtr hWnd, out RECT lpRect);";
      "              ";
      "              [DllImport(" ++ dquote ++ "user32.dll" ++ dquote ++ ")]";
      "              public static extern bool SetForegroundWindow(IntPtr hWnd);";
      "              ";
      "              public struct RECT {";
      "                public int Left;";
      "                public int Top;";
      "                public int Right;";
      "                public int Bottom;";
      "              }";
      "            }";
      dquote ++ "@";
      "          ";
      "          # Enable per-monitor DPI awareness for accurate capture";
      "          Add-Type @" ++ dquote;
      "            using System.Runtime.InteropServices;";
      "            public class DPI {";
      "              [DllImport(" ++ dquote ++ "shcore.dll" ++ dquote ++ ")]";
      "              public static extern int SetProcessDpiAwareness(int value);";
      "            }";
      dquote ++ "@";
      "          [DPI]::SetProcessDpiAwareness(2)";
      "          [Win32]::SetProcessDPIAware() # Fallback";
      "          ";
      "          # Enhanced window search using EnumWindows for better performance and cleaner errors";
      "          Add-Type @" ++ dquote;
      "            using System;";
      "            using System.Collections.Generic;";
      "            using System.Diagnostics;";
      "            using System.Runtime.InteropServices;";
      "            using System.Text;";
      "            ";
      "            public class WindowEnumerator {";
      "              [DllImport(" ++ dquote ++ "user32.dll" ++ dquote ++ ")]";
      "              public static extern bool EnumWindows(EnumWindowsProc enumProc, IntPtr lParam);";
      "              ";
      "              [DllImport(" ++ dquote ++ "user32.dll" ++ dquote ++ ")]";
      "              public static extern int GetWindowText(IntPtr hWnd, StringBuilder lpString, int nMaxCount);";
      "              ";
      "              [DllImport(" ++ dquote ++ "user32.dll" ++ dquote ++ ")]";
      "              public static extern bool IsWindowVisible(IntPtr hWnd);";
      "              ";
      "              [DllImport(" ++ dquote ++ "user32.dll" ++ dquote ++ ")]";
      "              public static extern uint GetWindowThreadProcessId(IntPtr hWnd, out uint processId);";
      "              ";
      "              public delegate bool EnumWindowsProc(IntPtr hWnd, IntPtr lParam);";
      "              ";
      "              public static List<WindowInfo> GetVisibleWindows() {";
      "                List<WindowInfo> windows = new List<WindowInfo>();";
      "                EnumWindows((hWnd, lParam) => {";
      "                  if (IsWindowVisible(hWnd)) {";
      "                    StringBuilder title = new StringBuilder(256);";
      "                    GetWindowText(hWnd, title, title.Capacity);";
      "                    if (title.Length > 0) {";
      "                      uint processId;";
      "                      GetWindowThreadProcessId(hWnd, out processId);";
      "                      try {";
      "                        Process process = Process.GetProcessById((int)processId);";
      "                        windows.Add(new WindowInfo {";
      "                          Handle = hWnd,";
      "                          Title = title.ToString(),";
      "                          ProcessName = process.ProcessName";
      "                        });";
      "                      } catch {";
      "                        // Skip if process no longer exists";
      "                      }";
      "                    }";
      "                  }";
      "                  return true;";
      "                }, IntPtr.Zero);";
      "                return windows;";
      "              }";
      "            }";
      "            ";
      "            public class WindowInfo {";
      "              public IntPtr Handle;";
      "              public string Title;";
      "              public string ProcessName;";
      "            }";
      dquote ++ "@";
      "          ";
      "          # Get all visible windows";
      "          $allWindows = [WindowEnumerator]::GetVisibleWindows()";
      "          $hwnd = [IntPtr]::Zero";
      "          $foundWindow = $null";
      "          ";
      "          # Search by title or process name" ].

Definition searchLogic_title (escapedWindowTitle psWindowIndexProvided windowIndex : string) : string :=
  lines
    [ EmptyString;
      "          if (" ++ dquote ++ escapedWindowTitle ++ dquote ++ " -ne " ++ dquote ++ dquote ++ ") {";
      "            $matchingWindows = @()";
      "            foreach ($win in $allWindows) {";
      "              if ($win.Title -like " ++ dquote ++ "*" ++ escapedWindowTitle ++ "*" ++ dquote ++ ") {";
      "                $matchingWindows += $win";
      "              }";
      "            }";
      "            ";
      "            if ($matchingWindows.Count -eq 0) {";
      "              [Console]::Error.WriteLine(" ++ dquote ++ "WINDOW_NOT_FOUND:" ++ escapedWindowTitle ++ dquote ++ ")";
      "              exit 1";
      "            } elseif ($matchingWindows.Count -gt 1) {";
      "              # Multiple windows found - check if windowIndex was explicitly provided";
      "              $windowIndexProvided = " ++ psWindowIndexProvided;
      "              $windowIndex = " ++ windowIndex;
      "              if ($windowIndexProvided -eq $true -and $windowIndex -ge 1 -and $windowIndex -le $matchingWindows.Count) {";
      "                # Valid windowIndex explicitly provided, select that window";
      "                $foundWindow = $matchingWindows[$windowIndex - 1]";
      "                $hwnd = $foundWindow.Handle";
      "              } else {";
      "                # No windowIndex provided or invalid, show disambiguation list";
      "                $windowList = " ++ dquote ++ dquote;
      "                for ($i = 0; $i -lt $matchingWindows.Count; $i++) {";
      "                  $win = $matchingWindows[$i]";
      "                  $windowList += " ++ dquote ++ "$(($i + 1)). $($win.Title) ($($win.ProcessName).exe)" ++ dquote;
      "                  if ($i -lt $matchingWindows.Count - 1) { $windowList += " ++ dquote ++ "`n" ++ dquote ++ " }";
      "                }";
      "                $windowList += " ++ dquote ++ "`n$(($matchingWindows.Count + 1)). Cancel capture" ++ dquote;
      "                [Console]::Error.WriteLine(" ++ dquote ++ "MULTIPLE_WINDOWS_FOUND:" ++ escapedWindowTitle ++ ":$windowList" ++ dquote ++ ")";
      "                exit 1";
      "              }";
      "            } else {";
      "              # Single window found";
      "              $foundWindow = $matchingWindows[0]";
      "              $hwnd = $foundWindow.Handle";
      "            }";
      "          }" ].

Definition searchLogic_process (escapedProcessName psWindowIndexProvided windowIndex : string) : string :=
  lines
    [ EmptyString;
      "          if (" ++ dquote ++ escapedProcessName ++ dquote ++ " -ne " ++ dquote ++ dquote ++ ") {";
      "            # Strip .exe if provided";
      "            $searchProcess = " ++ dquote ++ escapedProcessName ++ dquote ++ ".Replace(" ++ dquote ++ ".exe" ++ dquote ++ ", " ++ dquote ++ dquote ++ ")";
      "            $matchingWindows = @()";
      "            foreach ($win in $allWindows) {";
      "              if ($win.ProcessName -like " ++ dquote ++ "*$searchProcess*" ++ dquote ++ ") {";
      "                $matchingWindows += $win";
      "              }";
      "            }";
      "            ";
      "            if ($matchingWindows.Count -eq 0) {";
      "              [Console]::Error.WriteLine(" ++ dquote ++ "PROCESS_NOT_FOUND:" ++ escapedProcessName ++ dquote ++ ")";
      "              exit 1";
      "            } elseif ($matchingWindows.Count -gt 1) {";
      "              # Multiple windows found - check if windowIndex was explicitly provided";
      "              $windowIndexProvided = " ++ psWindowIndexProvided;
      "              $windowIndex = " ++ windowIndex;
      "              if ($windowIndexProvided -eq $true -and $windowIndex -ge 1 -and $windowIndex -le $matchingWindows.Count) {";
      "                # Valid windowIndex explicitly provided, select that window";
      "                $foundWindow = $matchingWindows[$windowIndex - 1]";
      "                $hwnd = $foundWindow.Handle";
      "              } else {";
      "                # No windowIndex provided or invalid, show disambiguation list";
      "                $windowList = " ++ dquote ++ dquote;
      "                for ($i = 0; $i -lt $matchingWindows.Count; $i++) {";
      "                  $win = $matchingWindows[$i]";
      "                  $windowList += " ++ dquote ++ "$(($i + 1)). $($win.Title) ($($win.ProcessName).exe)" ++ dquote;
      "                  if ($i -lt $matchingWindows.Count - 1) { $windowList += " ++ dquote ++ "`n" ++ dquote ++ " }";
      "                }";
      "                $windowList += " ++ dquote ++ "`n$(($matchingWindows.Count + 1)). Cancel capture" ++ dquote;
      "                [Console]::Error.WriteLine(" ++ dquote ++ "MULTIPLE_WINDOWS_FOUND:" ++ escapedProcessName ++ ":$windowList" ++ dquote ++ ")";
      "                exit 1";
      "              }";
      "            } else {";
      "              # Single window found";
      "              $foundWindow = $matchingWindows[0]";
      "              $hwnd = $foundWindow.Handle";
      "            }";
      "          }" ].

Definition psScriptEnd (captureCode : string) : string :=
  lines
    [ EmptyString;
      "          ";
      "          # Get window rectangle";
      "          $rect = New-Object Win32+RECT";
      "          [Win32]::GetWindowRect($hwnd, [ref]$rect) | Out-Null";
      "          ";
      "          $width = $rect.Right - $rect.Left";
      "          $height = $rect.Bottom - $rect.Top";
      "          ";
      "          # Bring window to foreground and wait for it to fully render";
      "          [Win32]::SetForegroundWindow($hwnd) | Out-Null";
      "          Start-Sleep -Milliseconds 200";
      "          ";
      "          # Capture the window with DPI awareness";
      "          $bitmap = New-Object System.Drawing.Bitmap $width, $height";
      "          $graphics = [System.Drawing.Graphics]::FromImage($bitmap)";
      "          $graphics.CopyFromScreen($rect.Left, $rect.Top, 0, 0, $bitmap.Size)";
      "          ";
      "          " ++ captureCode;
      "          } catch {";
      "            Write-Output " ++ dquote ++ "ERROR: $_" ++ dquote;
      "            exit 1";
      "          }" ].

Definition psScript_all (captureCode : string) : string :=
  lines
    [ EmptyString;
      "          try {";
      "          $ErrorActionPreference = 'Stop'";
      "          Add-Type -AssemblyName System.Windows.Forms";
      "          Add-Type -AssemblyName System.Drawing";
      "          # Enable per-monitor DPI awareness";
      "          Add-Type @" ++ dquote;
      "            using System.Runtime.InteropServices;";
      "            public class DPI {";
      "              [DllImport(" ++ dquote ++ "shcore.dll" ++ dquote ++ ")]";
      "              public static extern int SetProcessDpiAwareness(int value);";
      "            }";
      dquote ++ "@";
      "          [DPI]::SetProcessDpiAwareness(2)";
      "          ";
      "          $screen = [System.Windows.Forms.SystemInformation]::VirtualScreen";
      "          $bitmap = New-Object System.Drawing.Bitmap $screen.Width, $screen.Height";
      "          $graphics = [System.Drawing.Graphics]::FromImage($bitmap)";
      "          $graphics.CopyFromScreen($screen.Left, $screen.Top, 0, 0, $bitmap.Size)";
      "          ";
      "          " ++ captureCode;
      "          } catch {";
      "            Write-Output " ++ dquote ++ "ERROR: $_" ++ dquote;
      "            exit 1";
      "          }";
      "        " ].

Definition psScript_monitor (monitor captureCode : string) : string :=
  lines
    [ EmptyString;
      "          try {";
      "          $ErrorActionPreference = 'Stop'";
      "          Add-Type -AssemblyName System.Windows.Forms";
      "          Add-Type -AssemblyName System.Drawing";
      "          ";
      "          # Enable DPI awareness - MUST be per-monitor for multi-monitor setups with scaling";
      "          Add-Type @" ++ dquote;
      "            using System;";
      "            using System.Runtime.InteropServices;";
      "            public class DPIAware {";
      "              [DllImport(" ++ dquote ++ "user32.dll" ++ dquote ++ ")]";
      "              public static extern bool SetProcessDPIAware();";
      "              ";
      "              [DllImport(" ++ dquote ++ "shcore.dll" ++ dquote ++ ")]";
      "              public static extern int SetProcessDpiAwareness(int value);";
      "            }";
      dquote ++ "@";
      "          # Always use per-monitor DPI awareness (2) for accurate capture";
      "          [DPIAware]::SetProcessDpiAwareness(2)";
      "          ";
      "          $screens = [System.Windows.Forms.Screen]::AllScreens";
      "          $targetScreen = $null";
      "          ";
      "          # Sort by X position ascending (left to right) to match Windows display numbering";
      "          $sortedScreens = $screens | Sort-Object { $_.Bounds.X }";
      "          ";
      "          ";
      "          if ('" ++ monitor ++ "' -eq 'primary') {";
      "            $targetScreen = [System.Windows.Forms.Screen]::PrimaryScreen";
      "          } elseif ('" ++ monitor ++ "' -match '^\d+$') {";
      "            $index = [int]'" ++ monitor ++ "' - 1";
      "            if ($index -ge 0 -and $index -lt $sortedScreens.Count) {";
      "              $targetScreen = $sortedScreens[$index]";
      "            } else {";
      "              throw " ++ dquote ++ "Monitor " ++ monitor ++ " not found. Available monitors: 1 to $($sortedScreens.Count)" ++ dquote;
      "            }";
      "          }";
      "          ";
      "          if ($targetScreen -eq $null) {";
      "            throw " ++ dquote ++ "Invalid monitor parameter: " ++ monitor ++ dquote;
      "          }";
      "          ";
      "          $bounds = $targetScreen.Bounds";
      "          ";
      "          $bitmap = New-Object System.Drawing.Bitmap($bounds.Width, $bounds.Height)";
      "          $graphics = [System.Drawing.Graphics]::FromImage($bitmap)";
      "          # Use explicit coordinates for accurate capture";
      "          $graphics.CopyFromScreen($bounds.X, $bounds.Y, 0, 0, $bitmap.Size)";
      "          ";
      "          " ++ captureCode;
      "          } catch {";
      "            Write-Output " ++ dquote ++ "ERROR: $_" ++ dquote;
      "            exit 1";
      "          }";
      "        " ].

End Template.

(** Lines 175-484: the script that is sent to the bridge. *)

Module Formatter.

Import Js Handler Template.
Local Open Scope string_scope.

Section WithHost.
Context `{NodeHost}.

(** Lines 290-371. *)
Definition searchLogic (a : Args) : string :=
  if truthy (windowTitle a) then
    searchLogic_title (escapedWindowTitle a) (psWindowIndexProvided a)
      (Number_toString (arg_windowIndex a))
  else if truthy (processName a) then
    searchLogic_process (escapedProcessName a) (psWindowIndexProvided a)
      (Number_toString (arg_windowIndex a))
  else "".

Definition psScript (a : Args) : string :=
  if truthy (windowTitle a) || truthy (processName a) then
    psScriptBase ++ searchLogic a ++ psScriptEnd (captureCode a)
  else if monitor_is_all a then psScript_all (captureCode a)
  else psScript_monitor (monitor_text a) (captureCode a).

End WithHost.

End Formatter.

(** ** The bridge: what the scripts decide

    The desktop that the script observes, the PowerShell operators it uses
    and, for each script, the branch it takes. *)

Record WindowInfo : Type := mkWindowInfo {
  Handle : Z;
  Title : string;
  ProcessName : string
}.

Record Screen : Type := mkScreen {
  Bounds_X : Z;
  Bounds_Y : Z;
  Bounds_Width : Z;
  Bounds_Height : Z
}.

Record Desktop : Type := mkDesktop {
  (** [[WindowEnumerator]::GetVisibleWindows()], in enumeration order *)
  GetVisibleWindows : list WindowInfo;
  (** [[System.Windows.Forms.Screen]::AllScreens] *)
  AllScreens : list Screen;
  (** [[System.Windows.Forms.Screen]::PrimaryScreen] *)
  PrimaryScreen : Screen
}.

Class PowerShell : Type := {
  (** the value of a double-quoted string literal with the given body *)
  ps_expand : string -> string;
  (** [value -like pattern] *)
  ps_like : string -> string -> bool;
  (** [$screens | Sort-Object { $_.Bounds.X }] *)
  Sort_Object_X : list Screen -> list Screen;
  Sort_Object_X_perm : forall l, Permutation (Sort_Object_X l) l;
  Sort_Object_X_sorted :
    forall l, Sorted (fun a b => Bounds_X a <= Bounds_X b) (Sort_Object_X l)
}.

Module Bridge.

Import Js Handler.
Local Open Scope string_scope.
Local Open Scope Z_scope.

(** [s.Replace(old, new)] of .NET, for a non-empty [old]: the occurrences
    of [old] are found from left to right, each search resuming after the
    previous occurrence.  [skip] counts the characters of the current
    occurrence that are still to be dropped. *)
Fixpoint Replace_from (skip : nat) (s old new : string) : string :=
  match s with
  | EmptyString => EmptyString
  | String c s' =>
      match skip with
      | S k => Replace_from k s' old new
      | O =>
          if String.prefix old s
          then new ++ Replace_from (String.length old - 1) s' old new
          else String c (Replace_from 0 s' old new)
      end
  end.

Definition String_Replace (s old new : string) : string :=
  Replace_from 0 s old new.

(** [$searchProcess = "...".Replace(".exe", "")], on the value of the
    literal. *)
Definition searchProcess (name : string) : string :=
  String_Replace name ".exe" "".

(** How the window search of a script ends. *)
Inductive Search : Type :=
| NotSearched                               (* the [-ne ""] guard failed *)
| NotFound (marker term : string)           (* [..._NOT_FOUND:term], exit 1 *)
| Ambiguous (term windowList : string)      (* [MULTIPLE_WINDOWS_FOUND], exit 1 *)
| Found (foundWindow : WindowInfo).

(** [$null], as an out-of-range array index gives it. *)
Definition null_window : WindowInfo := mkWindowInfo 0 "" "".

(** The disambiguation list of lines 314-320, from index [i]. *)
Fixpoint windowList_from (i : nat) (ws : list WindowInfo) : string :=
  match ws with
  | [] => ""
  | win :: rest =>
      Number_toString (Z.of_nat i + 1) ++ ". " ++ Title win
        ++ " (" ++ ProcessName win ++ ".exe)"
        ++ (match rest with [] => "" | _ => LF end)
        ++ windowList_from (S i) rest
  end.

Definition windowList (matchingWindows : list WindowInfo) : string :=
  windowList_from 0 matchingWindows ++ LF
    ++ Number_toString (Z.of_nat (List.length matchingWindows) + 1)
    ++ ". Cancel capture".

(** Lines 301-328 (and 342-369): the three-way test on
    [$matchingWindows.Count]. *)
Definition select (marker term : string) (matchingWindows : list WindowInfo)
    (windowIndexProvided : bool) (windowIndex : Z) : Search :=
  let Count := Z.of_nat (List.length matchingWindows) in
  if Count =? 0 then NotFound marker term
  else if 1 <? Count then
    if windowIndexProvided && (1 <=? windowIndex) && (windowIndex <=? Count)
    then Found (nth (Z.to_nat (windowIndex - 1)) matchingWindows null_window)
    else Ambiguous term (windowList matchingWindows)
  else Found (nth 0 matchingWindows null_window).

(** How a script ends. *)
Inductive Region : Type :=
| VirtualScreen
| OfScreen (s : Screen)
| OfWindow (hwnd : Z).

Inductive Action : Type :=
| Write_BASE64                  (* Direct mode: the PNG on standard output *)
| Save (path : string).         (* File mode: [$bitmap.Save('path', Png)] *)

Inductive Outcome : Type :=
| Capture (r : Region) (act : Action)   (* the capture code is reached *)
| Error_WriteLine (text : string)       (* a marker on stderr, exit 1 *)
| Throw (message : string)              (* [throw], reported as [ERROR: message] *)
| InvalidCast (text : string)           (* [[int]'text'] does not fit Int32 *)
| EmptyBitmap.                          (* [New-Object Bitmap 0, 0] fails *)

Definition Int32_MaxValue : Z := 2147483647.

Section WithPowerShell.
Context `{PowerShell}.

(** Lines 293-299: the windows whose title matches, in enumeration order;
    [None] when the guard skips the search. *)
Definition matchingWindows_title (escapedWindowTitle : string)
    (allWindows : list WindowInfo) : option (list WindowInfo) :=
  if String.eqb (ps_expand escapedWindowTitle) "" then None
  else Some (filter
               (fun win => ps_like (Title win)
                             (ps_expand ("*" ++ escapedWindowTitle ++ "*")))
               allWindows).

(** Lines 332-340. *)
Definition matchingWindows_process (escapedProcessName : string)
    (allWindows : list WindowInfo) : option (list WindowInfo) :=
  if String.eqb (ps_expand escapedProcessName) "" then None
  else Some (filter
               (fun win => ps_like (ProcessName win)
                             ("*" ++ searchProcess (ps_expand escapedProcessName) ++ "*"))
               allWindows).

Definition search_title (escapedWindowTitle : string)
    (windowIndexProvided : bool) (windowIndex : Z)
    (allWindows : list WindowInfo) : Search :=
  match matchingWindows_title escapedWindowTitle allWindows with
  | None => NotSearched
  | Some ms =>
      select "WINDOW_NOT_FOUND:" (ps_expand escapedWindowTitle) ms
        windowIndexProvided windowIndex
  end.

Definition search_process (escapedProcessName : string)
    (windowIndexProvided : bool) (windowIndex : Z)
    (allWindows : list WindowInfo) : Search :=
  match matchingWindows_process escapedProcessName allWindows with
  | None => NotSearched
  | Some ms =>
      select "PROCESS_NOT_FOUND:" (ps_expand escapedProcessName) ms
        windowIndexProvided windowIndex
  end.

(** The windows that the query of the request matches. *)
Definition matchingWindows (a : Args) (d : Desktop) : option (list WindowInfo) :=
  if truthy (windowTitle a) then
    matchingWindows_title (escapedWindowTitle a) (GetVisibleWindows d)
  else if truthy (processName a) then
    matchingWindows_process (escapedProcessName a) (GetVisibleWindows d)
  else None.

(** The search that the generated script contains (lines 290-371). *)
Definition search (a : Args) (d : Desktop) : Search :=
  if truthy (windowTitle a) then
    search_title (escapedWindowTitle a) (windowIndexProvided a)
      (arg_windowIndex a) (GetVisibleWindows d)
  else if truthy (processName a) then
    search_process (escapedProcessName a) (windowIndexProvided a)
      (arg_windowIndex a) (GetVisibleWindows d)
  else NotSearched.

(** Lines 449-469, for the text [monitor] between the quotes. *)
Definition sortedScreens (d : Desktop) : list Screen :=
  Sort_Object_X (AllScreens d).

Definition targetScreen (monitor : string) (d : Desktop) : Screen + Outcome :=
  let Count := Z.of_nat (List.length (sortedScreens d)) in
  if String.eqb (toUpperCase monitor) "PRIMARY"     (* [-eq 'primary'] *)
  then inl (PrimaryScreen d)
  else
    match NilZero.uint_of_string monitor with      (* [-match '^\d+$'] *)
    | Some digits =>
        let value := Z.of_uint digits in
        if value <=? Int32_MaxValue then
          let index := value - 1 in
          if (0 <=? index) && (index <? Count)
          then inl (nth (Z.to_nat index) (sortedScreens d) (PrimaryScreen d))
          else inr (Throw ("Monitor " ++ monitor
                             ++ " not found. Available monitors: 1 to "
                             ++ Number_toString Count))
        else inr (InvalidCast monitor)
    | None => inr (Throw ("Invalid monitor parameter: " ++ monitor))
    end.

Section WithHost.
Context `{NodeHost}.

(** The terminal action that [captureCode] encodes. *)
Definition action (a : Args) : Action :=
  if arg_returnDirect a then Write_BASE64 else Save (windowsPathEscaped a).

(** The script of [Formatter.psScript a], run on the desktop [d].  When
    the search is skipped, [$hwnd] stays zero: [GetWindowRect] leaves the
    rectangle at zero and the bitmap of width and height 0 cannot be
    made (lines 375-386); the script ends in its [catch]. *)
Definition run (a : Args) (d : Desktop) : Outcome :=
  if truthy (windowTitle a) || truthy (processName a) then
    match search a d with
    | NotSearched => EmptyBitmap
    | NotFound marker term => Error_WriteLine (marker ++ term)
    | Ambiguous term list =>
        Error_WriteLine ("MULTIPLE_WINDOWS_FOUND:" ++ term ++ ":" ++ list)
    | Found win => Capture (OfWindow (Handle win)) (action a)
    end
  else if monitor_is_all a then Capture VirtualScreen (action a)
  else
    match targetScreen (monitor_text a) d with
    | inl s => Capture (OfScreen s) (action a)
    | inr failure => failure
    end.

Definition bridge_ops (o : Outcome) : list FsOp :=
  match o with
  | Capture _ (Save path) => [Bitmap_Save path]
  | _ => []
  end.

(** Everything a request does to the filesystem. *)
Definition fs_ops (a : Args) (d : Desktop) : list FsOp :=
  fst (destination a) ++ bridge_ops (run a d).

End WithHost.
End WithPowerShell.

End Bridge.

(** ** PowerShell quoting

    How PowerShell reads a single-quoted literal, used to locate where a
    literal of a generated script ends. *)

Module Quoting.

Import Js.
Local Open Scope string_scope.

(** The text that follows the first occurrence of [marker] in [s]. *)
Fixpoint after_first (marker s : string) : option string :=
  if String.prefix marker s then Some (slice s (String.length marker))
  else
    match s with
    | EmptyString => None
    | String _ s' => after_first marker s'
    end.

(** Reads a single-quoted literal from the character that follows its
    opening quote: the value of the literal (two quotes in a row stand for
    one quote; nothing else is special) and the script text after the
    closing quote.  [None] when the literal is not closed. *)
Fixpoint single_quoted (s : string) : option (string * string) :=
  match s with
  | EmptyString => None
  | String c rest =>
      if Ascii.eqb c "'" then
        match rest with
        | String c' rest' =>
            if Ascii.eqb c' "'" then
              match single_quoted rest' with
              | Some (v, r) => Some (String "'" v, r)
              | None => None
              end
            else Some ("", rest)
        | EmptyString => Some ("", rest)
        end
      else
        match single_quoted rest with
        | Some (v, r) => Some (String c v, r)
        | None => None
        end
  end.

(** The single-quoted literal that opens right after the first
    occurrence of [marker] (whose last character is the opening quote). *)
Definition literal_after (marker script : string) : option (string * string) :=
  match after_first marker script with
  | Some rest => single_quoted rest
  | None => None
  end.

End Quoting.

(** ** The specification's reading of the process-name normalisation

    Only a final [.exe] is removed. *)

Definition strip_trailing_exe (name : string) : string :=
  let n := String.length name in
  if (4 <=? n)%nat && String.eqb (String.substring (n - 4) 4 name) ".exe"
  then String.substring 0 (n - 4) name
  else name.

(** ** Instances of the interfaces *)

Module Instances.

Import Js.
Local Open Scope string_scope.

(** A bridge for texts without [$] and backquote: a double-quoted literal
    stands for its body with doubled quotes undone, [-like] is a wildcard
    match ([*] and [?]) that ignores case, [Sort-Object] is a stable
    insertion sort. *)
Fixpoint undouble (s : string) : string :=
  match s with
  | String c rest =>
      String c
        (match rest with
         | String c' rest' =>
             if Ascii.eqb c "034" && Ascii.eqb c' "034"
             then undouble rest' else undouble rest
         | EmptyString => EmptyString
         end)
  | EmptyString => EmptyString
  end.

Fixpoint wildcard (pattern : string) : string -> bool :=
  match pattern with
  | EmptyString => fun s => String.eqb s ""
  | String p pattern' =>
      if Ascii.eqb p "*" then
        fix star (s : string) : bool :=
          wildcard pattern' s
          || match s with
             | EmptyString => false
             | String _ s' => star s'
             end
      else
        fun s =>
          match s with
          | EmptyString => false
          | String c s' =>
              (Ascii.eqb p "?" || Ascii.eqb (lower p) (lower c))
              && wildcard pattern' s'
          end
  end.

Fixpoint insert_by_X (s : Screen) (l : list Screen) : list Screen :=
  match l with
  | [] => [s]
  | t :: l' =>
      if (Bounds_X s <? Bounds_X t)%Z then s :: l else t :: insert_by_X s l'
  end.

Fixpoint sort_by_X (l : list Screen) : list Screen :=
  match l with
  | [] => []
  | s :: l' => insert_by_X s (sort_by_X l')
  end.

Definition plain_powershell : PowerShell.
Proof.
  refine {| ps_expand := undouble;
            ps_like := fun value pattern => wildcard pattern value;
            Sort_Object_X := sort_by_X |}.
  - (* a permutation *)
    assert (ins : forall s l, Permutation (insert_by_X s l) (s :: l)).
    { intros s l. induction l as [| t l IH]; simpl.
      - apply Permutation_refl.
      - destruct (Bounds_X s <? Bounds_X t)%Z.
        + apply Permutation_refl.
        + apply perm_trans with (t :: s :: l);
            [apply perm_skip; exact IH | apply perm_swap]. }
    intros l. induction l as [| s l IH]; simpl.
    + apply perm_nil.
    + apply perm_trans with (s :: sort_by_X l);
        [apply ins | apply perm_skip; exact IH].
  - (* sorted by ascending X *)
    assert (ins : forall s l,
               Sorted (fun a b => Bounds_X a <= Bounds_X b)%Z l ->
               Sorted (fun a b => Bounds_X a <= Bounds_X b)%Z (insert_by_X s l)).
    { intros s l. induction l as [| t l IH]; simpl; intros Hl.
      - apply Sorted_cons; [apply Sorted_nil | apply HdRel_nil].
      - destruct (Bounds_X s <? Bounds_X t)%Z eqn:E.
        + apply Z.ltb_lt in E.
          apply Sorted_cons; [exact Hl | apply HdRel_cons; lia].
        + apply Z.ltb_ge in E. inversion Hl as [| ? ? Hs Hh]; subst.
          apply Sorted_cons; [apply IH; exact Hs |].
          destruct l as [| u l]; simpl.
          * apply HdRel_cons. exact E.
          * destruct (Bounds_X s <? Bounds_X u)%Z;
              apply HdRel_cons; [exact E | inversion Hh; assumption]. }
    intros l. induction l as [| s l IH]; simpl.
    + apply Sorted_nil.
    + apply ins. exact IH.
Defined.

(** A POSIX host whose paths need no normalisation. *)
Definition join_segments (segments : list string) : string :=
  String.concat "/" segments.

Definition resolve_from_project (p : string) : string :=
  if startsWith p "/" then p else "/home/user/project/" ++ p.

Definition posix_host : NodeHost.
Proof.
  refine {| cwd := "/home/user/project";
            path_join := join_segments;
            path_resolve := resolve_from_project |}.
  intros p. unfold resolve_from_project, startsWith.
  destruct (String.prefix "/" p) eqn:E; [exact E | reflexivity].
Defined.

(** Encoders: one whose output never fits the budget, one that fits it
    only from quality 15 down. *)
Definition oversized : Buffer :=
  repeat x00 (Z.to_nat (Compressor.maxSizeBytes + 1)).

Definition never_fits : Sharp := {|
  metadata_width := fun _ => 4000;
  jpeg := fun _ _ _ => oversized
|}.

Definition fits_at_15 : Sharp := {|
  metadata_width := fun _ => 1600;
  jpeg := fun _ _ q => if (q <=? 15)%Z then [] else oversized
|}.

End Instances.

(** ** Requests and a desktop to run them on *)

Module Examples.
Local Open Scope string_scope.

Definition inbox : WindowInfo := mkWindowInfo 101 "Inbox - Chrome" "chrome".
Definition notes : WindowInfo := mkWindowInfo 102 "notes.txt - Notepad" "notepad".
Definition docs : WindowInfo := mkWindowInfo 103 "Docs - Chrome" "chrome".
Definition installer : WindowInfo := mkWindowInfo 104 "Installer" "setup.config".

Definition right_screen : Screen := mkScreen 1920 0 1920 1080.
Definition left_screen : Screen := mkScreen 0 0 1920 1080.

(** Two monitors, the right one enumerated first. *)
Definition desktop : Desktop := {|
  GetVisibleWindows := [inbox; notes; docs; installer];
  AllScreens := [right_screen; left_screen];
  PrimaryScreen := left_screen
|}.

(** [{ windowTitle: "chrome", windowIndex: 2 }] *)
Definition second_chrome : Args :=
  {| filename := None; monitor := None; windowTitle := Some "chrome";
     windowIndex := Some 2; processName := None; folder := None;
     returnDirect := None; quality := None |}.

(** [{ monitor: n }] *)
Definition monitor_number (n : Z) : Args :=
  {| filename := None; monitor := Some (MonitorNumber n); windowTitle := None;
     windowIndex := None; processName := None; folder := None;
     returnDirect := None; quality := None |}.

(** [{ monitor: n, windowTitle: t }] *)
Definition monitor_and_title (n : Z) (t : string) : Args :=
  {| filename := None; monitor := Some (MonitorNumber n); windowTitle := Some t;
     windowIndex := None; processName := None; folder := None;
     returnDirect := None; quality := None |}.

(** [{ monitor: s }] *)
Definition monitor_string (s : string) : Args :=
  {| filename := None; monitor := Some (MonitorString s); windowTitle := None;
     windowIndex := None; processName := None; folder := None;
     returnDirect := None; quality := None |}.

(** [{ windowTitle: t }] *)
Definition by_title (t : string) : Args :=
  {| filename := None; monitor := None; windowTitle := Some t;
     windowIndex := None; processName := None; folder := None;
     returnDirect := None; quality := None |}.

(** [{ windowTitle: t, processName: p }] *)
Definition title_and_process (t p : string) : Args :=
  {| filename := None; monitor := None; windowTitle := Some t;
     windowIndex := None; processName := Some p; folder := None;
     returnDirect := None; quality := None |}.

(** [{ processName: p }] *)
Definition by_process (p : string) : Args :=
  {| filename := None; monitor := None; windowTitle := None;
     windowIndex := None; processName := Some p; folder := None;
     returnDirect := None; quality := None |}.

(** [{ returnDirect: false, filename: f, folder: dir }] *)
Definition save_to (dir f : string) : Args :=
  {| filename := Some f; monitor := None; windowTitle := None;
     windowIndex := None; processName := None; folder := Some dir;
     returnDirect := Some false; quality := None |}.

End Examples.

(** ** Views of the encoder log *)

Module Trace.

Import Compressor.

(** The pipeline that the first encoding and the loop work on
    (lines 591-600). *)
Definition first_image `{Sharp} (pngBuffer : Buffer) : Pipeline :=
  if 1920 <? metadata_width pngBuffer then Resize 1920 else Original.

(** The qualities that the encoder accepts (the integers from 1 to 100,
    as in the schema, lines 70-76). *)
Definition accepts (quality : Z) : bool :=
  (1 <=? quality) && (quality <=? 100).

(** What the log keeps of an encoding, without its output. *)
Definition view (e : Encode) : Stage * Pipeline * Z :=
  (enc_stage e, enc_image e, enc_quality e).

(** The encodings of the loop after [n] rounds from quality [quality]. *)
Definition reductions (image : Pipeline) (quality : Z) (n : nat)
  : list (Stage * Pipeline * Z) :=
  map (fun i => (QualityReduction, image, quality - 10 * Z.of_nat i)) (seq 1 n).

(** The encodings that the fallbacks can add. *)
Definition fallback_1280 : Stage * Pipeline * Z := (Fallback1280, Resize 1280, 60).
Definition fallback_800 : Stage * Pipeline * Z := (Fallback800, Resize 800, 50).

(** The state in which the loop is entered (line 603). *)
Definition entry `{Sharp} (pngBuffer : Buffer) (quality : Z) : State :=
  encode pngBuffer RequestedQuality
    {| processedImage := first_image pngBuffer;
       finalBuffer := [];
       finalQuality := quality;
       wasResized := 1920 <? metadata_width pngBuffer;
       encodes := [] |}.

Definition is_original (p : Pipeline) : bool :=
  match p with Original => true | Resize _ => false end.

(** The buffer is the output of the last encoding and the encodings
    before it were over the budget. *)
Definition logged (t : State) : Prop :=
  exists earlier e,
    encodes t = earlier ++ [e]
    /\ enc_output e = finalBuffer t
    /\ Forall (fun e' => too_large (enc_output e') = true) earlier.

(** Moreover the buffer is what the encoder gives for the pipeline and
    the quality of the state, and the resize flag tells whether the
    pipeline resizes. *)
Definition settled `{Sharp} (pngBuffer : Buffer) (t : State) : Prop :=
  logged t
  /\ finalBuffer t = jpeg pngBuffer (processedImage t) (finalQuality t)
  /\ wasResized t = negb (is_original (processedImage t)).

End Trace.
(** ** More ways to vary a request *)

Definition with_folder (g : option string) (a : Args) : Args :=
  {| filename := filename a; monitor := monitor a;
     windowTitle := windowTitle a; windowIndex := windowIndex a;
     processName := processName a; folder := g;
     returnDirect := returnDirect a; quality := quality a |}.

Definition with_monitor (m : option MonitorArg) (a : Args) : Args :=
  {| filename := filename a; monitor := m;
     windowTitle := windowTitle a; windowIndex := windowIndex a;
     processName := processName a; folder := folder a;
     returnDirect := returnDirect a; quality := quality a |}.

Definition with_quality (q : option Z) (a : Args) : Args :=
  {| filename := filename a; monitor := monitor a;
     windowTitle := windowTitle a; windowIndex := windowIndex a;
     processName := processName a; folder := folder a;
     returnDirect := returnDirect a; quality := q |}.

Definition with_windowIndex (i : option Z) (a : Args) : Args :=
  {| filename := filename a; monitor := monitor a;
     windowTitle := windowTitle a; windowIndex := i;
     processName := processName a; folder := folder a;
     returnDirect := returnDirect a; quality := quality a |}.

(** ** More JavaScript string functions *)

Module JsText.

Local Open Scope string_scope.

(** Whether the character [c] occurs in [s]. *)
Fixpoint has_char (c : ascii) (s : string) : bool :=
  match s with
  | EmptyString => false
  | String d s' => Ascii.eqb d c || has_char c s'
  end.

(** White space, as [trim] and the class [\s] see it, among the 7-bit
    characters: tab, line feed, vertical tab, form feed, carriage return
    and space. *)
Definition is_space (c : ascii) : bool :=
  let n := nat_of_ascii c in
  ((9 <=? n)%nat && (n <=? 13)%nat) || (n =? 32)%nat.

(** The line terminators that [.] does not match, among the 7-bit
    characters. *)
Definition is_line_terminator (c : ascii) : bool :=
  let n := nat_of_ascii c in (n =? 10)%nat || (n =? 13)%nat.

Fixpoint all_space (s : string) : bool :=
  match s with
  | EmptyString => true
  | String c s' => is_space c && all_space s'
  end.

(** [Number.isSafeInteger(n)] for an integer [n]: such a number reaches
    the handler as it was sent and [String(n)] is its decimal text. *)
Definition isSafeInteger (n : Z) : bool :=
  ((- 2 ^ 53 <? n) && (n <? 2 ^ 53))%Z.

(** A text of 7-bit characters; the white space and the line terminators
    of such a text are the ones above. *)
Fixpoint seven_bit (s : string) : bool :=
  match s with
  | EmptyString => true
  | String c s' => (nat_of_ascii c <? 128)%nat && seven_bit s'
  end.

(** [s.trimStart()], [s.trimEnd()], [s.trim()] *)
Fixpoint trimStart (s : string) : string :=
  match s with
  | EmptyString => EmptyString
  | String c s' => if is_space c then trimStart s' else s
  end.

Fixpoint trimEnd (s : string) : string :=
  match s with
  | EmptyString => EmptyString
  | String c s' =>
      if is_space c && all_space s' then EmptyString
      else String c (trimEnd s')
  end.

Definition trim (s : string) : string := trimEnd (trimStart s).

(** [s.split(c)] for a one-character separator. *)
Fixpoint split (c : ascii) (s : string) : list string :=
  match s with
  | EmptyString => [EmptyString]
  | String d s' =>
      if Ascii.eqb d c then EmptyString :: split c s'
      else
        match split c s' with
        | first :: others => String d first :: others
        | [] => [String d EmptyString]
        end
  end.

(** [s.indexOf(sub)], [None] for -1. *)
Fixpoint indexOf (s sub : string) : option nat :=
  if String.prefix sub s then Some O
  else
    match s with
    | EmptyString => None
    | String _ s' => option_map S (indexOf s' sub)
    end.

(** Whether [s] ends with [suffix]. *)
Fixpoint ends_with (s suffix : string) : bool :=
  String.eqb s suffix
  || match s with
     | EmptyString => false
     | String _ s' => ends_with s' suffix
     end.

(** [s.substring(0, n)] *)
Fixpoint take (n : nat) (s : string) : string :=
  match n, s with
  | S n', String c s' => String c (take n' s')
  | _, _ => EmptyString
  end.

End JsText.

(** ** The lines of the disambiguation list *)

Module Options.

Import Js.
Local Open Scope string_scope.

(** The line of the match of rank [i] (counting from 1), line 317. *)
Definition option_line (i : nat) (win : WindowInfo) : string :=
  Number_toString (Z.of_nat i) ++ ". " ++ Title win
    ++ " (" ++ ProcessName win ++ ".exe)".

Fixpoint option_lines_from (i : nat) (ws : list WindowInfo) : list string :=
  match ws with
  | [] => []
  | win :: rest => option_line i win :: option_lines_from (S i) rest
  end.

(** The last line, line 320. *)
Definition cancel_line (count : nat) : string :=
  Number_toString (Z.of_nat count + 1) ++ ". Cancel capture".

(** A window whose title and process name hold no line feed. *)
Definition one_line (win : WindowInfo) : bool :=
  negb (JsText.has_char "010" (Title win))
  && negb (JsText.has_char "010" (ProcessName win)).

(** A window that can be listed: moreover no [<] in its title and
    process name. *)
Definition listable (win : WindowInfo) : bool :=
  one_line win
  && negb (JsText.has_char "<" (Title win))
  && negb (JsText.has_char "<" (ProcessName win)).

(** A line that the message shows as it is: trimming leaves it, it is not
    empty and holds no [<]. *)
Definition shown (line : string) : Prop :=
  JsText.trim line = line /\ line <> "" /\ JsText.has_char "<" line = false.

(** The lines, each followed by a line feed. *)
Fixpoint each_on_a_line (ls : list string) : string :=
  match ls with
  | [] => ""
  | l :: rest => l ++ LF ++ each_on_a_line rest
  end.

(** The options that the message shows for the matches [ms]. *)
Definition options_text (ms : list WindowInfo) : string :=
  each_on_a_line (option_lines_from 1 ms ++ [cancel_line (List.length ms)]).

(** The search term as the script reads it, and the marker that the
    script writes when nothing matches. *)
Definition query_term `{PowerShell} (a : Args) : string :=
  if truthy (windowTitle a) then ps_expand (Handler.escapedWindowTitle a)
  else ps_expand (Handler.escapedProcessName a).

Definition not_found_marker (a : Args) : string :=
  if truthy (windowTitle a) then "WINDOW_NOT_FOUND:" else "PROCESS_NOT_FOUND:".

End Options.

(** ** The handler, after the call of the bridge (lines 506-696) *)

(** The message of the error that [jpeg({ quality })] throws for a
    quality that the library does not accept. *)
Class SharpCheck : Type := {
  invalid_quality_message : Z -> string
}.

(** [Buffer.from(text, 'base64')] of Node and
    [[Convert]::ToBase64String(bytes)] of the bridge. *)
Class Base64 : Type := {
  Buffer_from_base64 : string -> Buffer;
  ToBase64String : Buffer -> string;
  Buffer_from_ToBase64String :
    forall b, Buffer_from_base64 (ToBase64String b) = b;
  (** the text is made of letters, digits, [+], [/] and [=] *)
  ToBase64String_alphabet :
    forall b c, JsText.has_char c (ToBase64String b) = true ->
                JsText.has_char c
                  "ABCDEFGHIJKLMNOPQRSTUVWXYZabcdefghijklmnopqrstuvwxyz0123456789+/="
                = true
}.

Module Response.

Import Js JsText Handler.
Local Open Scope string_scope.

(** The text of the characters given by their UTF-8 bytes. *)
Fixpoint of_bytes (codes : list nat) : string :=
  match codes with
  | [] => EmptyString
  | n :: rest => String (ascii_of_nat n) (of_bytes rest)
  end.

(** U+1F504, U+274C, U+1F4A1 and U+2022, which the messages use. *)
Definition arrows : string := of_bytes [240; 159; 148; 132]%nat.
Definition cross : string := of_bytes [226; 157; 140]%nat.
Definition bulb : string := of_bytes [240; 159; 146; 161]%nat.
Definition bullet : string := of_bytes [226; 128; 162]%nat.

(** What the bridge process leaves. *)
Record Output : Type := mkOutput {
  stdout : string;
  stderr : string
}.

(** How the request ends.  [Failed] is the error that the [catch] of line
    694 throws; [Crashed] is that error when its text is the engine's own
    (a property read on [undefined]). *)
Inductive Result : Type :=
| Image (statusText : string) (jpeg_data : Buffer)
| Saved (text : string)
| Failed (message : string)
| Crashed.

(** [`Failed to take screenshot: ${error.message}`] *)
Definition failed (message : string) : Result :=
  Failed ("Failed to take screenshot: " ++ message).

(** *** The patterns *)

(** [([^:]+):] the text up to the next colon, and what follows the colon. *)
Fixpoint until_colon (s : string) : option (string * string) :=
  match s with
  | EmptyString => None
  | String c s' =>
      if Ascii.eqb c ":" then Some (EmptyString, s')
      else
        match until_colon s' with
        | Some (run, rest) => Some (String c run, rest)
        | None => None
        end
  end.

(** The text up to the first [DEBUG:] or to the end. *)
Fixpoint until_debug (s : string) : string :=
  if String.prefix "DEBUG:" s then EmptyString
  else
    match s with
    | EmptyString => EmptyString
    | String c s' => String c (until_debug s')
    end.

(** [([\s\S]+?)(?:DEBUG:|$)] the shortest text of one character at least
    that [DEBUG:] or the end follows. *)
Definition lazy_body (s : string) : option string :=
  match s with
  | EmptyString => None
  | String c s' => Some (String c (until_debug s'))
  end.

(** The pattern of line 510 tried right after an occurrence of the marker. *)
Definition multiple_here (after : string) : option (string * string) :=
  match until_colon after with
  | Some (term, rest) =>
      if String.eqb term "" then None
      else
        match lazy_body rest with
        | Some list => Some (term, list)
        | None => None
        end
  | None => None
  end.

(** [s.match(/MULTIPLE_WINDOWS_FOUND:([^:]+):([\s\S]+?)(?:DEBUG:|$)/)]:
    the two groups of the leftmost match. *)
Fixpoint match_multiple (s : string) : option (string * string) :=
  let next :=
    match s with
    | EmptyString => None
    | String _ s' => match_multiple s'
    end in
  if String.prefix "MULTIPLE_WINDOWS_FOUND:" s then
    match multiple_here (slice s 23) with
    | Some groups => Some groups
    | None => next
    end
  else next.

(** [(.+)] the characters up to the next line terminator. *)
Fixpoint line_run (s : string) : string :=
  match s with
  | EmptyString => EmptyString
  | String c s' =>
      if is_line_terminator c then EmptyString else String c (line_run s')
  end.

(** [s.match(/marker(.+)/)?.[1]]: the group of the leftmost match. *)
Fixpoint match_line (marker s : string) : option string :=
  let next :=
    match s with
    | EmptyString => None
    | String _ s' => match_line marker s'
    end in
  if String.prefix marker s then
    match line_run (slice s (String.length marker)) with
    | EmptyString => next
    | group => Some group
    end
  else next.

(** [s.match(/marker(.+)/)?.[1]?.trim() || ''] *)
Definition searchTerm_after (marker combinedOutput : string) : string :=
  match match_line marker combinedOutput with
  | Some group => trim group
  | None => EmptyString
  end.

(** The last character of [s] that is no line terminator. *)
Fixpoint last_on_line (s : string) : option ascii :=
  match s with
  | EmptyString => None
  | String c s' =>
      match last_on_line s' with
      | Some d => Some d
      | None => if is_line_terminator c then None else Some c
      end
  end.

(** [\s*(.+)] tried on the text that follows [ERROR:]: the white space is
    skipped and the group is the rest of the line; when only white space
    follows, the pattern gives back white space until the group can hold
    one character that is no line terminator. *)
Definition error_group (after : string) : option string :=
  match trimStart after with
  | EmptyString =>
      match last_on_line after with
      | Some c => Some (String c EmptyString)
      | None => None
      end
  | rest => Some (line_run rest)
  end.

(** [stderr.match(/ERROR:\s*(.+)/)]: the group of the leftmost match.
    When the pattern fails at the first [ERROR:], only white space follows
    it, so that there is no other occurrence to try. *)
Definition match_error (s : string) : option string :=
  match Quoting.after_first "ERROR:" s with
  | Some after => error_group after
  | None => None
  end.

(** *** The messages *)

(** Lines 534-540. *)
Definition multiple_helpMessage (searchTerm formattedOptions : string) : string :=
  lines
    [ "Multiple windows found matching " ++ dquote ++ searchTerm ++ dquote
        ++ ". Please choose an option:";
      "";
      formattedOptions;
      arrows ++ " To select an option, retry the screenshot with windowIndex: 2 (for option 2)";
      cross ++ " To cancel, simply don't retry the tool call";
      "";
      "Example: `windowIndex: 2` to capture the second window" ].

(** Lines 548-553. *)
Definition window_helpMessage (searchTerm : string) : string :=
  lines
    [ cross ++ " No windows found with title containing " ++ dquote
        ++ searchTerm ++ dquote;
      "";
      bulb ++ " Suggestions:";
      "  " ++ bullet ++ " Check the window's title bar for the exact text";
      "  " ++ bullet ++ " Try a shorter or different part of the title";
      "  " ++ bullet ++ " Use processName instead (e.g., 'notepad', 'chrome')" ].

(** Lines 559-564. *)
Definition process_helpMessage (searchTerm : string) : string :=
  lines
    [ cross ++ " No visible windows found for process " ++ dquote
        ++ searchTerm ++ dquote;
      "";
      bulb ++ " Suggestions:";
      "  " ++ bullet ++ " Make sure the application is running with visible windows";
      "  " ++ bullet ++ " Try capturing by windowTitle instead of processName";
      "  " ++ bullet ++ " Check if the process name is correct (without .exe extension)" ].

(** *** The disambiguation message (lines 512-542) *)

(** The test of the first [filter] of line 519. *)
Definition keep_line (line : string) : bool :=
  negb (String.eqb (trim line) "")
  && negb (includes line "<Objs") && negb (includes line "</Objs>")
  && negb (includes line "<Obj") && negb (includes line "</Obj>").

(** Lines 518-520. *)
Definition windowLines (rawWindowList : string) : list string :=
  filter (fun line => negb (String.eqb (trim line) ""))
    (filter keep_line (split "010" rawWindowList)).

(** Lines 525-531. *)
Fixpoint formattedOptions (windowLines : list string) : string :=
  match windowLines with
  | [] => EmptyString
  | line :: rest =>
      (if String.eqb (trim line) "" then EmptyString else trim line ++ LF)
        ++ formattedOptions rest
  end.

(** Lines 511-543, for the two groups of the match. *)
Definition multiple_windows (groups : string * string) : Result :=
  let searchTerm := trim (fst groups) in
  let rawWindowList := trim (snd groups) in
  match windowLines rawWindowList with
  | [] => Crashed      (* [lastLine] is [undefined] at line 522 *)
  | ls => failed (multiple_helpMessage searchTerm (formattedOptions ls))
  end.

(** *** Direct mode (lines 569-648) *)

(** Lines 575-582. *)
Definition base64Data (stdout : string) : string :=
  let base64Start :=
    match indexOf stdout "BASE64:" with
    | Some i => (i + 7)%nat
    | None => 6%nat                        (* -1 + 7 *)
    end in
  let data := trim (slice stdout base64Start) in
  match indexOf data "ERROR:" with
  | Some (S errorIndex) => trim (take (S errorIndex) data)
  | _ => data
  end.

(** [Math.round(length / 1024)] *)
Definition sizeInKB (b : Buffer) : Z := (Buffer_length b + 512) / 1024.

(** Lines 629-633. *)
Definition statusText `{Sharp} (headline : string) (s : Compressor.State) : string :=
  headline ++ " (" ++ Number_toString (sizeInKB (Compressor.finalBuffer s))
    ++ "KB, JPEG quality: " ++ Number_toString (Compressor.finalQuality s) ++ "%)"
    ++ (if Compressor.wasResized s
        then " - Resized to "
               ++ Number_toString (metadata_width (Compressor.finalBuffer s))
               ++ "px width"
        else "").

Section WithLibraries.
Context `{Sharp} `{SharpCheck} `{Base64} `{NodeHost}.

(** Lines 569-648.  The first call of the encoder (line 603) throws for a
    quality that it does not accept, and the [catch] of line 694 relays
    the message. *)
Definition direct (a : Args) (stdout : string) : Result :=
  if includes stdout "BASE64:" then
    let pngBuffer := Buffer_from_base64 (base64Data stdout) in
    if Trace.accepts (arg_quality a) then
      let s := Compressor.compress pngBuffer (arg_quality a) in
      Image (statusText "Screenshot captured successfully" s)
        (Compressor.finalBuffer s)
    else failed (invalid_quality_message (arg_quality a))
  else failed "Failed to generate base64 output from PowerShell".

(** *** File mode (lines 650-693) *)

(** Lines 651-656. *)
Definition hasRealError (stderr : string) : bool :=
  negb (String.eqb stderr "")
  && (includes stderr "throw" || includes stderr "Exception"
      || includes stderr "ERROR:"
      || (includes stderr "Error" && negb (includes stderr "ErrorId"))).

(** Lines 658-668. *)
Definition real_error (stderr : string) : Result :=
  if includes stderr "ERROR:" then
    match match_error stderr with
    | Some group => failed (trim group)
    | None => failed "Screenshot capture failed"
    end
  else failed "Screenshot capture failed".

(** [fs_access path] is [None] when [fs.access(path)] resolves and the
    message of the rejection otherwise. *)
Definition file (fs_access : string -> option string) (a : Args)
    (stderr : string) : Result :=
  if hasRealError stderr then real_error stderr
  else
    match fs_access (outputPath a) with
    | None => Saved (successMessage a)
    | Some message => failed message
    end.

(** Lines 506-693. *)
Definition respond (fs_access : string -> option string) (a : Args)
    (o : Output) : Result :=
  let combinedOutput := stdout o ++ stderr o in
  match (if includes combinedOutput "MULTIPLE_WINDOWS_FOUND:"
         then match_multiple combinedOutput else None) with
  | Some groups => multiple_windows groups
  | None =>
      if includes combinedOutput "WINDOW_NOT_FOUND:" then
        failed (window_helpMessage
                  (searchTerm_after "WINDOW_NOT_FOUND:" combinedOutput))
      else if includes combinedOutput "PROCESS_NOT_FOUND:" then
        failed (process_helpMessage
                  (searchTerm_after "PROCESS_NOT_FOUND:" combinedOutput))
      else if arg_returnDirect a then direct a (stdout o)
      else file fs_access a (stderr o)
  end.

End WithLibraries.

(** *** What the scripts write

    [noise] is what the statements before the search or the capture have
    written on the standard output (the results of the calls that set the
    DPI awareness).  A line ends with carriage return and line feed. *)

Definition CRLF : string := of_bytes [13; 10]%nat.

(** The streams of a script that ends without capture; [None] for the
    outcomes whose text is not the script's own. *)
Definition failure_output (noise : string) (o : Bridge.Outcome) : option Output :=
  match o with
  | Bridge.Error_WriteLine text => Some (mkOutput noise (text ++ CRLF))
  | Bridge.Throw message =>
      Some (mkOutput (noise ++ "ERROR: " ++ message ++ CRLF) EmptyString)
  | _ => None
  end.

(** The streams of a script that captures [bitmap] (its PNG bytes). *)
Definition capture_output `{Base64} (noise : string) (act : Bridge.Action)
    (bitmap : Buffer) : Output :=
  match act with
  | Bridge.Write_BASE64 =>
      mkOutput (noise ++ "BASE64:" ++ ToBase64String bitmap ++ CRLF) EmptyString
  | Bridge.Save _ => mkOutput noise EmptyString
  end.

End Response.

(** ** The clipboard tool (lines 699-917) *)

Module Clipboard.

Import Js JsText Response.
Local Open Scope string_scope.

(** [const { format = 'auto' } = args;] *)
Definition arg_format (format : option string) : string :=
  match format with
  | Some text => text
  | None => "auto"
  end.

(** The formats of the schema (line 88), and the absent one. *)
Definition formats : list (option string) :=
  [None; Some "auto"; Some "text"; Some "image"].

(** What the script can learn from the clipboard: the results of
    [ContainsText()], [ContainsImage()], [Get-Clipboard -Raw] and
    [GetImage()] ([None] for [$null]); the image is given by the bytes
    that [$image.Save($ms, Png)] writes. *)
Record Content : Type := mkContent {
  ContainsText : bool;
  ContainsImage : bool;
  Get_Clipboard_Raw : option string;
  GetImage : option Buffer
}.

(** Lines 716-726: the script leaves with a line, or goes on with a
    format.  [-eq] compares without regard to case. *)
Inductive Detected : Type :=
| Exit (line : string)
| Format (format : string).

Definition detect (format : string) (c : Content) : Detected :=
  if String.eqb (toUpperCase format) "AUTO" then
    if ContainsImage c then Format "image"
    else if ContainsText c then Format "text"
    else Exit "EMPTY_CLIPBOARD"
  else Format format.

(** Lines 728-759: the line that the script writes, if any. *)
Definition read `{Base64} (format : string) (c : Content) : option string :=
  if String.eqb (toUpperCase format) "TEXT" then
    if negb (ContainsText c) then Some "NO_TEXT_IN_CLIPBOARD"
    else
      match Get_Clipboard_Raw c with
      | None => Some "EMPTY_CLIPBOARD"
      | Some clipboardText => Some ("TEXT_CONTENT:" ++ clipboardText)
      end
  else if String.eqb (toUpperCase format) "IMAGE" then
    if negb (ContainsImage c) then Some "NO_IMAGE_IN_CLIPBOARD"
    else
      match GetImage c with
      | None => Some "NO_IMAGE_IN_CLIPBOARD"
      | Some png => Some ("BASE64:" ++ ToBase64String png)
      end
  else None.

(** The standard output of the script whose [$format] is [format], when
    the calls on the clipboard raise no exception (the script then ends
    with the exit code 0 and nothing on the standard error). *)
Definition script_stdout `{Base64} (format : string) (c : Content) : string :=
  match detect format c with
  | Exit line => line ++ CRLF
  | Format format' =>
      match read format' c with
      | Some line => line ++ CRLF
      | None => EmptyString
      end
  end.

(** How the request ends; [Error] is the error that the [catch] of line
    914 throws. *)
Inductive Reply : Type :=
| Text (text : string)
| Picture (statusText : string) (jpeg_data : Buffer)
| Error (message : string).

Definition is_error (r : Reply) : bool :=
  match r with Error _ => true | _ => false end.

(** [`Failed to read clipboard: ${error.message}`] *)
Definition read_failed (message : string) : Reply :=
  Error ("Failed to read clipboard: " ++ message).

(** Lines 775-912. *)
Definition answer `{Sharp} `{Base64} (stdout stderr : string) : Reply :=
  if includes stdout "EMPTY_CLIPBOARD" then Text "Clipboard is empty"
  else if includes stdout "NO_TEXT_IN_CLIPBOARD" then
    Text "No text content in clipboard (clipboard may contain an image or other format)"
  else if includes stdout "NO_IMAGE_IN_CLIPBOARD" then
    Text "No image content in clipboard (clipboard may contain text or other format)"
  else if includes stdout "TEXT_CONTENT:" then
    let textStart :=
      match indexOf stdout "TEXT_CONTENT:" with
      | Some i => (i + 13)%nat
      | None => 12%nat                     (* -1 + 13 *)
      end in
    let clipboardText := trim (slice stdout textStart) in
    Text ("Clipboard text content:" ++ LF ++ LF ++ clipboardText)
  else if includes stdout "BASE64:" then
    let pngBuffer := Buffer_from_base64 (base64Data stdout) in
    let s := Compressor.compress pngBuffer 80 in
    Picture (statusText "Clipboard image retrieved successfully" s)
      (Compressor.finalBuffer s)
  else if includes stdout "ERROR:" || negb (String.eqb stderr "") then
    read_failed
      match match_error stdout with
      | Some group => trim group
      | None => if String.eqb stderr "" then "Unknown error" else stderr
      end
  else read_failed "Unable to read clipboard content".

(** The request on the clipboard [c], for such a run of the script.
    [None] when the format holds a quote, which would end the literal of
    line 712 early. *)
Definition read_clipboard `{Sharp} `{Base64} (format : option string)
    (c : Content) : option Reply :=
  let format := arg_format format in
  if has_char "'" format then None
  else Some (answer (script_stdout format c) EmptyString).

End Clipboard.

(** ** More instances and requests *)

Module Codec.

Local Open Scope string_scope.

(** A codec with the two properties of base64 that [Base64] asks for:
    each byte is written as two of the letters A to P. *)
Definition letter (n : nat) : ascii := ascii_of_nat (65 + n).

Definition encode_byte (b : byte) : string :=
  let n := Byte.to_nat b in
  String (letter (n / 16)) (String (letter (n mod 16)) EmptyString).

Fixpoint encode_bytes (b : Buffer) : string :=
  match b with
  | [] => EmptyString
  | x :: rest => encode_byte x ++ encode_bytes rest
  end.

Fixpoint decode_letters (s : string) : Buffer :=
  match s with
  | String c1 (String c2 rest) =>
      match Byte.of_nat ((nat_of_ascii c1 - 65) * 16 + (nat_of_ascii c2 - 65)) with
      | Some x => x :: decode_letters rest
      | None => []
      end
  | _ => []
  end.

Definition letters_codec : Base64.
Proof.
  refine {| Buffer_from_base64 := decode_letters;
            ToBase64String := encode_bytes |}.
  - induction b as [| x rest IH]; [reflexivity |].
    cbn [encode_bytes]. unfold encode_byte.
    cbn [String.append decode_letters]. rewrite IH.
    destruct x; reflexivity.
  - induction b as [| x rest IH]; intros c C; [discriminate C |].
    cbn [encode_bytes] in C. unfold encode_byte in C.
    cbn [String.append JsText.has_char] in C.
    apply orb_prop in C. destruct C as [C | C];
      [| apply orb_prop in C; destruct C as [C | C]; [| exact (IH c C)]];
      apply Ascii.eqb_eq in C; subst c; destruct x; reflexivity.
Defined.

End Codec.

Module Scenes.

Import Examples Response Clipboard.
Local Open Scope string_scope.

(** [{ monitor: n, returnDirect: false }] *)
Definition monitor_to_file (n : Z) : Args :=
  {| filename := None; monitor := Some (MonitorNumber n); windowTitle := None;
     windowIndex := None; processName := None; folder := None;
     returnDirect := Some false; quality := None |}.

(** The message of the image library for a rejected quality. *)
Definition sharp_check : SharpCheck := {|
  invalid_quality_message := fun q =>
    "Expected integer between 1 and 100 for quality but received "
      ++ Js.Number_toString q ++ " of type number"
|}.

(** What the two calls before the search have written. *)
Definition dpi_lines : string := "0" ++ CRLF ++ "True" ++ CRLF.

(** A file system on which every file is there. *)
Definition everything_exists : string -> option string := fun _ => None.

(** A clipboard with a text and an image, and one with a text only. *)
Definition text_and_image : Content :=
  mkContent true true (Some "hello") (Some [x00; x01]).

Definition only_text (t : string) : Content :=
  mkContent true false (Some t) None.

End Scenes.

(** * Proof tools *)

(** Settles the integer comparisons of the goal that [lia] can decide. *)
Ltac settle_comparisons :=
  repeat match goal with
    | |- context [Z.leb ?x ?y] =>
        first [ replace (Z.leb x y) with true by (symmetry; apply Z.leb_le; lia)
              | replace (Z.leb x y) with false by (symmetry; apply Z.leb_gt; lia) ]
    | |- context [Z.ltb ?x ?y] =>
        first [ replace (Z.ltb x y) with true by (symmetry; apply Z.ltb_lt; lia)
              | replace (Z.ltb x y) with false by (symmetry; apply Z.ltb_ge; lia) ]
    | |- context [Z.eqb ?x ?y] =>
        first [ replace (Z.eqb x y) with true by (symmetry; apply Z.eqb_eq; lia)
              | replace (Z.eqb x y) with false by (symmetry; apply Z.eqb_neq; lia) ]
    end.

(** Splits the guard of the quality loop. *)
Ltac open_guard G :=
  unfold Compressor.loop_guard in G;
  apply andb_prop in G; destruct G as [_ G]; apply Z.ltb_lt in G.

(** Decides the comparisons of the clipboard script between a known
    format and a literal, and takes the branches that they select. *)
Ltac settle_formats :=
  repeat (cbn [negb]; cbv iota;
          match goal with
          | |- context [String.eqb (Js.toUpperCase ?s) ?u] =>
              let b := eval vm_compute in (String.eqb (Js.toUpperCase s) u) in
              change (String.eqb (Js.toUpperCase s) u) with b
          end);
  cbn [negb]; cbv iota.

(** * Properties of the compressor *)

Section CompressorFacts.
Import Compressor.
Context `{Sharp}.
Variable pngBuffer : Buffer.

(** Loop invariants: what the loop body preserves while the guard holds,
    the loop preserves. *)
Lemma reduce_quality_invariant (I : State -> Prop) :
  (forall s, loop_guard s = true -> I s -> I (loop_body pngBuffer s)) ->
  forall s, I s -> I (reduce_quality pngBuffer s).
Proof.
  intros step s.
  funelim (reduce_quality pngBuffer s); intros Hs.
  - match goal with IH : forall I : State -> Prop, _ |- _ =>
      apply (IH I); [exact step | apply step; assumption] end.
  - assumption.
Qed.

(** On exit the guard is false. *)
Lemma reduce_quality_exit (s : State) :
  loop_guard (reduce_quality pngBuffer s) = false.
Proof.
  funelim (reduce_quality pngBuffer s).
  - assumption.
  - match goal with E : loop_guard _ = false |- _ => exact E end.
Qed.

Lemma encodes_encode (stage : Stage) (s : State) :
  encodes (encode pngBuffer stage s) =
  encodes s ++ [mkEncode stage (processedImage s) (finalQuality s)
                  (jpeg pngBuffer (processedImage s) (finalQuality s))].
Proof. reflexivity. Qed.

(** The encoder calls of the fallbacks are tagged as such. *)
Lemma fallbacks_encodes (P : Encode -> Prop) (s : State) :
  (forall e, enc_stage e = Fallback1280 \/ enc_stage e = Fallback800 -> P e) ->
  Forall P (encodes s) -> Forall P (encodes (fallbacks pngBuffer s)).
Proof.
  intros HP Hs. unfold fallbacks.
  destruct (too_large (finalBuffer s)); [| assumption].
  match goal with |- context [if ?c then _ else _] => destruct c end;
    rewrite ?encodes_encode; simpl;
    repeat (apply Forall_app; split); auto;
    apply Forall_cons; auto; apply HP; simpl; auto.
Qed.

Lemma fallbacks_length (s : State) :
  (List.length (encodes (fallbacks pngBuffer s)) <= List.length (encodes s) + 2)%nat.
Proof.
  unfold fallbacks.
  destruct (too_large (finalBuffer s)); [| lia].
  match goal with |- context [if ?c then _ else _] => destruct c end;
    rewrite ?encodes_encode; simpl; rewrite ?length_app; simpl; lia.
Qed.

Lemma iterations_left_step (q : Z) :
  20 < q -> iterations_left (q - 10) + 1 = iterations_left q.
Proof.
  intros Hq. unfold iterations_left.
  replace (q - 10 - 11) with ((q - 11) + (-1) * 10) by lia.
  rewrite Z.div_add by lia.
  assert (1 <= (q - 11) / 10) by (apply Z.div_le_lower_bound; lia).
  lia.
Qed.

Lemma reduce_quality_length (s : State) :
  Z.of_nat (List.length (encodes (reduce_quality pngBuffer s)))
  <= Z.of_nat (List.length (encodes s)) + iterations_left (finalQuality s).
Proof.
  set (bound := Z.of_nat (List.length (encodes s)) + iterations_left (finalQuality s)).
  assert (I : Z.of_nat (List.length (encodes (reduce_quality pngBuffer s)))
              + iterations_left (finalQuality (reduce_quality pngBuffer s)) <= bound).
  { apply (reduce_quality_invariant
             (fun t => Z.of_nat (List.length (encodes t))
                       + iterations_left (finalQuality t) <= bound)); [| subst bound; lia].
    intros t G It. open_guard G.
    unfold loop_body. rewrite encodes_encode, length_app. simpl.
    pose proof (iterations_left_step (finalQuality t) G). lia. }
  unfold iterations_left in I at 1. lia.
Qed.

(** C1: the image that a Direct-mode request returns is at most
    950 KiB long, or it is the output of the last fallback: the original
    bitmap resized to width 800 and encoded at quality 50. *)
Theorem C1_budget_or_last_fallback (quality : Z) :
  Buffer_length (finalBuffer (compress pngBuffer quality)) <= maxSizeBytes
  \/ (exists earlier,
        encodes (compress pngBuffer quality)
        = earlier ++ [mkEncode Fallback800 (Resize 800) 50
                        (finalBuffer (compress pngBuffer quality))])
      /\ finalBuffer (compress pngBuffer quality) = jpeg pngBuffer (Resize 800) 50
      /\ finalQuality (compress pngBuffer quality) = 50.
Proof.
  unfold compress, fallbacks.
  match goal with |- context [reduce_quality pngBuffer ?s0] =>
    generalize (reduce_quality pngBuffer s0) end.
  intros s.
  destruct (too_large (finalBuffer s)) eqn:E0.
  - match goal with |- context [if ?c then _ else _] => destruct c eqn:E1 end.
    + right. split; [eexists; reflexivity | split; reflexivity].
    + left. unfold too_large in E1. apply Z.ltb_ge in E1. exact E1.
  - left. unfold too_large in E0. apply Z.ltb_ge in E0. exact E0.
Qed.

(** C6, as amended: for a requested quality in [20,100], every encoding
    of the quality-reduction loop uses a quality above 10, and of at least
    20 when the requested quality is a multiple of 10; the quality that is
    reported is the quality of the last encoding. *)
Theorem C6_reduction_quality_bounds (quality : Z) :
  20 <= quality <= 100 ->
  Forall (fun e => enc_stage e = QualityReduction ->
                   10 < enc_quality e
                   /\ (quality mod 10 = 0 -> 20 <= enc_quality e))
         (encodes (compress pngBuffer quality))
  /\ exists earlier e,
       encodes (compress pngBuffer quality) = earlier ++ [e]
       /\ enc_quality e = finalQuality (compress pngBuffer quality).
Proof.
  intros _. split.
  - unfold compress.
    apply fallbacks_encodes; [intros e [E | E] F; congruence |].
    match goal with |- Forall ?P _ =>
      apply (fun s step I0 => proj2 (reduce_quality_invariant
               (fun t => (quality mod 10 = 0 -> finalQuality t mod 10 = 0)
                         /\ Forall P (encodes t)) step s I0)) end.
    + intros t G [Hmod Hall]. open_guard G.
      unfold loop_body. rewrite encodes_encode. simpl. split.
      * intros Hq. specialize (Hmod Hq).
        replace (finalQuality t - 10) with (finalQuality t + (-1) * 10) by lia.
        rewrite Z.mod_add by lia. exact Hmod.
      * apply Forall_app. split; [exact Hall |].
        apply Forall_cons; [| apply Forall_nil]. simpl. intros _. split; [lia |].
        intros Hq. specialize (Hmod Hq).
        apply Z.mod_divide in Hmod; [| lia]. destruct Hmod as [m Hm]. lia.
    + rewrite encodes_encode. simpl. split; [auto |].
      apply Forall_cons; [| apply Forall_nil]. simpl. intros F. discriminate F.
  - unfold compress, fallbacks.
    match goal with |- context [reduce_quality pngBuffer ?s0] =>
      assert (L : exists earlier e,
                 encodes (reduce_quality pngBuffer s0) = earlier ++ [e]
                 /\ enc_quality e = finalQuality (reduce_quality pngBuffer s0));
      [ apply (reduce_quality_invariant
                 (fun t => exists earlier e,
                    encodes t = earlier ++ [e] /\ enc_quality e = finalQuality t))
      | generalize dependent (reduce_quality pngBuffer s0) ] end.
    + intros t _ _. unfold loop_body. rewrite encodes_encode.
      eexists. eexists. split; reflexivity.
    + rewrite encodes_encode. eexists. eexists. split; reflexivity.
    + intros s L.
      destruct (too_large (finalBuffer s)); [| exact L].
      match goal with |- context [if ?c then _ else _] => destruct c end;
        rewrite encodes_encode; eexists; eexists; split; reflexivity.
Qed.

(** C7, as amended: for a requested quality in [1,100] the pipeline ends
    after at most 11 encodings, and after at most 9 when the requested
    quality is at most 80. *)
Theorem C7_encode_count (quality : Z) :
  1 <= quality <= 100 ->
  (List.length (encodes (compress pngBuffer quality)) <= 11)%nat
  /\ (quality <= 80 ->
      (List.length (encodes (compress pngBuffer quality)) <= 9)%nat).
Proof.
  intros Hq. unfold compress.
  match goal with |- context [reduce_quality pngBuffer ?s0] =>
    pose proof (fallbacks_length (reduce_quality pngBuffer s0)) as F;
    pose proof (reduce_quality_length s0) as R end.
  rewrite encodes_encode in R.
  cbn [encode encodes finalQuality List.length app] in R.
  unfold iterations_left in R.
  assert ((quality - 11) / 10 <= 8).
  { apply Z.lt_succ_r. apply Z.div_lt_upper_bound; lia. }
  split; [lia |].
  intros H80.
  assert ((quality - 11) / 10 <= 6).
  { apply Z.lt_succ_r. apply Z.div_lt_upper_bound; lia. }
  lia.
Qed.

End CompressorFacts.

(** * Properties of the window search *)

Section SearchFacts.
Import Js Handler Bridge.
Context `{PowerShell} `{NodeHost}.

Lemma select_explicit_index (marker term : string) (ms : list WindowInfo)
    (idx : Z) :
  (1 < List.length ms)%nat -> 1 <= idx <= Z.of_nat (List.length ms) ->
  exists win,
    nth_error ms (Z.to_nat (idx - 1)) = Some win
    /\ select marker term ms true idx = Found win.
Proof.
  intros HN Hidx.
  exists (nth (Z.to_nat (idx - 1)) ms null_window). split.
  - apply nth_error_nth'. lia.
  - unfold select. settle_comparisons. reflexivity.
Qed.

(** The matches are the enumerated windows that pass a test, in
    enumeration order. *)
Lemma matchingWindows_filter (a : Args) (d : Desktop) (ms : list WindowInfo) :
  matchingWindows a d = Some ms ->
  exists keep, ms = filter keep (GetVisibleWindows d).
Proof.
  unfold matchingWindows, matchingWindows_title, matchingWindows_process.
  intros E.
  repeat match type of E with
         | (if ?c then _ else _) = _ => destruct c
         end;
    try discriminate E; injection E as <-; eexists; reflexivity.
Qed.

(** C5: when the query matches more than one window and the request
    carries a windowIndex between 1 and the number of matches, the search
    ends with the match of that rank (counting from 1, in the order of the
    filtered enumeration) and the script goes on to capture it; the
    disambiguation list is not produced. *)
Theorem C5_explicit_index_selects (a : Args) (d : Desktop)
    (ms : list WindowInfo) (idx : Z) :
  matchingWindows a d = Some ms ->
  (1 < List.length ms)%nat ->
  windowIndex a = Some idx ->
  1 <= idx <= Z.of_nat (List.length ms) ->
  (exists keep, ms = filter keep (GetVisibleWindows d))
  /\ exists win,
       nth_error ms (Z.to_nat (idx - 1)) = Some win
       /\ search a d = Found win
       /\ run a d = Capture (OfWindow (Handle win)) (action a).
Proof.
  intros Hms HN Hidx Hrange.
  split; [eapply matchingWindows_filter; eassumption |].
  assert (P : windowIndexProvided a = true)
    by (unfold windowIndexProvided; rewrite Hidx; reflexivity).
  assert (I : arg_windowIndex a = idx)
    by (unfold arg_windowIndex; rewrite Hidx; reflexivity).
  unfold matchingWindows in Hms. unfold run, search.
  destruct (truthy (windowTitle a)) eqn:T; simpl.
  - unfold search_title. rewrite Hms, P, I.
    destruct (select_explicit_index "WINDOW_NOT_FOUND:"
                (ps_expand (escapedWindowTitle a)) ms idx HN Hrange)
      as [win [Hn Hs]].
    exists win. rewrite Hs. auto.
  - destruct (truthy (processName a)) eqn:Q; [| discriminate Hms].
    unfold search_process. rewrite Hms, P, I.
    destruct (select_explicit_index "PROCESS_NOT_FOUND:"
                (ps_expand (escapedProcessName a)) ms idx HN Hrange)
      as [win [Hn Hs]].
    exists win. rewrite Hs. auto.
Qed.

End SearchFacts.

(** * Properties of the monitor selection *)

Section NumberText.
Import Js.

(** The text of a non-negative integer is a non-empty run of digits that
    reads back as the integer. *)
Lemma digits_of_nonneg (n : Z) :
  0 <= n ->
  exists digits,
    NilZero.uint_of_string (Number_toString n) = Some digits
    /\ Z.of_uint digits = n.
Proof.
  intros Hn. unfold Number_toString. destruct n as [| p | p]; [| | lia].
  - exists (Decimal.D0 Decimal.Nil). split; reflexivity.
  - exists (Pos.to_uint p). split.
    + simpl. apply NilZero.usu. apply Unsigned.to_uint_nonnil.
    + exact (DecimalZ.of_to (Z.pos p)).
Qed.

(** The text of a negative integer starts with a minus sign. *)
Lemma digits_of_negative (n : Z) :
  n < 0 -> NilZero.uint_of_string (Number_toString n) = None.
Proof.
  intros Hn. unfold Number_toString. destruct n as [| p | p]; [lia | lia |].
  simpl. destruct (NilEmpty.uint_of_string _); reflexivity.
Qed.

Lemma Number_toString_not_primary (n : Z) :
  String.eqb (toUpperCase (Number_toString n)) "PRIMARY" = false.
Proof.
  unfold Number_toString. destruct n as [| p | p]; [reflexivity | | reflexivity].
  simpl. destruct (Pos.to_uint p); reflexivity.
Qed.

End NumberText.

Section MonitorFacts.
Import Js Handler Bridge.
Context `{PowerShell} `{NodeHost}.
Local Open Scope string_scope.
Local Open Scope Z_scope.

Lemma sortedScreens_length (d : Desktop) :
  List.length (sortedScreens d) = List.length (AllScreens d).
Proof. apply Permutation_length. apply Sort_Object_X_perm. Qed.

(** A request without window target and with a numeric monitor runs the
    monitor script on the text of the number. *)
Lemma run_monitor_number (a : Args) (d : Desktop) (n : Z) :
  truthy (windowTitle a) = false ->
  truthy (processName a) = false ->
  monitor a = Some (MonitorNumber n) ->
  run a d =
  match targetScreen (Number_toString n) d with
  | inl s => Capture (OfScreen s) (action a)
  | inr failure => failure
  end.
Proof.
  intros T P M. unfold run, monitor_is_all, monitor_text, arg_monitor.
  rewrite T, P, M. reflexivity.
Qed.

(** What the monitor script does with a numeric monitor value n (and no
    window target): it sorts the monitors by ascending horizontal origin
    and captures the n-th of the sorted list when 1 <= n <= count; it
    throws an error naming the range 1 to count when n is 0 or above
    count, and the error "Invalid monitor parameter" when n is
    negative. *)
Lemma monitor_script_outcome (a : Args) (d : Desktop) (n : Z) :
  truthy (windowTitle a) = false ->
  truthy (processName a) = false ->
  monitor a = Some (MonitorNumber n) ->
  Z.of_nat (List.length (AllScreens d)) <= Int32_MaxValue ->
  Sorted (fun s t => Bounds_X s <= Bounds_X t) (sortedScreens d)
  /\ Permutation (sortedScreens d) (AllScreens d)
  /\ (1 <= n <= Z.of_nat (List.length (AllScreens d)) ->
      exists s,
        nth_error (sortedScreens d) (Z.to_nat (n - 1)) = Some s
        /\ run a d = Capture (OfScreen s) (action a))
  /\ (n = 0 \/ Z.of_nat (List.length (AllScreens d)) < n <= Int32_MaxValue ->
      run a d =
      Throw ("Monitor " ++ Number_toString n
               ++ " not found. Available monitors: 1 to "
               ++ Number_toString (Z.of_nat (List.length (AllScreens d)))))
  /\ (n < 0 ->
      run a d = Throw ("Invalid monitor parameter: " ++ Number_toString n)).
Proof.
  intros T P M Hcount.
  split; [apply Sort_Object_X_sorted |].
  split; [apply Sort_Object_X_perm |].
  rewrite (run_monitor_number a d n T P M).
  unfold targetScreen.
  rewrite Number_toString_not_primary, sortedScreens_length.
  split; [| split].
  - intros Hn.
    destruct (digits_of_nonneg n) as [digits [Hd Hv]]; [lia |].
    rewrite Hd, Hv. settle_comparisons.
    simpl. eexists. split; [| reflexivity].
    apply nth_error_nth'. rewrite sortedScreens_length. lia.
  - intros Hn.
    destruct (digits_of_nonneg n) as [digits [Hd Hv]]; [unfold Int32_MaxValue in *; lia |].
    rewrite Hd, Hv. unfold Int32_MaxValue in *.
    destruct Hn as [-> | Hn]; settle_comparisons; reflexivity.
  - intros Hn. rewrite (digits_of_negative n Hn). reflexivity.
Qed.

End MonitorFacts.

(** * Properties of the process-name normalisation *)

Section ReplaceFacts.
Import Js Bridge.
Local Open Scope string_scope.

Lemma includes_cons (c : ascii) (s sub : string) :
  includes (String c s) sub = false ->
  String.prefix sub (String c s) = false /\ includes s sub = false.
Proof. simpl. intros E. apply orb_false_iff in E. exact E. Qed.

(** Without an occurrence of [old] nothing is replaced. *)
Lemma Replace_no_occurrence (s old new : string) :
  includes s old = false -> String_Replace s old new = s.
Proof.
  unfold String_Replace. induction s as [| c s IH]; intros E.
  - reflexivity.
  - apply includes_cons in E. destruct E as [E1 E2].
    cbn [Replace_from]. rewrite E1, (IH E2). reflexivity.
Qed.

(** An occurrence of [.exe] that starts inside a non-empty [x] and is
    found in [x] followed by [.exe] lies within [x]: [.exe] does not
    overlap itself. *)
Lemma prefix_exe_inside (c : ascii) (x rest : string) :
  String.prefix ".exe" (String c x ++ ".exe" ++ rest) = true ->
  String.prefix ".exe" (String c x) = true.
Proof.
  cbn [String.prefix String.append].
  destruct (ascii_dec "." c); [| intros F; discriminate F].
  destruct x as [| c1 x]; cbn [String.prefix String.append].
  { destruct (ascii_dec "e" "."); [discriminate | intros F; discriminate F]. }
  destruct (ascii_dec "e" c1); [| intros F; discriminate F].
  destruct x as [| c2 x]; cbn [String.prefix String.append].
  { destruct (ascii_dec "x" "."); [discriminate | intros F; discriminate F]. }
  destruct (ascii_dec "x" c2); [| intros F; discriminate F].
  destruct x as [| c3 x]; cbn [String.prefix String.append].
  { destruct (ascii_dec "e" "."); [discriminate | intros F; discriminate F]. }
  destruct (ascii_dec "e" c3); [| intros F; discriminate F].
  intros _. destruct x; reflexivity.
Qed.

(** The leftmost occurrence is removed and the scan resumes after it. *)
Lemma Replace_exe_leftmost (before rest : string) :
  includes before ".exe" = false ->
  String_Replace (before ++ ".exe" ++ rest) ".exe" ""
  = before ++ String_Replace rest ".exe" "".
Proof.
  unfold String_Replace. induction before as [| c x IH]; intros E.
  - destruct rest; reflexivity.
  - apply includes_cons in E. destruct E as [E1 E2].
    change (String c x ++ ".exe" ++ rest)
      with (String c (x ++ ".exe" ++ rest)).
    cbn [Replace_from].
    destruct (String.prefix ".exe" (String c (x ++ ".exe" ++ rest))) eqn:P.
    + apply (prefix_exe_inside c x rest) in P. congruence.
    + rewrite (IH E2). reflexivity.
Qed.

Lemma searchProcess_leftmost (before rest : string) :
  includes before ".exe" = false ->
  searchProcess (before ++ ".exe" ++ rest) = before ++ searchProcess rest.
Proof. apply Replace_exe_leftmost. Qed.

Lemma searchProcess_final (before : string) :
  includes before ".exe" = false -> searchProcess (before ++ ".exe") = before.
Proof.
  intros E. change (before ++ ".exe") with (before ++ ".exe" ++ "").
  rewrite (searchProcess_leftmost before "" E).
  clear E. induction before as [| c x IH]; [reflexivity |].
  simpl. f_equal. exact IH.
Qed.

Lemma searchProcess_unchanged (name : string) :
  includes name ".exe" = false -> searchProcess name = name.
Proof. apply Replace_no_occurrence. Qed.

Section WithPowerShell.
Context `{PowerShell}.

(** C9, as amended: every occurrence of [.exe] in the supplied name is
    removed before the comparison, not only a final one.  When the bridge
    reads the name as [before], [.exe], [rest], with no [.exe] in
    [before], the text up to that leftmost occurrence is kept, the
    occurrence is dropped wherever it stands and the rest is treated in
    the same way; the windows kept are those whose process name is
    [-like] the result between two [*].  A final [.exe] alone is stripped,
    a text without [.exe] is left as it is. *)
Theorem C9_exe_removed_everywhere (a : Args) (d : Desktop)
    (before rest : string) :
  truthy (windowTitle a) = false ->
  truthy (processName a) = true ->
  ps_expand (Handler.escapedProcessName a) = before ++ ".exe" ++ rest ->
  includes before ".exe" = false ->
  searchProcess (before ++ ".exe" ++ rest) = before ++ searchProcess rest
  /\ matchingWindows a d
     = Some (filter
               (fun win => ps_like (ProcessName win)
                             ("*" ++ (before ++ searchProcess rest) ++ "*"))
               (GetVisibleWindows d))
  /\ searchProcess (before ++ ".exe") = before
  /\ searchProcess before = before.
Proof.
  intros T P E B.
  split; [apply searchProcess_leftmost; exact B |].
  split; [| split;
            [apply searchProcess_final; exact B
            | apply searchProcess_unchanged; exact B]].
  unfold matchingWindows, matchingWindows_process. rewrite T, P, E.
  rewrite (searchProcess_leftmost before rest B).
  destruct before; reflexivity.
Qed.

End WithPowerShell.

End ReplaceFacts.

(** * Properties of the generated script and of the filesystem effects *)

Section RequestFacts.
Import Js Handler Template Formatter Bridge.
Context `{PowerShell} `{NodeHost}.
Local Open Scope string_scope.

(** C10, as amended: when the request carries a non-empty windowTitle,
    the processName plays no role: the script holds the title search and
    is the same, as are the search and the outcome of the script, whatever
    processName is or is not given. *)
Theorem C10_title_only (a : Args) (p : option string) (d : Desktop) :
  truthy (windowTitle a) = true ->
  searchLogic a
  = searchLogic_title (escapedWindowTitle a) (psWindowIndexProvided a)
      (Number_toString (arg_windowIndex a))
  /\ psScript (with_processName p a) = psScript a
  /\ search (with_processName p a) d = search a d
  /\ run (with_processName p a) d = run a d.
Proof.
  intros T.
  assert (T' : truthy (windowTitle (with_processName p a)) = true) by exact T.
  repeat split.
  - unfold searchLogic. rewrite T. reflexivity.
  - unfold psScript, searchLogic. rewrite T, T'. reflexivity.
  - unfold search. rewrite T, T'. reflexivity.
  - unfold run, search. rewrite T, T'. reflexivity.
Qed.

(** A failed monitor selection leaves the filesystem alone. *)
Lemma targetScreen_failure (m : string) (d : Desktop) (o : Outcome) :
  targetScreen m d = inr o -> bridge_ops o = [].
Proof.
  unfold targetScreen. intros E.
  repeat match type of E with
         | (if ?c then _ else _) = _ => destruct c
         | match ?x with Some _ => _ | None => _ end = _ => destruct x
         end;
    try discriminate E; injection E as <-; reflexivity.
Qed.

(** In Direct mode the bridge writes no file. *)
Lemma direct_mode_saves_nothing (a : Args) (d : Desktop) :
  arg_returnDirect a = true -> bridge_ops (run a d) = [].
Proof.
  intros R. unfold run, action. rewrite R.
  destruct (truthy (windowTitle a) || truthy (processName a)).
  - destruct (search a d); reflexivity.
  - destruct (monitor_is_all a); [reflexivity |].
    destruct (targetScreen (monitor_text a) d) as [s | o] eqn:E;
      [reflexivity | exact (targetScreen_failure _ _ _ E)].
Qed.

(** Without a folder the handler creates the default directory before it
    looks at the mode. *)
Lemma destination_without_folder (a : Args) :
  truthy (folder a) = false ->
  fst (destination a) = [fs_mkdir (path_join [cwd; "screenshots"])].
Proof.
  unfold truthy, destination. destruct (folder a) as [f |]; [| reflexivity].
  destruct (String.eqb f ""); [reflexivity | intros F; discriminate F].
Qed.

(** What a Direct-mode request does to the filesystem is decided by the
    folder argument alone. *)
Lemma direct_mode_fs_ops (a : Args) (d : Desktop) :
  arg_returnDirect a = true ->
  fs_ops a d
  = if truthy (folder a) then []
    else [fs_mkdir (path_join [cwd; "screenshots"])].
Proof.
  intros R. unfold fs_ops.
  rewrite (direct_mode_saves_nothing a d R), app_nil_r.
  destruct (truthy (folder a)) eqn:F.
  - unfold truthy in F. unfold destination.
    destruct (folder a) as [f |]; [| discriminate F].
    destruct (String.eqb f ""); [discriminate F | reflexivity].
  - apply destination_without_folder. exact F.
Qed.

(** C4, at the request [{ returnDirect: true }]: the default screenshots
    directory is created although the image is returned inline. *)
Theorem C4_direct_mode_creates_directory (d : Desktop) :
  fs_ops {| filename := None; monitor := None; windowTitle := None;
            windowIndex := None; processName := None; folder := None;
            returnDirect := Some true; quality := None |} d
  = [fs_mkdir (path_join [cwd; "screenshots"])].
Proof.
  rewrite direct_mode_fs_ops by reflexivity. reflexivity.
Qed.

Lemma replace_all_nonempty (c : ascii) (r s : string) :
  r <> "" -> s <> "" -> replace_all c r s <> "".
Proof.
  intros Hr Hs. destruct s as [| d s]; [congruence |]. simpl.
  destruct (Ascii.eqb d c); [| discriminate].
  destruct r; [congruence | discriminate].
Qed.

Lemma mnt_to_drive_nonempty (s : string) : s <> "" -> mnt_to_drive s <> "".
Proof.
  intros Hs. unfold mnt_to_drive.
  repeat match goal with
         | |- context [match ?x with EmptyString => _ | String _ _ => _ end] =>
             destruct x
         | |- context [if ?c then _ else _] => destruct c
         end; congruence || discriminate.
Qed.

Lemma to_windows_nonempty (p : string) : p <> "" -> to_windows p <> "".
Proof.
  intros Hp. unfold to_windows.
  apply replace_all_nonempty; [discriminate |].
  apply mnt_to_drive_nonempty. exact Hp.
Qed.

Lemma path_resolve_nonempty (p : string) : path_resolve p <> "".
Proof.
  pose proof (path_resolve_absolute p) as A.
  destruct (path_resolve p); [discriminate A | discriminate].
Qed.

(** The Windows form of a folder is never the empty string. *)
Lemma windowsFolder_nonempty (dir : string) :
  dir <> "" -> windowsFolder dir <> "".
Proof.
  intros Hd. unfold windowsFolder.
  destruct (startsWith dir "/mnt/").
  - destruct (toUpperCase (charAt dir 5)); discriminate.
  - repeat match goal with |- context [if ?c then _ else _] => destruct c end;
      try (apply to_windows_nonempty; apply path_resolve_nonempty).
    exact Hd.
Qed.

(** With a folder, the path handed to the bridge is the folder in its
    Windows form: the filename does not enter it. *)
Lemma windowsPath_of_folder (a : Args) (dir : string) :
  folder a = Some dir -> dir <> "" -> windowsPath a = windowsFolder dir.
Proof.
  intros F Hd. unfold windowsPath, destination. rewrite F.
  apply String.eqb_neq in Hd. rewrite Hd. simpl.
  pose proof (windowsFolder_nonempty dir) as W.
  destruct (String.eqb (windowsFolder dir) "") eqn:E; [| reflexivity].
  apply String.eqb_eq in E. apply String.eqb_neq in Hd. tauto.
Qed.

Lemma windowsPath_ignores_filename (a : Args) (f : option string) :
  truthy (folder a) = true ->
  windowsPath (with_filename f a) = windowsPath a.
Proof.
  unfold truthy. destruct (folder a) as [dir |] eqn:F; [| intros E; discriminate E].
  intros E. apply negb_true_iff in E. apply String.eqb_neq in E.
  rewrite (windowsPath_of_folder a dir F E).
  apply windowsPath_of_folder; [exact F | exact E].
Qed.

(** C3, at the request
    [{ returnDirect: false, filename: "myshot.png", folder: "C:\shots" }]:
    the bitmap is saved to the folder path itself, the filename is not
    part of it, while the path that is checked and the path that is
    reported are the folder joined with the filename. *)
Theorem C3_folder_request_drops_filename (d : Desktop) :
  windowsPath (Examples.save_to "C:\shots" "myshot.png") = "C:\shots"
  /\ fs_ops (Examples.save_to "C:\shots" "myshot.png") d
     = [Bitmap_Save "C:\\shots"]
  /\ outputPath (Examples.save_to "C:\shots" "myshot.png")
     = path_join ["C:\shots"; "myshot.png"]
  /\ successMessage (Examples.save_to "C:\shots" "myshot.png")
     = "Screenshot saved successfully to: "
       ++ replace_all "\" "/" (path_join ["C:\shots"; "myshot.png"]).
Proof.
  split; [| split; [| split]].
  - apply (windowsPath_of_folder _ "C:\shots"); [reflexivity | discriminate].
  - unfold fs_ops, run, action, windowsPathEscaped.
    rewrite (windowsPath_of_folder _ "C:\shots") by (reflexivity || discriminate).
    reflexivity.
  - reflexivity.
  - reflexivity.
Qed.

(** C2, at three requests: the monitor text and the destination path are
    put between single quotes as they are (for the path, with the
    backslashes doubled), so a quote in them closes the literal and the
    rest of the caller's text is read as script; the title is put between
    double quotes with only the double quotes doubled, so [$(...)] stays
    in it. *)
Theorem C2_caller_text_reaches_script :
  match Quoting.literal_after "if ('"
          (psScript (Examples.monitor_string "1'; Remove-Item C:\x; '")) with
  | Some (value, tail) =>
      value = "1" /\ startsWith tail "; Remove-Item C:\x; '' -eq 'primary')" = true
  | None => False
  end
  /\ match Quoting.literal_after "$bitmap.Save('"
            (psScript (Examples.save_to "C:\a'; calc; '" "myshot.png")) with
     | Some (value, tail) =>
         value = "C:\\a" /\ startsWith tail "; calc; '', [System.Drawing" = true
     | None => False
     end
  /\ escapedWindowTitle (Examples.by_title "$(calc)") = "$(calc)".
Proof.
  split; [| split].
  - vm_compute. split; reflexivity.
  - vm_compute. split; reflexivity.
  - reflexivity.
Qed.

End RequestFacts.

(** * The claims at concrete requests *)

Section Concrete.
Import Js Handler Template Formatter Bridge Compressor Instances Examples.
#[local] Existing Instance plain_powershell.
#[local] Existing Instance posix_host.
Local Open Scope string_scope.
Local Open Scope Z_scope.

(** C5 at [{ windowTitle: "chrome", windowIndex: 2 }]: two of the four
    windows match, the second match is captured. *)
Lemma C5_explicit_index_selects_witness :
  matchingWindows second_chrome desktop = Some [inbox; docs]
  /\ (1 < List.length [inbox; docs])%nat
  /\ windowIndex second_chrome = Some 2
  /\ 1 <= 2 <= Z.of_nat (List.length [inbox; docs])
  /\ (exists keep, [inbox; docs] = filter keep (GetVisibleWindows desktop))
  /\ exists win,
       nth_error [inbox; docs] (Z.to_nat (2 - 1)) = Some win
       /\ search second_chrome desktop = Found win
       /\ run second_chrome desktop
          = Capture (OfWindow (Handle win)) (action second_chrome).
Proof.
  assert (M : matchingWindows second_chrome desktop = Some [inbox; docs])
    by (vm_compute; reflexivity).
  assert (N : (1 < List.length [inbox; docs])%nat) by (simpl; lia).
  assert (I : windowIndex second_chrome = Some 2) by reflexivity.
  assert (R : 1 <= 2 <= Z.of_nat (List.length [inbox; docs])) by (simpl; lia).
  exact (conj M (conj N (conj I (conj R
           (C5_explicit_index_selects second_chrome desktop [inbox; docs] 2
              M N I R))))).
Defined.

(** C6 fails at quality 25 with an encoder whose output fits the budget
    only from quality 15 down: the loop encodes at 15, below 20, and 15 is
    the quality that is reported. *)
Lemma C6_counterexample :
  20 <= 25 <= 100
  /\ map (fun e => (enc_stage e, enc_quality e))
         (encodes (@compress fits_at_15 [] 25))
     = [(RequestedQuality, 25); (QualityReduction, 15)]
  /\ finalQuality (@compress fits_at_15 [] 25) = 15
  /\ ~ Forall (fun e => enc_stage e = QualityReduction -> 20 <= enc_quality e)
         (encodes (@compress fits_at_15 [] 25)).
Proof.
  assert (T : map (fun e => (enc_stage e, enc_quality e))
                (encodes (@compress fits_at_15 [] 25))
              = [(RequestedQuality, 25); (QualityReduction, 15)])
    by (vm_compute; reflexivity).
  split; [lia |]. split; [exact T |]. split; [vm_compute; reflexivity |].
  intros F.
  assert (G : Forall (fun p => fst p = QualityReduction -> 20 <= snd p)
                (map (fun e => (enc_stage e, enc_quality e))
                   (encodes (@compress fits_at_15 [] 25)))).
  { apply Forall_map. exact F. }
  rewrite T in G.
  inversion G as [| ? ? _ G1]; subst.
  inversion G1 as [| ? ? G2 _]; subst.
  specialize (G2 eq_refl). simpl in G2. lia.
Qed.

(** C6, as amended, at the default quality 80 with an encoder whose
    output never fits. *)
Lemma C6_reduction_quality_bounds_witness :
  20 <= 80 <= 100
  /\ Forall (fun e => enc_stage e = QualityReduction ->
                      10 < enc_quality e
                      /\ (80 mod 10 = 0 -> 20 <= enc_quality e))
            (encodes (@compress never_fits [] 80))
  /\ exists earlier e,
       encodes (@compress never_fits [] 80) = (earlier ++ [e])%list
       /\ enc_quality e = finalQuality (@compress never_fits [] 80).
Proof.
  assert (R : 20 <= 80 <= 100) by lia.
  exact (conj R (@C6_reduction_quality_bounds never_fits [] 80 R)).
Defined.

(** C7 fails at quality 100 with an encoder whose output never fits:
    eleven encodings. *)
Lemma C7_counterexample :
  1 <= 100 <= 100
  /\ List.length (encodes (@compress never_fits [] 100)) = 11%nat
  /\ ~ (List.length (encodes (@compress never_fits [] 100)) <= 9)%nat.
Proof.
  assert (L : List.length (encodes (@compress never_fits [] 100)) = 11%nat)
    by (vm_compute; reflexivity).
  split; [lia |]. split; [exact L |]. rewrite L. lia.
Qed.

(** C7, as amended, at the default quality 80. *)
Lemma C7_encode_count_witness :
  1 <= 80 <= 100
  /\ (List.length (encodes (@compress never_fits [] 80)) <= 11)%nat
  /\ (80 <= 80 ->
      (List.length (encodes (@compress never_fits [] 80)) <= 9)%nat).
Proof.
  assert (R : 1 <= 80 <= 100) by lia.
  exact (conj R (@C7_encode_count never_fits [] 80 R)).
Defined.

(** The second monitor from the left is the one enumerated first. *)
Example second_monitor_is_the_right_one :
  run (monitor_number 2) desktop = Capture (OfScreen right_screen) Write_BASE64.
Proof. vm_compute. reflexivity. Qed.

(** C9 fails at the name "setup.exe.config", which has no final [.exe]:
    the inner [.exe] is removed and the window of the process
    "setup.config" matches. *)
Lemma C9_counterexample :
  searchProcess (ps_expand (escapedProcessName (by_process "setup.exe.config")))
  = "setup.config"
  /\ strip_trailing_exe "setup.exe.config" = "setup.exe.config"
  /\ matchingWindows (by_process "setup.exe.config") desktop = Some [installer]
  /\ ProcessName installer = "setup.config".
Proof.
  repeat split; vm_compute; reflexivity.
Qed.

(** C9, as amended, at [{ processName: "notepad.exe" }]. *)
Lemma C9_exe_removed_everywhere_witness :
  truthy (windowTitle (by_process "notepad.exe")) = false
  /\ truthy (processName (by_process "notepad.exe")) = true
  /\ ps_expand (escapedProcessName (by_process "notepad.exe"))
     = "notepad" ++ ".exe" ++ ""
  /\ includes "notepad" ".exe" = false
  /\ searchProcess ("notepad" ++ ".exe" ++ "") = "notepad" ++ searchProcess ""
  /\ matchingWindows (by_process "notepad.exe") desktop
     = Some (filter
               (fun win => ps_like (ProcessName win)
                             ("*" ++ ("notepad" ++ searchProcess "") ++ "*"))
               (GetVisibleWindows desktop))
  /\ searchProcess ("notepad" ++ ".exe") = "notepad"
  /\ searchProcess "notepad" = "notepad".
Proof.
  assert (T : truthy (windowTitle (by_process "notepad.exe")) = false)
    by reflexivity.
  assert (P : truthy (processName (by_process "notepad.exe")) = true)
    by reflexivity.
  assert (E : ps_expand (escapedProcessName (by_process "notepad.exe"))
              = "notepad" ++ ".exe" ++ "") by reflexivity.
  assert (B : includes "notepad" ".exe" = false) by reflexivity.
  exact (conj T (conj P (conj E (conj B
           (C9_exe_removed_everywhere (by_process "notepad.exe") desktop
              "notepad" "" T P E B))))).
Defined.

(** C10 fails at [{ windowTitle: "", processName: "notepad" }]: both are
    supplied, the script holds the process search and the window of
    notepad is found by its process name. *)
Lemma C10_counterexample :
  windowTitle (title_and_process "" "notepad") = Some ""
  /\ processName (title_and_process "" "notepad") = Some "notepad"
  /\ searchLogic (title_and_process "" "notepad")
     = searchLogic_process "notepad" "$false" "1"
  /\ matchingWindows (title_and_process "" "notepad") desktop = Some [notes]
  /\ search (title_and_process "" "notepad") desktop = Found notes.
Proof.
  repeat split; vm_compute; reflexivity.
Qed.

(** C10, as amended, at [{ windowTitle: "Inbox", processName: "notepad" }]. *)
Lemma C10_title_only_witness :
  truthy (windowTitle (title_and_process "Inbox" "notepad")) = true
  /\ searchLogic (title_and_process "Inbox" "notepad")
     = searchLogic_title (escapedWindowTitle (title_and_process "Inbox" "notepad"))
         (psWindowIndexProvided (title_and_process "Inbox" "notepad"))
         (Number_toString (arg_windowIndex (title_and_process "Inbox" "notepad")))
  /\ psScript (with_processName None (title_and_process "Inbox" "notepad"))
     = psScript (title_and_process "Inbox" "notepad")
  /\ search (with_processName None (title_and_process "Inbox" "notepad")) desktop
     = search (title_and_process "Inbox" "notepad") desktop
  /\ run (with_processName None (title_and_process "Inbox" "notepad")) desktop
     = run (title_and_process "Inbox" "notepad") desktop.
Proof.
  assert (T : truthy (windowTitle (title_and_process "Inbox" "notepad")) = true)
    by reflexivity.
  exact (conj T (C10_title_only (title_and_process "Inbox" "notepad") None
                   desktop T)).
Defined.

(** With the title "Inbox" and the process "notepad" the window that is
    captured is the one whose title matches. *)
Example title_wins_over_process :
  run (title_and_process "Inbox" "notepad") desktop
  = Capture (OfWindow (Handle inbox)) Write_BASE64.
Proof. vm_compute. reflexivity. Qed.

End Concrete.

(** * More on the compressor *)

Section CompressorTrace.
Import Compressor Trace.
Context `{Sharp}.
Variable pngBuffer : Buffer.

Lemma reduce_quality_stops (s : State) :
  loop_guard s = false -> reduce_quality pngBuffer s = s.
Proof.
  intros G. funelim (reduce_quality pngBuffer s).
  - congruence.
  - reflexivity.
Qed.

Lemma reductions_next (image : Pipeline) (quality : Z) (n : nat) :
  reductions image quality (S n)
  = reductions image quality n
    ++ [(QualityReduction, image, quality - 10 * Z.of_nat (S n))].
Proof.
  unfold reductions. rewrite seq_S, map_app. reflexivity.
Qed.

Lemma compress_entry (quality : Z) :
  compress pngBuffer quality
  = fallbacks pngBuffer (reduce_quality pngBuffer (entry pngBuffer quality)).
Proof. reflexivity. Qed.

(** The log of the loop: the first encoding at the requested quality,
    then one encoding per round, ten points lower each time, all on the
    same pipeline. *)
Lemma reduce_quality_trace (quality : Z) :
  exists n : nat,
    map view (encodes (reduce_quality pngBuffer (entry pngBuffer quality)))
    = (RequestedQuality, first_image pngBuffer, quality)
        :: reductions (first_image pngBuffer) quality n
    /\ finalQuality (reduce_quality pngBuffer (entry pngBuffer quality))
       = quality - 10 * Z.of_nat n
    /\ processedImage (reduce_quality pngBuffer (entry pngBuffer quality))
       = first_image pngBuffer
    /\ (n = 0%nat \/ 10 < quality - 10 * Z.of_nat n).
Proof.
  apply (reduce_quality_invariant pngBuffer
           (fun t => exists n : nat,
              map view (encodes t)
              = (RequestedQuality, first_image pngBuffer, quality)
                  :: reductions (first_image pngBuffer) quality n
              /\ finalQuality t = quality - 10 * Z.of_nat n
              /\ processedImage t = first_image pngBuffer
              /\ (n = 0%nat \/ 10 < quality - 10 * Z.of_nat n))).
  - intros t G [n [Hlog [Hq [Himg _]]]]. open_guard G.
    exists (S n). unfold loop_body.
    rewrite encodes_encode. cbn [set_quality encodes processedImage finalQuality].
    rewrite map_app, Hlog, reductions_next. cbn [map view enc_stage enc_image enc_quality].
    rewrite Himg, Hq. cbn [encode set_quality processedImage finalQuality].
    unfold view. cbn [enc_stage enc_image enc_quality].
    replace (quality - 10 * Z.of_nat n - 10)
      with (quality - 10 * Z.of_nat (S n)) by lia.
    split; [reflexivity |]. split; [reflexivity |].
    split; [exact Himg | right; lia].
  - exists 0%nat. unfold entry. rewrite encodes_encode. simpl.
    split; [reflexivity |]. split; [simpl; lia |].
    split; [reflexivity | left; reflexivity].
Qed.

(** The shape of the log of [compress]: one entry at the requested
    quality, then the rounds of the loop, then the fallbacks. *)
Lemma compress_log_shape (quality : Z) :
  exists (n : nat) (tail : list (Stage * Pipeline * Z)),
    map view (encodes (compress pngBuffer quality))
    = (RequestedQuality, first_image pngBuffer, quality)
        :: reductions (first_image pngBuffer) quality n ++ tail
    /\ (n = 0%nat \/ 10 < quality - 10 * Z.of_nat n)
    /\ (tail = []
        \/ (quality - 10 * Z.of_nat n <= 20
            /\ (tail = [fallback_1280]
                \/ tail = [fallback_1280; fallback_800]))).
Proof.
  destruct (reduce_quality_trace quality) as [n [Hlog [Hq [Himg Hn]]]].
  pose proof (reduce_quality_exit pngBuffer (entry pngBuffer quality)) as X.
  exists n. rewrite compress_entry. unfold fallbacks.
  destruct (too_large (finalBuffer (reduce_quality pngBuffer (entry pngBuffer quality))))
    eqn:L.
  - assert (F : quality - 10 * Z.of_nat n <= 20).
    { unfold loop_guard in X. rewrite L, Hq in X. simpl in X.
      apply Z.ltb_ge in X. exact X. }
    match goal with |- context [if ?c then _ else _] => destruct c end.
    + exists [fallback_1280; fallback_800].
      split; [| split; [exact Hn | right; split; [exact F | right; reflexivity]]].
      cbn [encode set_quality set_image encodes processedImage finalQuality].
      rewrite !map_app, Hlog. cbn [map]. rewrite <- !app_assoc. reflexivity.
    + exists [fallback_1280].
      split; [| split; [exact Hn | right; split; [exact F | left; reflexivity]]].
      cbn [encode set_quality set_image encodes processedImage finalQuality].
      rewrite !map_app, Hlog. reflexivity.
  - exists []. rewrite Hlog, app_nil_r.
    split; [reflexivity | split; [exact Hn | left; reflexivity]].
Qed.

(** The qualities of such a log are accepted by the encoder when the
    requested one is. *)
Lemma log_shape_accepted (quality : Z) (n : nat)
    (tail : list (Stage * Pipeline * Z)) :
  1 <= quality <= 100 ->
  (n = 0%nat \/ 10 < quality - 10 * Z.of_nat n) ->
  (tail = [] \/ tail = [fallback_1280]
   \/ tail = [fallback_1280; fallback_800]) ->
  Forall (fun v => accepts (snd v) = true)
    ((RequestedQuality, first_image pngBuffer, quality)
       :: reductions (first_image pngBuffer) quality n ++ tail).
Proof.
  intros Q N T.
  assert (A : forall q, 1 <= q <= 100 -> accepts q = true).
  { intros q Hq. unfold accepts. apply andb_true_intro.
    split; [apply Z.leb_le | apply Z.leb_le]; lia. }
  apply Forall_cons; [apply A; exact Q |].
  apply Forall_app. split.
  - unfold reductions. apply Forall_map. apply Forall_forall.
    intros i Hi. apply in_seq in Hi. cbn [snd]. apply A.
    destruct N as [-> | N]; lia.
  - destruct T as [-> | [-> | ->]]; repeat constructor.
Qed.

(** X1: the encodings that a request with a quality from 1 to 100 makes:
    one at the requested quality, then the rounds of the loop, ten points
    lower each time on the same pipeline and never at 10 or less, then no
    fallback, or the one at 1280 pixels, or both; a fallback only comes
    after the loop has ended at a quality of 20 or less.  Every one of
    these encodings is at a quality that the encoder accepts. *)
Theorem compress_trace (quality : Z) :
  1 <= quality <= 100 ->
  (exists (n : nat) (tail : list (Stage * Pipeline * Z)),
     map view (encodes (compress pngBuffer quality))
     = (RequestedQuality, first_image pngBuffer, quality)
         :: reductions (first_image pngBuffer) quality n ++ tail
     /\ (n = 0%nat \/ 10 < quality - 10 * Z.of_nat n)
     /\ (tail = []
         \/ (quality - 10 * Z.of_nat n <= 20
             /\ (tail = [fallback_1280]
                 \/ tail = [fallback_1280; fallback_800]))))
  /\ Forall (fun e => accepts (enc_quality e) = true)
       (encodes (compress pngBuffer quality)).
Proof.
  intros Q.
  destruct (compress_log_shape quality) as [n [tail [L [N T]]]].
  split; [exists n, tail; repeat split; assumption |].
  assert (F : Forall (fun v => accepts (snd v) = true)
                (map view (encodes (compress pngBuffer quality)))).
  { rewrite L. apply log_shape_accepted; [exact Q | exact N |].
    destruct T as [-> | [_ [-> | ->]]]; auto. }
  rewrite Forall_map in F. exact F.
Qed.

Lemma settled_encode (stage : Stage) (t : State) :
  (encodes t = [] \/ (logged t /\ too_large (finalBuffer t) = true)) ->
  wasResized t = negb (is_original (processedImage t)) ->
  settled pngBuffer (encode pngBuffer stage t).
Proof.
  intros Ht W. unfold settled, logged. rewrite encodes_encode.
  cbn [encode finalBuffer processedImage finalQuality wasResized].
  split; [| split; [reflexivity | exact W]].
  destruct Ht as [E | [[earlier [e [E [O F]]]] L]].
  - rewrite E. eexists [], _. split; [reflexivity |].
    split; [reflexivity | apply Forall_nil].
  - eexists (encodes t), _. split; [reflexivity |]. split; [reflexivity |].
    rewrite E. apply Forall_app. split; [exact F |].
    apply Forall_cons; [| apply Forall_nil]. rewrite O. exact L.
Qed.

Lemma compress_settled (quality : Z) :
  settled pngBuffer (compress pngBuffer quality).
Proof.
  rewrite compress_entry.
  assert (S0 : settled pngBuffer
                 (reduce_quality pngBuffer (entry pngBuffer quality))).
  { apply (reduce_quality_invariant pngBuffer (settled pngBuffer)).
    - intros t G [L [_ W]]. unfold loop_body. apply settled_encode.
      + right. split; [exact L |].
        unfold loop_guard in G. apply andb_prop in G. apply G.
      + exact W.
    - unfold entry. apply settled_encode; [left; reflexivity |].
      unfold first_image. simpl.
      destruct (1920 <? metadata_width pngBuffer); reflexivity. }
  unfold fallbacks.
  destruct (too_large (finalBuffer _)) eqn:L0; [| exact S0].
  destruct S0 as [Lg _].
  match goal with |- context [if too_large (finalBuffer ?s1) then _ else _] =>
    assert (S1 : settled pngBuffer s1);
    [ apply settled_encode; [right; split; [exact Lg | exact L0] | reflexivity]
    | destruct (too_large (finalBuffer s1)) eqn:L1; [| exact S1] ] end.
  apply settled_encode; [right; split; [apply S1 | exact L1] | reflexivity].
Qed.

End CompressorTrace.

(** * What the compressor returns *)

Section CompressorResult.
Import Compressor Trace.
Context `{Sharp}.
Variable pngBuffer : Buffer.

(** X2: the buffer returned is the output of the last encoding, every
    encoding before it was over the budget, and the quality and the resize
    flag that are reported are those of that last encoding. *)
Theorem compress_reports_its_last_encoding (quality : Z) :
  let s := compress pngBuffer quality in
  (exists earlier e,
     encodes s = earlier ++ [e]
     /\ enc_output e = finalBuffer s
     /\ Forall (fun e' => too_large (enc_output e') = true) earlier)
  /\ finalBuffer s = jpeg pngBuffer (processedImage s) (finalQuality s)
  /\ wasResized s = negb (is_original (processedImage s)).
Proof. exact (compress_settled pngBuffer quality). Qed.

(** After the loop the fallbacks leave the state or end at 1280 or 800
    pixels. *)
Lemma fallbacks_cases (t : State) :
  (too_large (finalBuffer t) = false /\ fallbacks pngBuffer t = t)
  \/ (too_large (finalBuffer t) = true
      /\ ((finalQuality (fallbacks pngBuffer t) = 60
           /\ processedImage (fallbacks pngBuffer t) = Resize 1280)
          \/ (finalQuality (fallbacks pngBuffer t) = 50
              /\ processedImage (fallbacks pngBuffer t) = Resize 800))
      /\ wasResized (fallbacks pngBuffer t) = true).
Proof.
  unfold fallbacks. destruct (too_large (finalBuffer t)) eqn:L.
  - right. split; [reflexivity |].
    match goal with |- context [if ?c then _ else _] => destruct c end.
    + split; [right; split; reflexivity | reflexivity].
    + split; [left; split; reflexivity | reflexivity].
  - left. split; reflexivity.
Qed.

(** X3: the quality that is reported is the requested one lowered by a
    multiple of ten that leaves it above 10, or 60 at 1280 pixels, or 50
    at 800 pixels. *)
Theorem final_quality_values (quality : Z) :
  let s := compress pngBuffer quality in
  (exists n : nat,
     finalQuality s = quality - 10 * Z.of_nat n
     /\ (n = 0%nat \/ 10 < finalQuality s)
     /\ processedImage s = first_image pngBuffer)
  \/ (finalQuality s = 60 /\ processedImage s = Resize 1280
      /\ wasResized s = true)
  \/ (finalQuality s = 50 /\ processedImage s = Resize 800
      /\ wasResized s = true).
Proof.
  intros s. subst s. rewrite compress_entry.
  destruct (reduce_quality_trace pngBuffer quality) as [n [_ [Hq [Himg Hn]]]].
  destruct (fallbacks_cases (reduce_quality pngBuffer (entry pngBuffer quality)))
    as [[_ E] | [_ [[[Q P] | [Q P]] W]]].
  - left. exists n. rewrite E, Hq. repeat split; [| exact Himg].
    destruct Hn as [-> | Hn]; [left; reflexivity | right; exact Hn].
  - right. left. repeat split; assumption.
  - right. right. repeat split; assumption.
Qed.

(** X4: an image whose first encoding fits is encoded once, at the
    requested quality. *)
Theorem fitting_image_is_encoded_once (quality : Z) :
  too_large (jpeg pngBuffer (first_image pngBuffer) quality) = false ->
  let s := compress pngBuffer quality in
  map view (encodes s) = [(RequestedQuality, first_image pngBuffer, quality)]
  /\ finalBuffer s = jpeg pngBuffer (first_image pngBuffer) quality
  /\ finalQuality s = quality
  /\ wasResized s = (1920 <? metadata_width pngBuffer).
Proof.
  intros F s. subst s. rewrite compress_entry.
  assert (L : too_large (finalBuffer (entry pngBuffer quality)) = false)
    by exact F.
  rewrite reduce_quality_stops by (unfold loop_guard; rewrite L; reflexivity).
  unfold fallbacks. rewrite L. repeat split; reflexivity.
Qed.

(** X5: a request for a quality of 20 or less whose first encoding does
    not fit gets a higher quality than it asked for, on a smaller
    image: the loop makes no round. *)
Theorem low_quality_request_is_raised (quality : Z) :
  quality <= 20 ->
  too_large (jpeg pngBuffer (first_image pngBuffer) quality) = true ->
  let s := compress pngBuffer quality in
  quality < finalQuality s
  /\ (finalQuality s = 60 \/ finalQuality s = 50)
  /\ wasResized s = true
  /\ (map view (encodes s)
      = [(RequestedQuality, first_image pngBuffer, quality); fallback_1280]
      \/ map view (encodes s)
         = [(RequestedQuality, first_image pngBuffer, quality);
            fallback_1280; fallback_800]).
Proof.
  intros Q F s. subst s. rewrite compress_entry.
  assert (L : too_large (finalBuffer (entry pngBuffer quality)) = true)
    by exact F.
  rewrite reduce_quality_stops.
  2:{ unfold loop_guard. cbn [entry encode finalQuality].
      replace (20 <? quality) with false
        by (symmetry; apply Z.ltb_ge; exact Q).
      apply andb_false_r. }
  unfold fallbacks. rewrite L.
  match goal with |- context [if ?c then _ else _] => destruct c end;
    cbn [encode set_quality set_image finalQuality wasResized encodes entry
         processedImage app map view enc_stage enc_image enc_quality];
    (split; [lia |]);
    (split; [auto |]); (split; [reflexivity |]);
    [right | left]; reflexivity.
Qed.

End CompressorResult.

(** * Characters and lines *)

Section TextFacts.
Import Js JsText.
Local Open Scope string_scope.

Lemma append_assoc (s t u : string) : (s ++ t) ++ u = s ++ t ++ u.
Proof.
  induction s as [| c s IH]; simpl; [reflexivity | rewrite IH; reflexivity].
Qed.

Lemma append_empty (s : string) : s ++ "" = s.
Proof.
  induction s as [| c s IH]; simpl; [reflexivity | rewrite IH; reflexivity].
Qed.

Lemma has_char_app (c : ascii) (s t : string) :
  has_char c (s ++ t) = has_char c s || has_char c t.
Proof.
  induction s as [| d s IH]; simpl; [reflexivity |].
  rewrite IH. apply orb_assoc.
Qed.

(** The text of an integer is made of digits and of the minus sign. *)
Lemma has_char_uint (c : ascii) (u : Decimal.uint) :
  has_char c "0123456789" = false ->
  has_char c (NilEmpty.string_of_uint u) = false.
Proof.
  intros D. cbn [has_char] in D.
  repeat match type of D with
         | (_ || _ = false) => apply orb_false_iff in D; destruct D as [? D]
         end.
  induction u; cbn [NilEmpty.string_of_uint has_char]; rewrite ?IHu;
    repeat match goal with E : Ascii.eqb _ c = false |- _ =>
             rewrite E; clear E end; reflexivity.
Qed.

Lemma has_char_number (c : ascii) (n : Z) :
  has_char c "-0123456789" = false ->
  has_char c (Number_toString n) = false.
Proof.
  intros D.
  assert (M : Ascii.eqb "-" c = false /\ has_char c "0123456789" = false).
  { cbn [has_char] in D. apply orb_false_iff in D. exact D. }
  destruct M as [M D'].
  assert (Z0 : Ascii.eqb "0" c = false).
  { cbn [has_char] in D'. apply orb_false_iff in D'. apply D'. }
  assert (U : forall u, has_char c (NilZero.string_of_uint u) = false).
  { intros u. unfold NilZero.string_of_uint.
    destruct u; try (apply has_char_uint; exact D').
    cbn [has_char]. rewrite Z0. reflexivity. }
  unfold Number_toString. destruct (Z.to_int n);
    cbn [NilZero.string_of_int has_char].
  - apply U.
  - rewrite M. apply U.
Qed.

Lemma split_nonempty (c : ascii) (s : string) : split c s <> [].
Proof.
  induction s as [| d s IH]; simpl; [discriminate |].
  destruct (Ascii.eqb d c); [discriminate |].
  destruct (split c s); [congruence | discriminate].
Qed.

(** A text without separator is its only piece. *)
Lemma split_whole (c : ascii) (s : string) :
  has_char c s = false -> split c s = [s].
Proof.
  induction s as [| d s IH]; simpl; [reflexivity |].
  intros E. apply orb_false_iff in E. destruct E as [E1 E2].
  rewrite E1, (IH E2). reflexivity.
Qed.

(** Splitting distributes over a separator. *)
Lemma split_at_separator (c : ascii) (s t : string) :
  split c (s ++ String c t) = (split c s ++ split c t)%list.
Proof.
  induction s as [| d s IH]; simpl.
  - rewrite Ascii.eqb_refl. reflexivity.
  - destruct (Ascii.eqb d c); rewrite IH; [reflexivity |].
    pose proof (split_nonempty c s) as N.
    destruct (split c s); [congruence | reflexivity].
Qed.

End TextFacts.

(** * More on the window search *)

Section SearchOutcomes.
Import Js JsText Handler Bridge Options.
Context `{PowerShell} `{NodeHost}.
Local Open Scope string_scope.
Local Open Scope Z_scope.

Lemma option_line_one_line (i : nat) (win : WindowInfo) :
  one_line win = true -> has_char "010" (option_line i win) = false.
Proof.
  unfold one_line, option_line. intros O.
  apply andb_prop in O. destruct O as [T P].
  apply negb_true_iff in T. apply negb_true_iff in P.
  rewrite !has_char_app, T, P, has_char_number by reflexivity.
  reflexivity.
Qed.

(** The list of lines 314-319, one match at a time. *)
Lemma windowList_from_cons (i : nat) (win : WindowInfo)
    (rest : list WindowInfo) :
  windowList_from i (win :: rest)
  = option_line (S i) win
      ++ match rest with
         | [] => ""
         | _ => String "010" (windowList_from (S i) rest)
         end.
Proof.
  unfold option_line. rewrite Nat2Z.inj_succ.
  cbn [windowList_from]. unfold Z.succ.
  rewrite !append_assoc. destruct rest; reflexivity.
Qed.

Lemma windowList_from_lines (i : nat) (ws : list WindowInfo) :
  ws <> [] -> forallb one_line ws = true ->
  split "010" (windowList_from i ws) = option_lines_from (S i) ws.
Proof.
  revert i. induction ws as [| win rest IH]; intros i N O; [congruence |].
  simpl in O. apply andb_prop in O. destruct O as [O1 O2].
  rewrite windowList_from_cons. cbn [option_lines_from].
  destruct rest as [| win' rest'].
  - rewrite append_empty. apply split_whole.
    apply option_line_one_line. exact O1.
  - rewrite split_at_separator, split_whole
      by (apply option_line_one_line; exact O1).
    rewrite (IH (S i)); [reflexivity | discriminate | exact O2].
Qed.

Lemma option_lines_from_length (i : nat) (ws : list WindowInfo) :
  List.length (option_lines_from i ws) = List.length ws.
Proof.
  revert i. induction ws as [| win rest IH]; intros i; simpl;
    [reflexivity | rewrite IH; reflexivity].
Qed.

(** The lines of the whole list: one per match, in order, then the
    cancel line. *)
Lemma windowList_lines (ws : list WindowInfo) :
  ws <> [] -> forallb one_line ws = true ->
  split "010" (windowList ws)
  = (option_lines_from 1 ws ++ [cancel_line (List.length ws)])%list.
Proof.
  intros N O. unfold windowList.
  change (windowList_from 0 ws ++ LF
            ++ Number_toString (Z.of_nat (List.length ws) + 1)
            ++ ". Cancel capture")
    with (windowList_from 0 ws ++ String "010" (cancel_line (List.length ws))).
  rewrite split_at_separator, (windowList_from_lines 0 ws N O).
  rewrite split_whole; [reflexivity |].
  unfold cancel_line. rewrite has_char_app, has_char_number by reflexivity.
  reflexivity.
Qed.

(** A query that is searched runs the three-way test of the script on
    its matches. *)
Lemma search_by_select (a : Args) (d : Desktop) (ms : list WindowInfo) :
  matchingWindows a d = Some ms ->
  truthy (windowTitle a) || truthy (processName a) = true
  /\ search a d
     = select (not_found_marker a) (query_term a) ms
         (windowIndexProvided a) (arg_windowIndex a).
Proof.
  unfold matchingWindows, search, search_title, search_process,
    not_found_marker, query_term.
  destruct (truthy (windowTitle a)).
  - intros ->. split; reflexivity.
  - destruct (truthy (processName a)); [| intros E; discriminate E].
    intros ->. split; reflexivity.
Qed.

(** X6: exactly one match is captured, whatever windowIndex says. *)
Theorem single_match_ignores_index (a : Args) (d : Desktop) (win : WindowInfo) :
  matchingWindows a d = Some [win] ->
  search a d = Found win
  /\ run a d = Capture (OfWindow (Handle win)) (action a).
Proof.
  intros M. destruct (search_by_select a d [win] M) as [T S].
  assert (F : search a d = Found win) by (rewrite S; reflexivity).
  split; [exact F |]. unfold run. rewrite T, F. reflexivity.
Qed.


(** Several matches without a usable windowIndex end the script with
    the list of all matches. *)
Lemma run_ambiguous (a : Args) (d : Desktop) (ms : list WindowInfo) :
  matchingWindows a d = Some ms ->
  (1 < List.length ms)%nat ->
  (forall idx, windowIndex a = Some idx ->
               idx < 1 \/ Z.of_nat (List.length ms) < idx) ->
  run a d
  = Error_WriteLine
      ("MULTIPLE_WINDOWS_FOUND:" ++ query_term a ++ ":" ++ windowList ms).
Proof.
  intros M N I. destruct (search_by_select a d ms M) as [T S].
  unfold run. rewrite T, S. unfold select.
  replace (windowIndexProvided a && (1 <=? arg_windowIndex a)
           && (arg_windowIndex a <=? Z.of_nat (List.length ms)))
    with false.
  - settle_comparisons. reflexivity.
  - symmetry. unfold windowIndexProvided, arg_windowIndex.
    destruct (windowIndex a) as [idx |]; [| reflexivity].
    simpl. destruct (I idx eq_refl); settle_comparisons;
      rewrite ?andb_false_r; reflexivity.
Qed.

(** The search of a request that names a window has a term. *)
Lemma matchingWindows_term (a : Args) (d : Desktop) (ms : list WindowInfo) :
  matchingWindows a d = Some ms -> query_term a <> "".
Proof.
  unfold matchingWindows, matchingWindows_title, matchingWindows_process,
    query_term.
  intros M. destruct (truthy (windowTitle a)).
  - destruct (String.eqb (ps_expand (escapedWindowTitle a)) "") eqn:E;
      [discriminate M | apply String.eqb_neq; exact E].
  - destruct (truthy (processName a)); [| discriminate M].
    destruct (String.eqb (ps_expand (escapedProcessName a)) "") eqn:E;
      [discriminate M | apply String.eqb_neq; exact E].
Qed.

(** X7: the window that the script captures is one of the matches. *)
Theorem found_window_is_a_match (a : Args) (d : Desktop) (win : WindowInfo) :
  search a d = Found win ->
  exists ms,
    matchingWindows a d = Some ms
    /\ In win ms
    /\ In win (GetVisibleWindows d).
Proof.
  intros F.
  destruct (matchingWindows a d) as [ms |] eqn:M.
  - exists ms. split; [reflexivity |].
    assert (I : In win ms).
    { destruct (search_by_select a d ms M) as [_ S]. rewrite S in F.
      unfold select in F.
      destruct (Z.of_nat (List.length ms) =? 0) eqn:E0; [discriminate F |].
      apply Z.eqb_neq in E0.
      destruct (1 <? Z.of_nat (List.length ms)).
      - destruct (windowIndexProvided a && (1 <=? arg_windowIndex a)
                  && (arg_windowIndex a <=? Z.of_nat (List.length ms))) eqn:C;
          [| discriminate F].
        apply andb_prop in C. destruct C as [C C3].
        apply andb_prop in C. destruct C as [_ C2].
        apply Z.leb_le in C2. apply Z.leb_le in C3.
        injection F as <-. apply nth_In. lia.
      - injection F as <-. apply nth_In. lia. }
    split; [exact I |].
    destruct (matchingWindows_filter a d ms M) as [keep ->].
    apply filter_In in I. apply I.
  - exfalso. unfold matchingWindows in M. unfold search, search_title, search_process in F.
    destruct (truthy (windowTitle a)); [rewrite M in F; discriminate F |].
    destruct (truthy (processName a)); [rewrite M in F; discriminate F |].
    discriminate F.
Qed.

End SearchOutcomes.

(** * More on the monitor selection *)

Section MonitorOrder.
Import Js Handler Bridge.
Context `{PowerShell}.
Local Open Scope string_scope.
Local Open Scope Z_scope.

Lemma sortedScreens_strongly (d : Desktop) :
  StronglySorted (fun s t => Bounds_X s <= Bounds_X t) (sortedScreens d).
Proof.
  apply Sorted_StronglySorted.
  - intros x y z Hxy Hyz. lia.
  - apply Sort_Object_X_sorted.
Qed.

Lemma strongly_sorted_nth (l : list Screen) (i j : nat) (default : Screen) :
  StronglySorted (fun s t => Bounds_X s <= Bounds_X t) l ->
  (i <= j)%nat -> (j < List.length l)%nat ->
  Bounds_X (nth i l default) <= Bounds_X (nth j l default).
Proof.
  intros S. revert i j. induction S as [| x l S IH F]; intros i j Hij Hj.
  - simpl in Hj. lia.
  - destruct i as [| i], j as [| j]; simpl in *; try lia.
    + rewrite Forall_forall in F. apply F. apply nth_In. lia.
    + apply IH; lia.
Qed.

(** When the script selects a screen for a number, the number is within
    the range and the screen is the one of that rank in the sorted list. *)
Lemma targetScreen_number (d : Desktop) (n : Z) (s : Screen) :
  targetScreen (Number_toString n) d = inl s ->
  1 <= n <= Z.of_nat (List.length (sortedScreens d))
  /\ s = nth (Z.to_nat (n - 1)) (sortedScreens d) (PrimaryScreen d).
Proof.
  unfold targetScreen. rewrite Number_toString_not_primary.
  destruct (Z.neg_nonneg_cases n) as [Neg | Nonneg].
  - rewrite (digits_of_negative n Neg). intros E. discriminate E.
  - destruct (digits_of_nonneg n Nonneg) as [digits [-> ->]].
    destruct (n <=? Int32_MaxValue); [| intros E; discriminate E].
    destruct ((0 <=? n - 1) && (n - 1 <? Z.of_nat (List.length (sortedScreens d))))
      eqn:R; [| intros E; discriminate E].
    apply andb_prop in R. destruct R as [R1 R2].
    apply Z.leb_le in R1. apply Z.ltb_lt in R2.
    intros E. injection E as <-. split; [lia | reflexivity].
Qed.

(** X8: a higher monitor number never selects a screen further left. *)
Theorem monitor_numbers_go_left_to_right (d : Desktop) (m n : Z)
    (s t : Screen) :
  targetScreen (Number_toString m) d = inl s ->
  targetScreen (Number_toString n) d = inl t ->
  m <= n ->
  Bounds_X s <= Bounds_X t.
Proof.
  intros Hs Ht Hmn.
  apply targetScreen_number in Hs. apply targetScreen_number in Ht.
  destruct Hs as [Rm ->]. destruct Ht as [Rn ->].
  apply strongly_sorted_nth; [apply sortedScreens_strongly | lia | lia].
Qed.

(** X9: monitor 1 is a leftmost monitor and the monitor of the highest
    number a rightmost one. *)
Theorem first_and_last_monitor (d : Desktop) (s t u : Screen) :
  targetScreen (Number_toString 1) d = inl s ->
  targetScreen (Number_toString (Z.of_nat (List.length (AllScreens d)))) d
  = inl t ->
  In u (AllScreens d) ->
  Bounds_X s <= Bounds_X u <= Bounds_X t.
Proof.
  intros Hs Ht Hu.
  apply targetScreen_number in Hs. apply targetScreen_number in Ht.
  destruct Hs as [Rs ->]. destruct Ht as [Rt ->].
  apply (Permutation_in _ (Permutation_sym (Sort_Object_X_perm (AllScreens d))))
    in Hu.
  fold (sortedScreens d) in Hu.
  destruct (In_nth _ _ (PrimaryScreen d) Hu) as [k [Hk <-]].
  rewrite <- sortedScreens_length in *.
  split; (apply strongly_sorted_nth;
          [apply sortedScreens_strongly | simpl; lia | lia]).
Qed.

(** X10: the screen that the script captures is the primary screen or one
    of the enumerated screens. *)
Theorem target_is_an_enumerated_screen (monitor : string) (d : Desktop)
    (s : Screen) :
  targetScreen monitor d = inl s ->
  (String.eqb (toUpperCase monitor) "PRIMARY" = true /\ s = PrimaryScreen d)
  \/ In s (AllScreens d).
Proof.
  unfold targetScreen.
  destruct (String.eqb (toUpperCase monitor) "PRIMARY").
  - intros E. injection E as <-. left. split; reflexivity.
  - destruct (NilZero.uint_of_string monitor) as [digits |];
      [| intros E; discriminate E].
    destruct (Z.of_uint digits <=? Int32_MaxValue); [| intros E; discriminate E].
    destruct ((0 <=? Z.of_uint digits - 1)
              && (Z.of_uint digits - 1 <? Z.of_nat (List.length (sortedScreens d))))
      eqn:R; [| intros E; discriminate E].
    apply andb_prop in R. destruct R as [R1 R2].
    apply Z.leb_le in R1. apply Z.ltb_lt in R2.
    intros E. injection E as <-. right.
    apply (Permutation_in _ (Sort_Object_X_perm (AllScreens d))).
    apply nth_In. unfold sortedScreens in R2. lia.
Qed.

End MonitorOrder.

(** * Arguments that a request does not use *)

Section UnusedArguments.
Import Js Handler Template Formatter Bridge.
Context `{PowerShell} `{NodeHost}.
Local Open Scope string_scope.

(** X11: in Direct mode the script and its outcome do not depend on the
    filename and the folder. *)
Theorem direct_mode_ignores_destination (a : Args) (f g : option string)
    (d : Desktop) :
  arg_returnDirect a = true ->
  psScript (with_filename f (with_folder g a)) = psScript a
  /\ run (with_filename f (with_folder g a)) d = run a d.
Proof.
  intros R.
  assert (R' : arg_returnDirect (with_filename f (with_folder g a)) = true)
    by exact R.
  assert (C : captureCode (with_filename f (with_folder g a)) = captureCode a).
  { unfold captureCode. rewrite R, R'. reflexivity. }
  split.
  - unfold psScript. rewrite C. reflexivity.
  - unfold run, action. rewrite R, R'. reflexivity.
Qed.

(** X12: with a window target the script and its outcome do not depend on
    the monitor argument. *)
Theorem window_target_ignores_monitor (a : Args) (m : option MonitorArg)
    (d : Desktop) :
  truthy (windowTitle a) || truthy (processName a) = true ->
  psScript (with_monitor m a) = psScript a
  /\ run (with_monitor m a) d = run a d.
Proof.
  intros W.
  assert (W' : truthy (windowTitle (with_monitor m a))
               || truthy (processName (with_monitor m a)) = true) by exact W.
  split.
  - unfold psScript. rewrite W, W'. reflexivity.
  - unfold run. rewrite W, W'. reflexivity.
Qed.

End UnusedArguments.

(** * The conversion of paths *)

Section PathFacts.
Import Js JsText Handler.
Context `{NodeHost}.
Local Open Scope string_scope.

Lemma replace_all_removes (c : ascii) (r s : string) :
  has_char c r = false -> has_char c (replace_all c r s) = false.
Proof.
  intros R. induction s as [| d s IH]; simpl; [reflexivity |].
  destruct (Ascii.eqb d c) eqn:E.
  - rewrite has_char_app, R, IH. reflexivity.
  - simpl. rewrite E, IH. reflexivity.
Qed.

(** A path in its Windows form holds no forward slash. *)
Lemma to_windows_has_no_slash (p : string) :
  has_char "/" (to_windows p) = false.
Proof. unfold to_windows. apply replace_all_removes. reflexivity. Qed.

(** X13: without a folder, the path that the script saves to holds no
    forward slash, and in the script every backslash of it is doubled. *)
Theorem default_destination_is_a_windows_path (a : Args) :
  truthy (folder a) = false ->
  windowsPath a
  = to_windows (path_join [cwd; "screenshots"; arg_filename a])
  /\ has_char "/" (windowsPath a) = false
  /\ has_char "/" (windowsPathEscaped a) = false.
Proof.
  intros F.
  assert (W : windowsPath a
              = to_windows (path_join [cwd; "screenshots"; arg_filename a])).
  { unfold windowsPath, destination, truthy in *.
    destruct (folder a) as [dir |]; [| reflexivity].
    destruct (String.eqb dir ""); [reflexivity | discriminate F]. }
  split; [exact W |]. split.
  - rewrite W. apply to_windows_has_no_slash.
  - unfold windowsPathEscaped. rewrite W.
    generalize (to_windows_has_no_slash
                  (path_join [cwd; "screenshots"; arg_filename a])).
    generalize (to_windows (path_join [cwd; "screenshots"; arg_filename a])).
    intros s. induction s as [| c s IH]; simpl; [reflexivity |].
    intros E. apply orb_false_iff in E. destruct E as [E1 E2].
    destruct (Ascii.eqb c "\"); simpl; rewrite ?E1, (IH E2); reflexivity.
Qed.

Lemma slice_zero (s : string) : slice s 0 = s.
Proof. destruct s; reflexivity. Qed.

Lemma upper_letter_is_no_slash (drive : ascii) :
  is_lower drive || is_upper drive = true ->
  Ascii.eqb (upper drive) "/" = false.
Proof.
  destruct drive as [[] [] [] [] [] [] [] []]; intros L;
    solve [reflexivity | vm_compute in L; discriminate L].
Qed.

(** X14: a folder under /mnt/<letter>/ becomes the path on that drive, and
    the two conversions of the handler (line 126 and the pattern of lines
    132-134) agree on it. *)
Theorem mnt_folder_is_a_drive_path (drive : ascii) (rest : string) :
  is_lower drive || is_upper drive = true ->
  windowsFolder ("/mnt/" ++ String drive ("/" ++ rest))
  = String (upper drive) (":\" ++ replace_all "/" "\" rest)
  /\ to_windows ("/mnt/" ++ String drive ("/" ++ rest))
     = windowsFolder ("/mnt/" ++ String drive ("/" ++ rest)).
Proof.
  intros L.
  assert (W : windowsFolder ("/mnt/" ++ String drive ("/" ++ rest))
              = String (upper drive) (":\" ++ replace_all "/" "\" rest)).
  { unfold windowsFolder, startsWith. cbn [String.append String.prefix].
    repeat match goal with |- context [ascii_dec ?x ?y] =>
             destruct (ascii_dec x y); [| congruence] end.
    cbn [charAt String.get toUpperCase slice String.append].
    rewrite slice_zero. reflexivity. }
  split; [exact W |]. rewrite W.
  unfold to_windows, mnt_to_drive. cbn [String.append].
  rewrite L.
  match goal with |- context [if ?c then _ else _] =>
    replace c with true by (vm_compute; reflexivity) end.
  cbn [replace_all String.append].
  rewrite (upper_letter_is_no_slash drive L). reflexivity.
Qed.

End PathFacts.

(** * Occurrences of a text in another *)

Section Occurrences.
Import Js JsText.
Local Open Scope string_scope.

Lemma prefix_empty (s : string) : String.prefix "" s = true.
Proof. destruct s; reflexivity. Qed.

Lemma prefix_cons (a b : ascii) (m s : string) :
  String.prefix (String a m) (String b s) = Ascii.eqb a b && String.prefix m s.
Proof.
  cbn [String.prefix]. destruct (ascii_dec a b) as [-> | N].
  - rewrite Ascii.eqb_refl. reflexivity.
  - apply Ascii.eqb_neq in N. rewrite N. reflexivity.
Qed.

Lemma prefix_of_empty (a : ascii) (m : string) :
  String.prefix (String a m) "" = false.
Proof. reflexivity. Qed.

Lemma prefix_app (m r : string) : String.prefix m (m ++ r) = true.
Proof.
  induction m as [| a m IH]; [apply prefix_empty |].
  cbn [String.append]. rewrite prefix_cons, Ascii.eqb_refl. exact IH.
Qed.

Lemma includes_unfold (c : ascii) (s sub : string) :
  includes (String c s) sub = String.prefix sub (String c s) || includes s sub.
Proof. reflexivity. Qed.

Lemma includes_of_empty (sub : string) :
  includes "" sub = String.prefix sub "".
Proof. cbn [includes]. apply orb_false_r. Qed.

(** The characters of an occurrence are characters of the text. *)
Lemma prefix_chars (c : ascii) (m s : string) :
  String.prefix m s = true -> has_char c m = true -> has_char c s = true.
Proof.
  revert s. induction m as [| a m IH]; intros s P C; [discriminate C |].
  destruct s as [| b s]; [discriminate P |].
  rewrite prefix_cons in P. apply andb_prop in P. destruct P as [E P].
  apply Ascii.eqb_eq in E. subst b.
  cbn [has_char] in *. apply orb_prop in C. destruct C as [C | C].
  - rewrite C. reflexivity.
  - rewrite (IH s P C). apply orb_true_r.
Qed.

Lemma includes_chars (c : ascii) (s m : string) :
  has_char c m = true -> has_char c s = false -> includes s m = false.
Proof.
  intros C. induction s as [| b s IH]; intros N.
  - rewrite includes_of_empty. destruct m; [discriminate C | reflexivity].
  - rewrite includes_unfold.
    destruct (String.prefix m (String b s)) eqn:P.
    + rewrite (prefix_chars c m _ P C) in N. discriminate N.
    + cbn [has_char] in N. apply orb_false_iff in N. apply IH, N.
Qed.

Lemma includes_prefix (s m : string) :
  String.prefix m s = true -> includes s m = true.
Proof. intros P. destruct s; cbn [includes]; rewrite P; reflexivity. Qed.

Lemma includes_app_left (s t m : string) :
  includes t m = true -> includes (s ++ t) m = true.
Proof.
  intros I. induction s as [| c s IH]; [exact I |].
  cbn [String.append]. rewrite includes_unfold, IH. apply orb_true_r.
Qed.

Lemma prefix_app_right (m s t : string) :
  String.prefix m s = true -> String.prefix m (s ++ t) = true.
Proof.
  revert s. induction m as [| a m IH]; intros s P; [apply prefix_empty |].
  destruct s as [| b s]; [discriminate P |].
  cbn [String.append]. rewrite prefix_cons in *.
  apply andb_prop in P. destruct P as [E P]. rewrite E, (IH s P). reflexivity.
Qed.

Lemma includes_app_right (s t m : string) :
  includes s m = true -> includes (s ++ t) m = true.
Proof.
  induction s as [| c s IH]; intros I.
  - rewrite includes_of_empty in I. destruct m; [| discriminate I].
    apply includes_prefix, prefix_empty.
  - cbn [String.append]. rewrite includes_unfold in *.
    apply orb_prop in I. destruct I as [P | I].
    + change (String c (s ++ t)) with (String c s ++ t).
      rewrite (prefix_app_right _ _ t P). reflexivity.
    + rewrite (IH I). apply orb_true_r.
Qed.

(** A text that shares no character with [m] can be dropped from the
    end. *)
Lemma prefix_app_disjoint (m s t : string) :
  (forall c, has_char c t = true -> has_char c m = false) ->
  String.prefix m (s ++ t) = String.prefix m s.
Proof.
  intros D. revert s. induction m as [| a m IH]; intros s.
  - rewrite !prefix_empty. reflexivity.
  - assert (D' : forall c, has_char c t = true -> has_char c m = false).
    { intros c C. specialize (D c C). cbn [has_char] in D.
      apply orb_false_iff in D. apply D. }
    destruct s as [| b s].
    + cbn [String.append]. destruct t as [| b t]; [reflexivity |].
      rewrite prefix_cons.
      destruct (Ascii.eqb a b) eqn:E; [| reflexivity].
      apply Ascii.eqb_eq in E. subst b.
      assert (C : has_char a (String a t) = true)
        by (cbn [has_char]; rewrite Ascii.eqb_refl; reflexivity).
      specialize (D a C). cbn [has_char] in D.
      rewrite Ascii.eqb_refl in D. discriminate D.
    + cbn [String.append]. rewrite !prefix_cons, (IH D'). reflexivity.
Qed.

Lemma includes_app_disjoint (m s t : string) :
  m <> "" ->
  (forall c, has_char c t = true -> has_char c m = false) ->
  includes (s ++ t) m = includes s m.
Proof.
  intros N D. induction s as [| b s IH].
  - cbn [String.append]. rewrite includes_of_empty.
    destruct m as [| a m]; [congruence |]. cbn [String.prefix].
    destruct (has_char a t) eqn:C.
    + specialize (D a C). cbn [has_char] in D.
      rewrite Ascii.eqb_refl in D. discriminate D.
    + apply (includes_chars a); [| exact C].
      cbn [has_char]. rewrite Ascii.eqb_refl. reflexivity.
  - cbn [String.append]. rewrite !includes_unfold, IH.
    change (String b (s ++ t)) with (String b s ++ t).
    rewrite (prefix_app_disjoint m (String b s) t D). reflexivity.
Qed.

(** *** Markers that end with their only colon *)

Lemma prefix_colon (body before rest : string) :
  has_char ":" body = false -> has_char ":" before = false ->
  String.prefix (body ++ ":") (before ++ String ":" rest)
  = String.eqb before body.
Proof.
  revert before. induction body as [| a body IH]; intros before B A.
  - destruct before as [| b before]; cbn [String.append].
    + rewrite prefix_cons, Ascii.eqb_refl, prefix_empty. reflexivity.
    + rewrite prefix_cons. cbn [has_char] in A.
      apply orb_false_iff in A. destruct A as [A _].
      rewrite Ascii.eqb_sym, A. reflexivity.
  - cbn [has_char] in B. apply orb_false_iff in B. destruct B as [B1 B2].
    destruct before as [| b before]; cbn [String.append].
    + rewrite prefix_cons, B1. reflexivity.
    + cbn [has_char] in A. apply orb_false_iff in A. destruct A as [_ A].
      rewrite prefix_cons, (IH before B2 A). cbn [String.eqb].
      rewrite Ascii.eqb_sym. reflexivity.
Qed.

(** An occurrence ends at the first colon or lies after it. *)
Lemma includes_first_colon (body before rest : string) :
  has_char ":" body = false -> has_char ":" before = false ->
  includes (before ++ String ":" rest) (body ++ ":")
  = ends_with before body || includes rest (body ++ ":").
Proof.
  intros B. induction before as [| b before IH]; intros A.
  - cbn [String.append ends_with]. rewrite includes_unfold.
    change (String ":" rest) with ("" ++ String ":" rest).
    rewrite (prefix_colon body "" rest B A), orb_false_r. reflexivity.
  - cbn [String.append ends_with]. rewrite includes_unfold.
    change (String b (before ++ String ":" rest))
      with (String b before ++ String ":" rest).
    rewrite (prefix_colon body (String b before) rest B A).
    cbn [has_char] in A. apply orb_false_iff in A. destruct A as [_ A].
    rewrite (IH A), orb_assoc. reflexivity.
Qed.

Lemma string_length_app (s t : string) :
  String.length (s ++ t) = (String.length s + String.length t)%nat.
Proof.
  induction s as [| c s IH]; simpl; [reflexivity | rewrite IH; reflexivity].
Qed.

Lemma eqb_app_longer (c : ascii) (s t : string) :
  String.eqb (String c s ++ t) t = false.
Proof.
  apply String.eqb_neq. intros E.
  apply (f_equal String.length) in E.
  rewrite string_length_app in E. simpl in E. lia.
Qed.

Lemma indexOf_prefix (s m : string) :
  String.prefix m s = true -> indexOf s m = Some O.
Proof. intros P. destruct s; cbn [indexOf]; rewrite P; reflexivity. Qed.

(** The first occurrence of such a marker, after a text without colon. *)
Lemma indexOf_first_colon (body before rest : string) :
  has_char ":" body = false -> has_char ":" before = false ->
  indexOf (before ++ body ++ ":" ++ rest) (body ++ ":")
  = Some (String.length before).
Proof.
  intros B. induction before as [| b before IH]; intros A.
  - cbn [String.append String.length].
    apply indexOf_prefix.
    pose proof (prefix_app (body ++ ":") rest) as P.
    rewrite append_assoc in P. exact P.
  - assert (A' : has_char ":" before = false).
    { cbn [has_char] in A. apply orb_false_iff in A. apply A. }
    assert (P : String.prefix (body ++ ":")
                  (String b before ++ body ++ ":" ++ rest) = false).
    { rewrite <- append_assoc.
      change ((String b before ++ body) ++ ":" ++ rest)
        with ((String b before ++ body) ++ String ":" rest).
      rewrite prefix_colon;
        [apply eqb_app_longer | exact B
        | rewrite has_char_app, A, B; reflexivity]. }
    change (String b before ++ body ++ ":" ++ rest)
      with (String b (before ++ body ++ ":" ++ rest)) in *.
    cbn [indexOf String.length]. rewrite P, (IH A'). reflexivity.
Qed.

Lemma slice_app (s t : string) : slice (s ++ t) (String.length s) = t.
Proof.
  induction s as [| c s IH]; [destruct t; reflexivity | exact IH].
Qed.

End Occurrences.

(** * Trimming *)

Section TrimFacts.
Import Js JsText.
Local Open Scope string_scope.

Lemma all_space_app (s t : string) :
  all_space (s ++ t) = all_space s && all_space t.
Proof.
  induction s as [| c s IH]; simpl; [reflexivity |].
  rewrite IH. apply andb_assoc.
Qed.

Lemma trimEnd_all_space (s : string) : all_space s = true -> trimEnd s = "".
Proof.
  destruct s as [| c s]; [reflexivity |]. cbn [all_space trimEnd].
  intros A. apply andb_prop in A. destruct A as [-> ->]. reflexivity.
Qed.

(** White space at the end is dropped. *)
Lemma trimEnd_app_space (s t : string) :
  all_space t = true -> trimEnd (s ++ t) = trimEnd s.
Proof.
  intros T. induction s as [| c s IH].
  - apply trimEnd_all_space. exact T.
  - cbn [String.append trimEnd].
    rewrite all_space_app, T, andb_true_r, IH. reflexivity.
Qed.

(** What precedes a text that is not all white space is kept. *)
Lemma trimEnd_app_solid (s t : string) :
  all_space t = false -> trimEnd (s ++ t) = s ++ trimEnd t.
Proof.
  intros T. induction s as [| c s IH]; [reflexivity |].
  cbn [String.append trimEnd].
  rewrite all_space_app, T, andb_false_r, andb_false_r, IH. reflexivity.
Qed.

Lemma trimStart_head (c : ascii) (s : string) :
  is_space c = false -> trimStart (String c s) = String c s.
Proof. intros C. cbn [trimStart]. rewrite C. reflexivity. Qed.

Lemma trimStart_all_space (s : string) :
  all_space s = true -> trimStart s = "".
Proof.
  induction s as [| c s IH]; [reflexivity |]. cbn [all_space trimStart].
  intros A. apply andb_prop in A. destruct A as [-> A]. apply IH, A.
Qed.

(** A text that starts and ends with characters that are no white space
    is what trimming leaves of it and of the white space after it. *)
Lemma trim_solid (c : ascii) (s ws : string) :
  is_space c = false -> trimEnd (String c s) = String c s ->
  all_space ws = true ->
  trim (String c s ++ ws) = String c s.
Proof.
  intros C E W. unfold trim.
  change (String c s ++ ws) with (String c (s ++ ws)).
  rewrite (trimStart_head c _ C).
  change (String c (s ++ ws)) with (String c s ++ ws).
  rewrite (trimEnd_app_space _ _ W). exact E.
Qed.

(** A text without white space is left as it is. *)
Lemma trimEnd_no_space (s : string) :
  (forall c, has_char c s = true -> is_space c = false) -> trimEnd s = s.
Proof.
  induction s as [| c s IH]; intros N; [reflexivity |].
  cbn [trimEnd]. rewrite (N c), IH.
  - reflexivity.
  - intros d D. apply N. cbn [has_char]. rewrite D. apply orb_true_r.
  - cbn [has_char]. rewrite Ascii.eqb_refl. reflexivity.
Qed.

Lemma trim_no_space (s ws : string) :
  (forall c, has_char c s = true -> is_space c = false) ->
  all_space ws = true ->
  trim (s ++ ws) = s.
Proof.
  intros N W. destruct s as [| c s].
  - unfold trim. cbn [String.append]. rewrite (trimStart_all_space ws W).
    reflexivity.
  - apply trim_solid; [| apply trimEnd_no_space; exact N | exact W].
    apply N. cbn [has_char]. rewrite Ascii.eqb_refl. reflexivity.
Qed.

(** The text of an integer starts with a character that is no white
    space. *)
Lemma Number_toString_head (n : Z) :
  exists c s, Number_toString n = String c s /\ is_space c = false.
Proof.
  unfold Number_toString. destruct (Z.to_int n) as [u | u]; simpl.
  - destruct u; simpl; eexists; eexists; split; reflexivity.
  - eexists; eexists; split; reflexivity.
Qed.

End TrimFacts.

(** * The patterns of the handler *)

Section PatternFacts.
Import Js JsText Response.
Local Open Scope string_scope.

Lemma until_colon_app (term rest : string) :
  has_char ":" term = false ->
  until_colon (term ++ String ":" rest) = Some (term, rest).
Proof.
  induction term as [| c term IH]; intros T.
  - cbn [String.append until_colon]. rewrite Ascii.eqb_refl. reflexivity.
  - cbn [has_char] in T. apply orb_false_iff in T. destruct T as [T1 T2].
    cbn [String.append until_colon]. rewrite T1, (IH T2). reflexivity.
Qed.

Lemma until_debug_whole (s : string) :
  includes s "DEBUG:" = false -> until_debug s = s.
Proof.
  induction s as [| c s IH]; intros I.
  - reflexivity.
  - rewrite includes_unfold in I. apply orb_false_iff in I.
    destruct I as [P I]. cbn [until_debug]. rewrite P, (IH I). reflexivity.
Qed.

Lemma lazy_body_whole (s : string) :
  s <> "" -> includes s "DEBUG:" = false -> lazy_body s = Some s.
Proof.
  destruct s as [| c s]; [congruence |]. intros _ I.
  rewrite includes_unfold in I. apply orb_false_iff in I.
  cbn [lazy_body]. rewrite until_debug_whole; [reflexivity | apply I].
Qed.

Lemma match_multiple_unfold (s : string) :
  match_multiple s
  = let next := match s with
                | EmptyString => None
                | String _ s' => match_multiple s'
                end in
    if String.prefix "MULTIPLE_WINDOWS_FOUND:" s then
      match multiple_here (slice s 23) with
      | Some groups => Some groups
      | None => next
      end
    else next.
Proof. destruct s; reflexivity. Qed.

(** The pattern of line 510 finds the marker that follows a text without
    colon, and splits what follows at the next colon. *)
Lemma match_multiple_found (noise term list : string) :
  has_char ":" noise = false ->
  has_char ":" term = false -> term <> "" ->
  list <> "" -> includes list "DEBUG:" = false ->
  match_multiple (noise ++ "MULTIPLE_WINDOWS_FOUND:" ++ term ++ ":" ++ list)
  = Some (term, list).
Proof.
  intros N T T0 L D. induction noise as [| c noise IH].
  - rewrite match_multiple_unfold. cbv zeta.
    change ("" ++ "MULTIPLE_WINDOWS_FOUND:" ++ term ++ ":" ++ list)
      with ("MULTIPLE_WINDOWS_FOUND:" ++ term ++ String ":" list).
    rewrite prefix_app.
    change 23%nat with (String.length "MULTIPLE_WINDOWS_FOUND:").
    rewrite slice_app. unfold multiple_here.
    rewrite (until_colon_app term list T).
    apply String.eqb_neq in T0. rewrite T0.
    rewrite (lazy_body_whole list L D). reflexivity.
  - assert (N' : has_char ":" noise = false).
    { cbn [has_char] in N. apply orb_false_iff in N. apply N. }
    assert (P : String.prefix "MULTIPLE_WINDOWS_FOUND:"
                  (String c noise ++ "MULTIPLE_WINDOWS_FOUND:" ++ term ++ ":" ++ list)
                = false).
    { change (String c noise ++ "MULTIPLE_WINDOWS_FOUND:" ++ term ++ ":" ++ list)
        with (String c noise ++ "MULTIPLE_WINDOWS_FOUND"
                ++ String ":" (term ++ ":" ++ list)).
      rewrite <- append_assoc.
      change "MULTIPLE_WINDOWS_FOUND:" with ("MULTIPLE_WINDOWS_FOUND" ++ ":").
      rewrite prefix_colon;
        [apply eqb_app_longer | reflexivity
        | rewrite has_char_app, N; reflexivity]. }
    rewrite match_multiple_unfold. cbv zeta. rewrite P.
    change (String c noise ++ "MULTIPLE_WINDOWS_FOUND:" ++ term ++ ":" ++ list)
      with (String c (noise ++ "MULTIPLE_WINDOWS_FOUND:" ++ term ++ ":" ++ list)).
    apply IH. exact N'.
Qed.

End PatternFacts.

(** * The disambiguation message *)

Section Disambiguation.
Import Js JsText Handler Bridge Options Response.
Local Open Scope string_scope.

(** A line that starts with a number and ends with the given text, which
    is not all white space: trimming leaves it. *)
Lemma trim_numbered (n : Z) (s : string) :
  trimEnd s = s -> all_space s = false ->
  trim (Number_toString n ++ s) = Number_toString n ++ s.
Proof.
  intros E A.
  destruct (Number_toString_head n) as [c [r [-> C]]].
  rewrite <- (append_empty (String c r ++ s)) at 1.
  change (String c r ++ s) with (String c (r ++ s)).
  apply trim_solid; [exact C | | reflexivity].
  change (String c (r ++ s)) with (String c r ++ s).
  rewrite (trimEnd_app_solid _ _ A), E. reflexivity.
Qed.

Lemma option_line_tail (win : WindowInfo) :
  trimEnd (". " ++ Title win ++ " (" ++ ProcessName win ++ ".exe)")
  = ". " ++ Title win ++ " (" ++ ProcessName win ++ ".exe)"
  /\ all_space (". " ++ Title win ++ " (" ++ ProcessName win ++ ".exe)") = false.
Proof.
  split; [| reflexivity].
  assert (A1 : all_space (ProcessName win ++ ".exe)") = false)
    by (rewrite all_space_app; apply andb_false_r).
  assert (A2 : all_space (" (" ++ ProcessName win ++ ".exe)") = false)
    by (rewrite all_space_app, A1; apply andb_false_r).
  assert (A3 : all_space (Title win ++ " (" ++ ProcessName win ++ ".exe)") = false)
    by (rewrite all_space_app, A2; apply andb_false_r).
  rewrite (trimEnd_app_solid ". " _ A3), (trimEnd_app_solid (Title win) _ A2),
    (trimEnd_app_solid " (" _ A1), (trimEnd_app_solid (ProcessName win) ".exe)")
    by reflexivity.
  reflexivity.
Qed.

Lemma trim_option_line (i : nat) (win : WindowInfo) :
  trim (option_line i win) = option_line i win.
Proof.
  unfold option_line. destruct (option_line_tail win) as [E A].
  apply trim_numbered; assumption.
Qed.

Lemma trim_cancel_line (count : nat) :
  trim (cancel_line count) = cancel_line count.
Proof. unfold cancel_line. apply trim_numbered; reflexivity. Qed.

Lemma numbered_not_empty (n : Z) (s : string) : Number_toString n ++ s <> "".
Proof.
  destruct (Number_toString_head n) as [c [r [-> _]]]. discriminate.
Qed.

Lemma shown_option_line (i : nat) (win : WindowInfo) :
  listable win = true -> shown (option_line i win).
Proof.
  unfold listable. intros L.
  apply andb_prop in L. destruct L as [L P].
  apply andb_prop in L. destruct L as [_ T].
  apply negb_true_iff in T. apply negb_true_iff in P.
  split; [apply trim_option_line |]. split; [apply numbered_not_empty |].
  unfold option_line.
  rewrite !has_char_app, T, P, has_char_number by reflexivity. reflexivity.
Qed.

Lemma shown_cancel_line (count : nat) : shown (cancel_line count).
Proof.
  split; [apply trim_cancel_line |]. split; [apply numbered_not_empty |].
  unfold cancel_line. rewrite has_char_app, has_char_number by reflexivity.
  reflexivity.
Qed.

Lemma shown_option_lines (i : nat) (ms : list WindowInfo) :
  forallb listable ms = true -> Forall shown (option_lines_from i ms).
Proof.
  revert i. induction ms as [| win ms IH]; intros i L; [apply Forall_nil |].
  simpl in L. apply andb_prop in L. destruct L as [L1 L2].
  apply Forall_cons; [apply shown_option_line; exact L1 | apply IH; exact L2].
Qed.

Lemma keep_shown (line : string) : shown line -> keep_line line = true.
Proof.
  intros [T [N A]]. unfold keep_line. rewrite T.
  apply String.eqb_neq in N. rewrite N.
  rewrite !(includes_chars "<" line) by (reflexivity || exact A).
  reflexivity.
Qed.

(** Lines that are shown pass the filters and are given one per line. *)
Lemma formatted_shown (ls : list string) :
  Forall shown ls ->
  filter (fun line => negb (String.eqb (trim line) "")) (filter keep_line ls) = ls
  /\ formattedOptions ls = each_on_a_line ls.
Proof.
  induction 1 as [| l ls S _ [IH1 IH2]]; [split; reflexivity |].
  pose proof (keep_shown l S) as K. destruct S as [T [N A]].
  apply String.eqb_neq in N.
  split.
  - cbn [filter]. rewrite K. cbn [filter]. rewrite T, N. cbn [negb].
    rewrite IH1. reflexivity.
  - cbn [formattedOptions each_on_a_line]. rewrite T, N, IH2.
    apply append_assoc.
Qed.

Lemma listable_one_line (ms : list WindowInfo) :
  forallb listable ms = true -> forallb one_line ms = true.
Proof.
  induction ms as [| win ms IH]; [reflexivity |]. simpl.
  intros L. apply andb_prop in L. destruct L as [L1 L2].
  rewrite (IH L2), andb_true_r. unfold listable in L1.
  apply andb_prop in L1. destruct L1 as [L1 _].
  apply andb_prop in L1. apply L1.
Qed.

(** The list of the script, and the line end after it, trimmed. *)
Lemma windowList_trim (ms : list WindowInfo) :
  ms <> [] -> trim (windowList ms ++ CRLF) = windowList ms.
Proof.
  destruct ms as [| win rest]; [congruence |]. intros _.
  assert (A1 : forall n, all_space (Number_toString n ++ ". Cancel capture") = false)
    by (intros n; rewrite all_space_app; apply andb_false_r).
  assert (A2 : forall n,
             all_space (LF ++ Number_toString n ++ ". Cancel capture") = false)
    by (intros n; rewrite all_space_app, A1; reflexivity).
  assert (E : trimEnd (windowList (win :: rest)) = windowList (win :: rest)).
  { unfold windowList.
    rewrite (trimEnd_app_solid _ _ (A2 _)), (trimEnd_app_solid LF _ (A1 _)),
      (trimEnd_app_solid (Number_toString _) ". Cancel capture") by reflexivity.
    reflexivity. }
  assert (S : exists s, windowList (win :: rest) = String "1" s)
    by (eexists; reflexivity).
  destruct S as [s S]. rewrite S in *.
  apply trim_solid; [reflexivity | exact E | reflexivity].
Qed.

(** The message for the two groups that the pattern finds in the output
    of the script. *)
Lemma multiple_windows_listed (term : string) (ms : list WindowInfo) :
  ms <> [] -> forallb listable ms = true ->
  multiple_windows (term, windowList ms ++ CRLF)
  = failed (multiple_helpMessage (trim term) (options_text ms)).
Proof.
  intros N L. unfold multiple_windows, windowLines. cbn [fst snd].
  rewrite (windowList_trim ms N),
    (windowList_lines ms N (listable_one_line ms L)).
  assert (F : Forall shown
                (option_lines_from 1 ms ++ [cancel_line (List.length ms)])).
  { apply Forall_app. split; [apply shown_option_lines; exact L |].
    apply Forall_cons; [apply shown_cancel_line | apply Forall_nil]. }
  destruct (formatted_shown _ F) as [K O]. rewrite K.
  destruct (option_lines_from 1 ms ++ [cancel_line (List.length ms)])%list
    as [| l ls] eqn:E.
  - destruct (option_lines_from 1 ms); discriminate E.
  - rewrite O. unfold options_text. rewrite E. reflexivity.
Qed.

Section WithLibraries.
Context `{PowerShell} `{NodeHost} `{Sharp} `{SharpCheck} `{Base64}.
Local Open Scope Z_scope.

(** X15: when several windows match and no usable windowIndex is given,
    the request fails with the disambiguation message, which quotes the
    trimmed term and lists every match in order, then the cancel line:
    one option more than there are matches.  The term is 7-bit text
    without colon, the titles and process names hold no line feed and no
    [<], and the list holds no [DEBUG:]. *)
Theorem ambiguous_request_lists_options (fs_access : string -> option string)
    (a : Args) (d : Desktop) (ms : list WindowInfo) (noise : string)
    (o : Output) :
  matchingWindows a d = Some ms ->
  (1 < List.length ms)%nat ->
  (forall idx, windowIndex a = Some idx ->
               idx < 1 \/ Z.of_nat (List.length ms) < idx) ->
  forallb listable ms = true ->
  has_char ":" noise = false ->
  seven_bit (query_term a) = true ->
  has_char ":" (query_term a) = false ->
  includes (windowList ms) "DEBUG:" = false ->
  failure_output noise (run a d) = Some o ->
  respond fs_access a o
  = failed (multiple_helpMessage (trim (query_term a)) (options_text ms))
  /\ List.length (option_lines_from 1 ms ++ [cancel_line (List.length ms)])
     = S (List.length ms).
Proof.
  intros M N I L Cn _ Ct D O.
  assert (N0 : ms <> []) by (destruct ms; [simpl in N; lia | discriminate]).
  rewrite (run_ambiguous a d ms M N I) in O. cbn [failure_output] in O.
  assert (E : o = mkOutput noise
                    (("MULTIPLE_WINDOWS_FOUND:" ++ query_term a ++ ":"
                        ++ windowList ms) ++ CRLF)) by congruence.
  clear O. subst o.
  split; [| rewrite List.length_app, option_lines_from_length; simpl; lia].
  pose proof (matchingWindows_term a d ms M) as T0.
  assert (D' : includes (windowList ms ++ CRLF) "DEBUG:" = false).
  { rewrite includes_app_disjoint; [exact D | discriminate |].
    intros c C. cbn [CRLF of_bytes has_char] in C.
    repeat (apply orb_prop in C; destruct C as [C | C]);
      try discriminate C; apply Ascii.eqb_eq in C; subst c; reflexivity. }
  assert (Ln : windowList ms ++ CRLF <> "").
  { destruct ms as [| win rest]; [congruence |].
    assert (S : exists s, windowList (win :: rest) = String "1" s)
      by (eexists; reflexivity).
    destruct S as [s S]. rewrite S. discriminate. }
  unfold respond. cbn [stdout stderr].
  replace (noise ++ ("MULTIPLE_WINDOWS_FOUND:" ++ query_term a ++ ":"
                       ++ windowList ms) ++ CRLF)
    with (noise ++ "MULTIPLE_WINDOWS_FOUND:" ++ query_term a ++ ":"
            ++ (windowList ms ++ CRLF))
    by (rewrite !append_assoc; reflexivity).
  rewrite (includes_app_left noise
             ("MULTIPLE_WINDOWS_FOUND:" ++ query_term a ++ ":"
                ++ (windowList ms ++ CRLF)) "MULTIPLE_WINDOWS_FOUND:")
    by (apply includes_prefix, prefix_app).
  rewrite (match_multiple_found noise (query_term a) _ Cn Ct T0 Ln D').
  apply multiple_windows_listed; assumption.
Qed.

End WithLibraries.

End Disambiguation.

(** * The not-found messages *)

Section NotFound.
Import Js JsText Handler Bridge Options Response.
Local Open Scope string_scope.

Lemma ends_with_unfold (c : ascii) (s m : string) :
  ends_with (String c s) m = String.eqb (String c s) m || ends_with s m.
Proof. reflexivity. Qed.

Lemma ends_with_suffix (p w : string) : ends_with (p ++ w) w = true.
Proof.
  induction p as [| c p IH].
  - destruct w; cbn [String.append ends_with]; rewrite String.eqb_refl;
      reflexivity.
  - cbn [String.append]. rewrite ends_with_unfold, IH. apply orb_true_r.
Qed.

(** Two texts of which none ends with the other: a text that ends with
    the one does not end with the other. *)
Lemma ends_with_other (s w m : string) :
  ends_with w m = false -> ends_with m w = false ->
  ends_with (s ++ w) m = false.
Proof.
  intros W M. induction s as [| c s IH]; [exact W |].
  cbn [String.append]. rewrite ends_with_unfold, IH, orb_false_r.
  apply String.eqb_neq. intros E.
  change (String c (s ++ w)) with (String c s ++ w) in E.
  rewrite <- E, ends_with_suffix in M. discriminate M.
Qed.





Section WithLibraries.
Context `{PowerShell} `{NodeHost} `{Sharp} `{SharpCheck} `{Base64}.
Local Open Scope Z_scope.


End WithLibraries.

End NotFound.

(** * The answer after a capture or a script error *)

Section Answers.
Import Js JsText Handler Bridge Options Response.
Local Open Scope string_scope.

Lemma indexOf_absent (s m : string) :
  includes s m = false -> indexOf s m = None.
Proof.
  induction s as [| c s IH]; intros I.
  - rewrite includes_of_empty in I. cbn [indexOf]. rewrite I. reflexivity.
  - rewrite includes_unfold in I. apply orb_false_iff in I.
    destruct I as [P I]. cbn [indexOf]. rewrite P, (IH I). reflexivity.
Qed.

(** Whether a marker occurs in an output whose first colon comes after
    [body], when the text after that colon lacks a character [k] of the
    marker. *)
Lemma includes_marker_by (k : ascii) (noise body other rest : string) :
  has_char ":" noise = false -> has_char ":" body = false ->
  has_char ":" other = false ->
  has_char k (other ++ ":") = true -> has_char k rest = false ->
  includes (noise ++ body ++ ":" ++ rest) (other ++ ":")
  = ends_with (noise ++ body) other.
Proof.
  intros N B O K R.
  change (body ++ ":" ++ rest) with (body ++ String ":" rest).
  rewrite <- append_assoc, includes_first_colon;
    [| exact O | rewrite has_char_app, N, B; reflexivity].
  rewrite (includes_chars k rest _ K R). apply orb_false_r.
Qed.

(** The three markers are absent from such an output, when [body] is no
    end of a marker and no marker is the end of [body]. *)
Lemma no_marker (noise body rest : string) :
  has_char ":" noise = false -> has_char ":" body = false ->
  has_char "_" rest = false ->
  ends_with body "MULTIPLE_WINDOWS_FOUND" = false ->
  ends_with "MULTIPLE_WINDOWS_FOUND" body = false ->
  ends_with body "WINDOW_NOT_FOUND" = false ->
  ends_with "WINDOW_NOT_FOUND" body = false ->
  ends_with body "PROCESS_NOT_FOUND" = false ->
  ends_with "PROCESS_NOT_FOUND" body = false ->
  includes (noise ++ body ++ ":" ++ rest) "MULTIPLE_WINDOWS_FOUND:" = false
  /\ includes (noise ++ body ++ ":" ++ rest) "WINDOW_NOT_FOUND:" = false
  /\ includes (noise ++ body ++ ":" ++ rest) "PROCESS_NOT_FOUND:" = false.
Proof.
  intros N B R M1 M2 W1 W2 P1 P2. repeat split.
  - etransitivity;
      [exact (includes_marker_by "_" noise body "MULTIPLE_WINDOWS_FOUND" rest
                N B eq_refl eq_refl R) |].
    apply ends_with_other; assumption.
  - etransitivity;
      [exact (includes_marker_by "_" noise body "WINDOW_NOT_FOUND" rest
                N B eq_refl eq_refl R) |].
    apply ends_with_other; assumption.
  - etransitivity;
      [exact (includes_marker_by "_" noise body "PROCESS_NOT_FOUND" rest
                N B eq_refl eq_refl R) |].
    apply ends_with_other; assumption.
Qed.

(** The characters of a base64 text are no white space, colon or
    underscore. *)
Lemma alphabet_solid (c : ascii) :
  has_char c
    "ABCDEFGHIJKLMNOPQRSTUVWXYZabcdefghijklmnopqrstuvwxyz0123456789+/="
  = true ->
  is_space c = false /\ Ascii.eqb c ":" = false /\ Ascii.eqb c "_" = false.
Proof.
  cbn [has_char]. intros C.
  repeat (apply orb_prop in C; destruct C as [C | C];
          [apply Ascii.eqb_eq in C; subst c; repeat split; reflexivity |]).
  discriminate C.
Qed.

Lemma has_char_eqb (c : ascii) (s : string) :
  (forall d, has_char d s = true -> Ascii.eqb d c = false) ->
  has_char c s = false.
Proof.
  intros A. destruct (has_char c s) eqn:E; [| reflexivity].
  specialize (A c E). rewrite Ascii.eqb_refl in A. discriminate A.
Qed.

(** The answer when the script has ended without error and without
    marker: the three searches for a marker fail. *)
Lemma respond_without_marker `{Sharp} `{SharpCheck} `{Base64} `{NodeHost}
    (fs_access : string -> option string) (a : Args) (o : Output) :
  includes (stdout o ++ stderr o) "MULTIPLE_WINDOWS_FOUND:" = false ->
  includes (stdout o ++ stderr o) "WINDOW_NOT_FOUND:" = false ->
  includes (stdout o ++ stderr o) "PROCESS_NOT_FOUND:" = false ->
  respond fs_access a o
  = if arg_returnDirect a then direct a (stdout o)
    else file fs_access a (stderr o).
Proof. intros M W P. unfold respond. rewrite M, W, P. reflexivity. Qed.

Section WithLibraries.
Context `{PowerShell} `{NodeHost} `{Sharp} `{SharpCheck} `{Base64}.
Local Open Scope Z_scope.

Lemma base64_solid (b : Buffer) :
  (forall c, has_char c (ToBase64String b) = true -> is_space c = false)
  /\ has_char ":" (ToBase64String b) = false
  /\ has_char "_" (ToBase64String b) = false.
Proof.
  repeat split.
  - intros c C. apply (alphabet_solid c), (ToBase64String_alphabet b c C).
  - apply has_char_eqb. intros d D.
    apply (alphabet_solid d), (ToBase64String_alphabet b d D).
  - apply has_char_eqb. intros d D.
    apply (alphabet_solid d), (ToBase64String_alphabet b d D).
Qed.

(** The base64 text that the handler reads back from the output of a
    capture. *)
Lemma base64Data_of_capture (noise : string) (b : Buffer) :
  has_char ":" noise = false ->
  base64Data (noise ++ "BASE64:" ++ ToBase64String b ++ CRLF)
  = ToBase64String b.
Proof.
  intros N. destruct (base64_solid b) as [S [C _]].
  unfold base64Data.
  assert (I : indexOf (noise ++ "BASE64:" ++ ToBase64String b ++ CRLF) "BASE64:"
              = Some (String.length noise))
    by exact (indexOf_first_colon "BASE64" noise _ eq_refl N).
  rewrite I. cbv zeta.
  replace (noise ++ "BASE64:" ++ ToBase64String b ++ CRLF)
    with ((noise ++ "BASE64:") ++ ToBase64String b ++ CRLF)
    by apply append_assoc.
  replace (String.length noise + 7)%nat
    with (String.length (noise ++ "BASE64:"))
    by (rewrite string_length_app; reflexivity).
  rewrite slice_app, (trim_no_space _ CRLF S eq_refl).
  rewrite (indexOf_absent _ "ERROR:"); [reflexivity |].
  apply (includes_chars ":"); [reflexivity | exact C].
Qed.

(** What the handler finds on the standard output of a capture in Direct
    mode: no marker, and the base64 text of the bitmap. *)
Lemma respond_to_capture (fs_access : string -> option string) (a : Args)
    (noise : string) (bitmap : Buffer) :
  arg_returnDirect a = true ->
  has_char ":" noise = false ->
  respond fs_access a (capture_output noise (action a) bitmap)
  = if Trace.accepts (arg_quality a) then
      Image (statusText "Screenshot captured successfully"
               (Compressor.compress bitmap (arg_quality a)))
        (Compressor.finalBuffer (Compressor.compress bitmap (arg_quality a)))
    else failed (invalid_quality_message (arg_quality a)).
Proof.
  intros D N. unfold action. rewrite D.
  cbn [capture_output].
  destruct (base64_solid bitmap) as [_ [C U]].
  assert (R : has_char "_" (ToBase64String bitmap ++ CRLF) = false)
    by (rewrite has_char_app, U; reflexivity).
  destruct (no_marker noise "BASE64" (ToBase64String bitmap ++ CRLF)
              N eq_refl R eq_refl eq_refl eq_refl eq_refl eq_refl eq_refl)
    as [M [W P]].
  rewrite respond_without_marker; cbn [stdout stderr];
    rewrite ?append_empty; try assumption.
  rewrite D. unfold direct.
  rewrite (includes_app_left noise _ "BASE64:")
    by (apply includes_prefix;
        exact (prefix_app "BASE64:" (ToBase64String bitmap ++ CRLF))).
  rewrite (base64Data_of_capture noise bitmap N), Buffer_from_ToBase64String.
  reflexivity.
Qed.

(** X17: in Direct mode a capture at a quality from 1 to 100 is answered
    with the compressed image. *)
Theorem direct_capture_returns_the_compressed_image
    (fs_access : string -> option string) (a : Args) (noise : string)
    (bitmap : Buffer) :
  arg_returnDirect a = true ->
  has_char ":" noise = false ->
  1 <= arg_quality a <= 100 ->
  let s := Compressor.compress bitmap (arg_quality a) in
  respond fs_access a (capture_output noise (action a) bitmap)
  = Image (statusText "Screenshot captured successfully" s)
      (Compressor.finalBuffer s).
Proof.
  intros D N Q s. subst s. rewrite (respond_to_capture fs_access a noise bitmap D N).
  unfold Trace.accepts.
  replace (1 <=? arg_quality a) with true by (symmetry; apply Z.leb_le; lia).
  replace (arg_quality a <=? 100) with true by (symmetry; apply Z.leb_le; lia).
  reflexivity.
Qed.

(** X26: in Direct mode a capture at a quality outside 1 to 100 is
    answered with the error of the encoder: the quality is not checked
    before the script has run, and no image is returned. *)
Theorem direct_capture_fails_on_rejected_quality
    (fs_access : string -> option string) (a : Args) (noise : string)
    (bitmap : Buffer) :
  arg_returnDirect a = true ->
  has_char ":" noise = false ->
  arg_quality a < 1 \/ 100 < arg_quality a ->
  respond fs_access a (capture_output noise (action a) bitmap)
  = failed (invalid_quality_message (arg_quality a)).
Proof.
  intros D N Q. rewrite (respond_to_capture fs_access a noise bitmap D N).
  unfold Trace.accepts.
  destruct Q as [Q | Q].
  - replace (1 <=? arg_quality a) with false by (symmetry; apply Z.leb_gt; lia).
    reflexivity.
  - replace (arg_quality a <=? 100) with false by (symmetry; apply Z.leb_gt; lia).
    apply andb_false_r || (rewrite andb_false_r; reflexivity).
Qed.

(** X18: in File mode a capture is answered by whether the file is there. *)
Theorem file_capture_answer_follows_the_file
    (fs_access : string -> option string) (a : Args) (noise : string)
    (bitmap : Buffer) :
  arg_returnDirect a = false ->
  has_char ":" noise = false ->
  respond fs_access a (capture_output noise (action a) bitmap)
  = match fs_access (outputPath a) with
    | None => Saved (successMessage a)
    | Some message => failed message
    end.
Proof.
  intros D N. unfold action. rewrite D. cbn [capture_output].
  rewrite respond_without_marker; cbn [stdout stderr];
    rewrite ?append_empty;
    try (apply (includes_chars ":"); [reflexivity | exact N]).
  rewrite D. reflexivity.
Qed.

(** The markers in the output of a script that ends in its [catch]. *)
Lemma no_marker_in_error (noise message : string) :
  has_char ":" noise = false -> has_char "_" message = false ->
  let out := noise ++ "ERROR: " ++ message ++ CRLF in
  includes out "MULTIPLE_WINDOWS_FOUND:" = false
  /\ includes out "WINDOW_NOT_FOUND:" = false
  /\ includes out "PROCESS_NOT_FOUND:" = false.
Proof.
  intros N U.
  assert (R : has_char "_" (" " ++ message ++ CRLF) = false)
    by (cbn [String.append has_char]; rewrite has_char_app, U; reflexivity).
  exact (no_marker noise "ERROR" (" " ++ message ++ CRLF)
           N eq_refl R eq_refl eq_refl eq_refl eq_refl eq_refl eq_refl).
Qed.

(** X19: in File mode the error of the script is not read (the script
    writes it on the standard output, the handler looks for it on the
    standard error): the answer is decided by whether a file is at the
    output path, so that a file left by an earlier request is reported
    as saved. *)
Theorem file_mode_does_not_read_the_script_error
    (fs_access : string -> option string) (a : Args) (d : Desktop)
    (noise message : string) (o : Output) :
  arg_returnDirect a = false ->
  run a d = Throw message ->
  has_char ":" noise = false -> has_char "_" message = false ->
  failure_output noise (run a d) = Some o ->
  respond fs_access a o
  = match fs_access (outputPath a) with
    | None => Saved (successMessage a)
    | Some text => failed text
    end.
Proof.
  intros D T N U O. rewrite T in O. cbn [failure_output] in O.
  assert (E : o = mkOutput (noise ++ "ERROR: " ++ message ++ CRLF) "")
    by congruence.
  clear O. subst o.
  destruct (no_marker_in_error noise message N U) as [M [W P]].
  rewrite respond_without_marker; cbn [stdout stderr];
    rewrite ?append_empty; try assumption.
  rewrite D. reflexivity.
Qed.

(** X20: in Direct mode the error of the script is replaced by a fixed
    message. *)
Theorem direct_mode_replaces_the_script_error
    (fs_access : string -> option string) (a : Args) (d : Desktop)
    (noise message : string) (o : Output) :
  arg_returnDirect a = true ->
  run a d = Throw message ->
  has_char ":" noise = false ->
  has_char "_" message = false -> has_char "B" message = false ->
  failure_output noise (run a d) = Some o ->
  respond fs_access a o
  = failed "Failed to generate base64 output from PowerShell".
Proof.
  intros D T N U B O. rewrite T in O. cbn [failure_output] in O.
  assert (E : o = mkOutput (noise ++ "ERROR: " ++ message ++ CRLF) "")
    by congruence.
  clear O. subst o.
  destruct (no_marker_in_error noise message N U) as [M [W P]].
  rewrite respond_without_marker; cbn [stdout stderr];
    rewrite ?append_empty; try assumption.
  rewrite D. unfold direct.
  assert (R : has_char "B" (" " ++ message ++ CRLF) = false)
    by (cbn [String.append has_char]; rewrite has_char_app, B; reflexivity).
  assert (I : includes (noise ++ "ERROR: " ++ message ++ CRLF) "BASE64:"
              = false).
  { etransitivity;
      [exact (includes_marker_by "B" noise "ERROR" "BASE64"
                (" " ++ message ++ CRLF) N eq_refl eq_refl eq_refl R) |].
    apply ends_with_other; reflexivity. }
  rewrite I. reflexivity.
Qed.

End WithLibraries.

End Answers.

(** * A monitor number at the level of the request *)

Section MonitorRequest.
Import Js JsText Handler Bridge Options Response.
Context `{PowerShell} `{NodeHost} `{Sharp} `{SharpCheck} `{Base64}.
Local Open Scope string_scope.
Local Open Scope Z_scope.

(** The answer to a script that has ended in its [catch]: the message is
    on the standard output, where neither mode reads it. *)
Lemma respond_to_script_error (fs_access : string -> option string)
    (a : Args) (noise message : string) :
  has_char ":" noise = false ->
  has_char "_" message = false -> has_char "B" message = false ->
  respond fs_access a (mkOutput (noise ++ "ERROR: " ++ message ++ CRLF) "")
  = if arg_returnDirect a
    then failed "Failed to generate base64 output from PowerShell"
    else match fs_access (outputPath a) with
         | None => Saved (successMessage a)
         | Some text => failed text
         end.
Proof.
  intros N U B.
  destruct (no_marker_in_error noise message N U) as [M [W P]].
  rewrite respond_without_marker; cbn [stdout stderr];
    rewrite ?append_empty; try assumption.
  destruct (arg_returnDirect a); [| reflexivity].
  unfold direct.
  assert (R : has_char "B" (" " ++ message ++ CRLF) = false)
    by (cbn [String.append has_char]; rewrite has_char_app, B; reflexivity).
  assert (I : includes (noise ++ "ERROR: " ++ message ++ CRLF) "BASE64:"
              = false).
  { etransitivity;
      [exact (includes_marker_by "B" noise "ERROR" "BASE64"
                (" " ++ message ++ CRLF) N eq_refl eq_refl eq_refl R) |].
    apply ends_with_other; reflexivity. }
  rewrite I. reflexivity.
Qed.

(** The two messages of the monitor script hold no underscore and no
    [B]. *)
Lemma monitor_messages_plain (n count : Z) :
  let not_found :=
    "Monitor " ++ Number_toString n
      ++ " not found. Available monitors: 1 to " ++ Number_toString count in
  let invalid := "Invalid monitor parameter: " ++ Number_toString n in
  (has_char "_" not_found = false /\ has_char "B" not_found = false)
  /\ (has_char "_" invalid = false /\ has_char "B" invalid = false).
Proof.
  cbv zeta.
  repeat split;
    rewrite !has_char_app, !has_char_number by reflexivity; reflexivity.
Qed.

(** C8: for a numeric monitor value n (a safe integer, and no window
    target) the script sorts the monitors by ascending horizontal origin
    and captures the n-th of the sorted list when 1 <= n <= count.  When
    n is outside that range (and within Int32) the script throws, for
    n >= 0 with a message that names the range 1 to count; but it writes
    the message on the standard output, which the handler does not read
    for errors: in Direct mode the request fails with a fixed message,
    in File mode it is answered by whether a file is at the output path.
    In neither case does the answer name the range. *)
Theorem C8_out_of_range_monitor_is_not_reported
    (fs_access : string -> option string) (a : Args) (d : Desktop) (n : Z)
    (noise : string) :
  truthy (windowTitle a) = false ->
  truthy (processName a) = false ->
  monitor a = Some (MonitorNumber n) ->
  isSafeInteger n = true ->
  Z.of_nat (List.length (AllScreens d)) <= Int32_MaxValue ->
  has_char ":" noise = false ->
  Sorted (fun s t => Bounds_X s <= Bounds_X t) (sortedScreens d)
  /\ Permutation (sortedScreens d) (AllScreens d)
  /\ (1 <= n <= Z.of_nat (List.length (AllScreens d)) ->
      exists s,
        nth_error (sortedScreens d) (Z.to_nat (n - 1)) = Some s
        /\ run a d = Capture (OfScreen s) (action a))
  /\ (n < 1 \/ Z.of_nat (List.length (AllScreens d)) < n <= Int32_MaxValue ->
      exists message,
        run a d = Throw message
        /\ (0 <= n ->
            message
            = "Monitor " ++ Number_toString n
                ++ " not found. Available monitors: 1 to "
                ++ Number_toString (Z.of_nat (List.length (AllScreens d))))
        /\ (n < 0 ->
            message = "Invalid monitor parameter: " ++ Number_toString n)
        /\ failure_output noise (run a d)
           = Some (mkOutput (noise ++ "ERROR: " ++ message ++ CRLF) "")
        /\ respond fs_access a
             (mkOutput (noise ++ "ERROR: " ++ message ++ CRLF) "")
           = if arg_returnDirect a
             then failed "Failed to generate base64 output from PowerShell"
             else match fs_access (outputPath a) with
                  | None => Saved (successMessage a)
                  | Some text => failed text
                  end).
Proof.
  intros T P M _ Hcount N.
  destruct (monitor_script_outcome a d n T P M Hcount)
    as [So [Pe [In [Out Neg]]]].
  split; [exact So |]. split; [exact Pe |]. split; [exact In |].
  intros R.
  destruct (monitor_messages_plain n (Z.of_nat (List.length (AllScreens d))))
    as [[U1 B1] [U2 B2]].
  destruct (Z.neg_nonneg_cases n) as [Hneg | Hpos].
  - exists ("Invalid monitor parameter: " ++ Number_toString n).
    rewrite (Neg Hneg). cbn [failure_output].
    split; [reflexivity |]. split; [lia |]. split; [reflexivity |].
    split; [reflexivity |].
    apply respond_to_script_error; assumption.
  - exists ("Monitor " ++ Number_toString n
              ++ " not found. Available monitors: 1 to "
              ++ Number_toString (Z.of_nat (List.length (AllScreens d)))).
    rewrite Out by lia. cbn [failure_output].
    split; [reflexivity |]. split; [reflexivity |]. split; [lia |].
    split; [reflexivity |].
    apply respond_to_script_error; assumption.
Qed.

End MonitorRequest.

(** * The clipboard tool *)

Section ClipboardFacts.
Import Js JsText Response Clipboard.
Local Open Scope string_scope.

(** A text without colon begins a text as it begins the part of that
    text before a colon. *)
Lemma prefix_before_colon (m q t : string) :
  has_char ":" m = false ->
  String.prefix m (q ++ String ":" t) = String.prefix m q.
Proof.
  revert q. induction m as [| a m IH]; intros q C.
  - rewrite !prefix_empty. reflexivity.
  - cbn [has_char] in C. apply orb_false_elim in C. destruct C as [A C].
    destruct q as [| b q]; cbn [String.append].
    + rewrite prefix_cons, A, prefix_of_empty. reflexivity.
    + rewrite !prefix_cons, (IH q C). reflexivity.
Qed.

(** An occurrence of such a text lies on one side of the colon. *)
Lemma includes_across_colon (m p t : string) :
  has_char ":" m = false ->
  includes (p ++ String ":" t) m = includes p m || includes t m.
Proof.
  intros C. induction p as [| c p IH].
  - cbn [String.append]. rewrite includes_unfold, includes_of_empty.
    pose proof (prefix_before_colon m "" t C) as P.
    cbn [String.append] in P. rewrite P. reflexivity.
  - cbn [String.append]. rewrite !includes_unfold, IH.
    change (String c (p ++ String ":" t)) with (String c p ++ String ":" t).
    rewrite (prefix_before_colon m (String c p) t C). apply orb_assoc.
Qed.

Lemma trimStart_app_solid (s t : string) :
  all_space s = false -> trimStart (s ++ t) = trimStart s ++ t.
Proof.
  induction s as [| c s IH]; [discriminate |].
  cbn [all_space String.append trimStart]. intros A.
  destruct (is_space c); [apply IH; exact A | reflexivity].
Qed.

Lemma trimStart_app_space (s t : string) :
  all_space s = true -> trimStart (s ++ t) = trimStart t.
Proof.
  induction s as [| c s IH]; [reflexivity |].
  cbn [all_space String.append trimStart]. intros A.
  apply andb_prop in A. destruct A as [-> A]. apply IH, A.
Qed.

(** White space at the end does not change what trimming gives. *)
Lemma trim_app_space (s ws : string) :
  all_space ws = true -> trim (s ++ ws) = trim s.
Proof.
  intros W. unfold trim. destruct (all_space s) eqn:A.
  - rewrite (trimStart_app_space s ws A), (trimStart_all_space ws W),
      (trimStart_all_space s A). reflexivity.
  - rewrite (trimStart_app_solid s ws A). apply trimEnd_app_space, W.
Qed.

(** The line end holds no character of a marker. *)
Lemma includes_line (s m : string) :
  m <> "" -> has_char "013" m = false -> has_char "010" m = false ->
  includes (s ++ CRLF) m = includes s m.
Proof.
  intros M R L. apply includes_app_disjoint; [exact M |].
  intros c C. cbn [CRLF of_bytes has_char] in C.
  repeat (apply orb_prop in C; destruct C as [C | C]);
    try discriminate C; apply Ascii.eqb_eq in C; subst c; assumption.
Qed.

Section WithLibraries.
Context `{Sharp} `{Base64}.
Local Open Scope Z_scope.

(** The answer to the line that carries the text of the clipboard. *)
Lemma answer_text (t : string) :
  answer (("TEXT_CONTENT:" ++ t) ++ CRLF) ""
  = if includes t "EMPTY_CLIPBOARD" then Text "Clipboard is empty"
    else if includes t "NO_TEXT_IN_CLIPBOARD" then
      Text "No text content in clipboard (clipboard may contain an image or other format)"
    else if includes t "NO_IMAGE_IN_CLIPBOARD" then
      Text "No image content in clipboard (clipboard may contain text or other format)"
    else Text ("Clipboard text content:" ++ LF ++ LF ++ trim t).
Proof.
  assert (O : forall m,
             has_char ":" m = false -> m <> "" ->
             has_char "013" m = false -> has_char "010" m = false ->
             includes "TEXT_CONTENT" m = false ->
             includes (("TEXT_CONTENT:" ++ t) ++ CRLF) m = includes t m).
  { intros m C M R L P.
    change (("TEXT_CONTENT:" ++ t) ++ CRLF)
      with ("TEXT_CONTENT" ++ String ":" (t ++ CRLF)).
    rewrite (includes_across_colon m _ _ C), P, (includes_line t m M R L).
    reflexivity. }
  unfold answer.
  rewrite (O "EMPTY_CLIPBOARD"), (O "NO_TEXT_IN_CLIPBOARD"),
    (O "NO_IMAGE_IN_CLIPBOARD") by (reflexivity || discriminate).
  destruct (includes t "EMPTY_CLIPBOARD"); [reflexivity |].
  destruct (includes t "NO_TEXT_IN_CLIPBOARD"); [reflexivity |].
  destruct (includes t "NO_IMAGE_IN_CLIPBOARD"); [reflexivity |].
  assert (P : String.prefix "TEXT_CONTENT:" (("TEXT_CONTENT:" ++ t) ++ CRLF)
              = true)
    by (rewrite append_assoc; apply prefix_app).
  rewrite (includes_prefix _ _ P), (indexOf_prefix _ _ P). cbv zeta.
  rewrite append_assoc.
  change (0 + 13)%nat with (String.length "TEXT_CONTENT:").
  rewrite slice_app, (trim_app_space t CRLF eq_refl). reflexivity.
Qed.

(** The answer to the line that carries the image of the clipboard. *)
Lemma answer_image (png : Buffer) :
  answer (("BASE64:" ++ ToBase64String png) ++ CRLF) ""
  = Picture
      (statusText "Clipboard image retrieved successfully"
         (Compressor.compress png 80))
      (Compressor.finalBuffer (Compressor.compress png 80)).
Proof.
  destruct (base64_solid png) as [_ [C U]].
  assert (O : forall m,
             has_char "_" m = true ->
             includes (("BASE64:" ++ ToBase64String png) ++ CRLF) m = false).
  { intros m M. apply (includes_chars "_"); [exact M |].
    rewrite !has_char_app, U. reflexivity. }
  unfold answer. rewrite !O by reflexivity.
  assert (P : String.prefix "BASE64:" (("BASE64:" ++ ToBase64String png) ++ CRLF)
              = true)
    by (rewrite append_assoc; apply prefix_app).
  rewrite (includes_prefix _ _ P). cbv zeta.
  rewrite append_assoc.
  assert (B : base64Data ("BASE64:" ++ ToBase64String png ++ CRLF)
              = ToBase64String png)
    by exact (base64Data_of_capture "" png eq_refl).
  rewrite B, Buffer_from_ToBase64String. reflexivity.
Qed.

(** The answers to the three lines with which the script leaves early. *)
Lemma answer_exit_lines :
  answer ("EMPTY_CLIPBOARD" ++ CRLF) "" = Text "Clipboard is empty"
  /\ answer ("NO_TEXT_IN_CLIPBOARD" ++ CRLF) ""
     = Text "No text content in clipboard (clipboard may contain an image or other format)"
  /\ answer ("NO_IMAGE_IN_CLIPBOARD" ++ CRLF) ""
     = Text "No image content in clipboard (clipboard may contain text or other format)".
Proof. repeat split; vm_compute; reflexivity. Qed.

Lemma answer_text_no_error (t : string) :
  is_error (answer (("TEXT_CONTENT:" ++ t) ++ CRLF) "") = false.
Proof.
  rewrite answer_text.
  repeat match goal with |- context [if ?b then _ else _] => destruct b end;
    reflexivity.
Qed.

(** The line that the script writes for one of the formats of the schema
    is never answered with an error. *)
Lemma script_answer_no_error (format : option string) (c : Content) :
  In format formats ->
  is_error (answer (script_stdout (arg_format format) c) "") = false.
Proof.
  destruct answer_exit_lines as [E [T I]].
  intros F. cbn [formats In] in F.
  destruct c as [hasText hasImage raw image].
  destruct F as [<- | [<- | [<- | [<- | []]]]];
    unfold script_stdout, detect, read;
    cbn [arg_format ContainsText ContainsImage Get_Clipboard_Raw GetImage];
    destruct hasText, hasImage, raw as [t |], image as [png |];
    settle_formats;
    rewrite ?E, ?T, ?I, ?answer_image; try reflexivity;
    apply answer_text_no_error.
Qed.

(** X21: for the formats of the schema, a request whose script runs
    without exception never ends in an error, whatever the clipboard
    holds. *)
Theorem schema_formats_never_fail (format : option string) (c : Content) :
  In format formats ->
  exists r, read_clipboard format c = Some r
            /\ forall message, r <> Error message.
Proof.
  intros F. pose proof (script_answer_no_error format c F) as N.
  assert (Q : has_char "'" (arg_format format) = false).
  { cbn [formats In] in F.
    destruct F as [<- | [<- | [<- | [<- | []]]]]; reflexivity. }
  unfold read_clipboard. cbv zeta. rewrite Q.
  eexists. split; [reflexivity |].
  intros message E. rewrite E in N. discriminate N.
Qed.

(** X22: when image and text are both there, the image is read unless
    text is asked for. *)
Theorem image_is_preferred (format : option string) (c : Content)
    (png : Buffer) :
  In format formats -> format <> Some "text" ->
  ContainsImage c = true -> GetImage c = Some png ->
  read_clipboard format c
  = Some (Picture
            (statusText "Clipboard image retrieved successfully"
               (Compressor.compress png 80))
            (Compressor.finalBuffer (Compressor.compress png 80))).
Proof.
  intros F N I G. cbn [formats In] in F.
  destruct F as [<- | [<- | [<- | [<- | []]]]]; try congruence;
    unfold read_clipboard, script_stdout, detect, read; cbv zeta;
    cbn [arg_format];
    match goal with
    | |- context [has_char ?c ?s] =>
        let b := eval vm_compute in (has_char c s) in
        change (has_char c s) with b
    end;
    rewrite I, G; settle_formats;
    rewrite answer_image; reflexivity.
Qed.

(** X23: a 7-bit text that holds none of the three markers of the script
    comes back trimmed, after the heading. *)
Theorem text_comes_back_trimmed (format : option string) (c : Content)
    (t : string) :
  In format formats ->
  detect (arg_format format) c = Format "text" ->
  ContainsText c = true -> Get_Clipboard_Raw c = Some t ->
  seven_bit t = true ->
  includes t "EMPTY_CLIPBOARD" = false ->
  includes t "NO_TEXT_IN_CLIPBOARD" = false ->
  includes t "NO_IMAGE_IN_CLIPBOARD" = false ->
  read_clipboard format c
  = Some (Text ("Clipboard text content:" ++ LF ++ LF ++ trim t)).
Proof.
  intros F D T G _ E1 E2 E3.
  assert (Q : has_char "'" (arg_format format) = false).
  { cbn [formats In] in F.
    destruct F as [<- | [<- | [<- | [<- | []]]]]; reflexivity. }
  unfold read_clipboard, script_stdout. cbv zeta. rewrite Q, D.
  unfold read. rewrite T, G. settle_formats.
  rewrite answer_text, E1, E2, E3. reflexivity.
Qed.

(** X24: a text that holds the marker of the empty clipboard is reported
    as an empty clipboard. *)
Theorem text_with_marker_reads_as_empty (format : option string)
    (c : Content) (t : string) :
  In format formats ->
  detect (arg_format format) c = Format "text" ->
  ContainsText c = true -> Get_Clipboard_Raw c = Some t ->
  includes t "EMPTY_CLIPBOARD" = true ->
  read_clipboard format c = Some (Text "Clipboard is empty").
Proof.
  intros F D T G E.
  assert (Q : has_char "'" (arg_format format) = false).
  { cbn [formats In] in F.
    destruct F as [<- | [<- | [<- | [<- | []]]]]; reflexivity. }
  unfold read_clipboard, script_stdout. cbv zeta. rewrite Q, D.
  unfold read. rewrite T, G. settle_formats.
  rewrite answer_text, E. reflexivity.
Qed.


End WithLibraries.

End ClipboardFacts.

(** * The further properties on concrete requests *)

Section MoreConcrete.
Import Compressor Trace Js JsText Handler Formatter Bridge Options Response.
Import Clipboard Instances Codec Examples Scenes.
Local Open Scope string_scope.
Local Open Scope Z_scope.

#[local] Existing Instance plain_powershell.
#[local] Existing Instance posix_host.
#[local] Existing Instance letters_codec.
#[local] Existing Instance never_fits.
#[local] Existing Instance sharp_check.

(** The default quality 80 with an encoder whose output never fits. *)
Lemma compress_trace_witness :
  1 <= 80 <= 100
  /\ (exists (n : nat) (tail : list (Stage * Pipeline * Z)),
        map view (encodes (compress [] 80))
        = (RequestedQuality, first_image [], 80)
            :: reductions (first_image []) 80 n ++ tail
        /\ (n = 0%nat \/ 10 < 80 - 10 * Z.of_nat n)
        /\ (tail = []
            \/ (80 - 10 * Z.of_nat n <= 20
                /\ (tail = [fallback_1280]
                    \/ tail = [fallback_1280; fallback_800]))))
  /\ Forall (fun e => accepts (enc_quality e) = true)
       (encodes (compress [] 80)).
Proof.
  assert (Q : 1 <= 80 <= 100) by lia.
  exact (conj Q (compress_trace [] 80 Q)).
Defined.

(** An image that fits at quality 15. *)
Lemma fitting_image_is_encoded_once_witness :
  too_large (@jpeg fits_at_15 [] (@first_image fits_at_15 []) 15) = false
  /\ (let s := @compress fits_at_15 [] 15 in
      map view (encodes s) = [(RequestedQuality, @first_image fits_at_15 [], 15)]
      /\ finalBuffer s = @jpeg fits_at_15 [] (@first_image fits_at_15 []) 15
      /\ finalQuality s = 15
      /\ wasResized s = (1920 <? @metadata_width fits_at_15 [])).
Proof.
  assert (F : too_large (@jpeg fits_at_15 [] (@first_image fits_at_15 []) 15)
              = false) by reflexivity.
  exact (conj F (@fitting_image_is_encoded_once fits_at_15 [] 15 F)).
Defined.

(** Quality 10 with an encoder whose output never fits. *)
Lemma low_quality_request_is_raised_witness :
  10 <= 20
  /\ too_large (@jpeg never_fits [] (@first_image never_fits []) 10) = true
  /\ (let s := compress [] 10 in
      10 < finalQuality s
      /\ (finalQuality s = 60 \/ finalQuality s = 50)
      /\ wasResized s = true
      /\ (map view (encodes s)
          = [(RequestedQuality, @first_image never_fits [], 10); fallback_1280]
          \/ map view (encodes s)
             = [(RequestedQuality, @first_image never_fits [], 10);
                fallback_1280; fallback_800])).
Proof.
  assert (Q : 10 <= 20) by lia.
  assert (F : too_large (@jpeg never_fits [] (@first_image never_fits []) 10)
              = true) by (vm_compute; reflexivity).
  exact (conj Q (conj F (@low_quality_request_is_raised never_fits [] 10 Q F))).
Defined.

(** [{ windowTitle: "Inbox", windowIndex: 7 }]: one match. *)
Lemma single_match_ignores_index_witness :
  matchingWindows (with_windowIndex (Some 7) (by_title "Inbox")) desktop
  = Some [inbox]
  /\ search (with_windowIndex (Some 7) (by_title "Inbox")) desktop = Found inbox
  /\ run (with_windowIndex (Some 7) (by_title "Inbox")) desktop
     = Capture (OfWindow (Handle inbox))
         (action (with_windowIndex (Some 7) (by_title "Inbox"))).
Proof.
  assert (M : matchingWindows (with_windowIndex (Some 7) (by_title "Inbox"))
                desktop = Some [inbox]) by (vm_compute; reflexivity).
  exact (conj M (single_match_ignores_index _ desktop inbox M)).
Defined.

(** [{ windowTitle: "chrome", windowIndex: 2 }] finds the second match. *)
Lemma found_window_is_a_match_witness :
  search second_chrome desktop = Found docs
  /\ exists ms,
       matchingWindows second_chrome desktop = Some ms
       /\ In docs ms
       /\ In docs (GetVisibleWindows desktop).
Proof.
  assert (F : search second_chrome desktop = Found docs)
    by (vm_compute; reflexivity).
  exact (conj F (found_window_is_a_match second_chrome desktop docs F)).
Defined.

(** Monitors 1 and 2 of the desktop. *)
Lemma monitor_numbers_go_left_to_right_witness :
  targetScreen (Number_toString 1) desktop = inl left_screen
  /\ targetScreen (Number_toString 2) desktop = inl right_screen
  /\ 1 <= 2
  /\ Bounds_X left_screen <= Bounds_X right_screen.
Proof.
  assert (S1 : targetScreen (Number_toString 1) desktop = inl left_screen)
    by (vm_compute; reflexivity).
  assert (S2 : targetScreen (Number_toString 2) desktop = inl right_screen)
    by (vm_compute; reflexivity).
  assert (L : 1 <= 2) by lia.
  exact (conj S1 (conj S2 (conj L
           (monitor_numbers_go_left_to_right desktop 1 2 left_screen
              right_screen S1 S2 L)))).
Defined.

Lemma first_and_last_monitor_witness :
  targetScreen (Number_toString 1) desktop = inl left_screen
  /\ targetScreen
       (Number_toString (Z.of_nat (List.length (AllScreens desktop)))) desktop
     = inl right_screen
  /\ In right_screen (AllScreens desktop)
  /\ Bounds_X left_screen <= Bounds_X right_screen <= Bounds_X right_screen.
Proof.
  assert (S1 : targetScreen (Number_toString 1) desktop = inl left_screen)
    by (vm_compute; reflexivity).
  assert (S2 : targetScreen
                 (Number_toString (Z.of_nat (List.length (AllScreens desktop))))
                 desktop
               = inl right_screen) by (vm_compute; reflexivity).
  assert (I : In right_screen (AllScreens desktop)) by (simpl; auto).
  exact (conj S1 (conj S2 (conj I
           (first_and_last_monitor desktop left_screen right_screen
              right_screen S1 S2 I)))).
Defined.

Lemma target_is_an_enumerated_screen_witness :
  targetScreen "2" desktop = inl right_screen
  /\ ((String.eqb (toUpperCase "2") "PRIMARY" = true
       /\ right_screen = PrimaryScreen desktop)
      \/ In right_screen (AllScreens desktop)).
Proof.
  assert (S2 : targetScreen "2" desktop = inl right_screen)
    by (vm_compute; reflexivity).
  exact (conj S2 (target_is_an_enumerated_screen "2" desktop right_screen S2)).
Defined.

(** A Direct-mode request, with a filename and a folder added. *)
Lemma direct_mode_ignores_destination_witness :
  arg_returnDirect second_chrome = true
  /\ psScript (with_filename (Some "a.png")
                 (with_folder (Some "/mnt/c/shots") second_chrome))
     = psScript second_chrome
  /\ run (with_filename (Some "a.png")
            (with_folder (Some "/mnt/c/shots") second_chrome)) desktop
     = run second_chrome desktop.
Proof.
  assert (R : arg_returnDirect second_chrome = true) by reflexivity.
  exact (conj R (direct_mode_ignores_destination second_chrome (Some "a.png")
                   (Some "/mnt/c/shots") desktop R)).
Defined.

Lemma window_target_ignores_monitor_witness :
  truthy (windowTitle (by_title "Inbox"))
  || truthy (processName (by_title "Inbox")) = true
  /\ psScript (with_monitor (Some (MonitorNumber 2)) (by_title "Inbox"))
     = psScript (by_title "Inbox")
  /\ run (with_monitor (Some (MonitorNumber 2)) (by_title "Inbox")) desktop
     = run (by_title "Inbox") desktop.
Proof.
  assert (W : truthy (windowTitle (by_title "Inbox"))
              || truthy (processName (by_title "Inbox")) = true)
    by reflexivity.
  exact (conj W (window_target_ignores_monitor (by_title "Inbox")
                   (Some (MonitorNumber 2)) desktop W)).
Defined.

Lemma default_destination_is_a_windows_path_witness :
  truthy (folder (by_title "Inbox")) = false
  /\ windowsPath (by_title "Inbox")
     = to_windows (path_join [cwd; "screenshots"; arg_filename (by_title "Inbox")])
  /\ has_char "/" (windowsPath (by_title "Inbox")) = false
  /\ has_char "/" (windowsPathEscaped (by_title "Inbox")) = false.
Proof.
  assert (F : truthy (folder (by_title "Inbox")) = false) by reflexivity.
  exact (conj F (default_destination_is_a_windows_path (by_title "Inbox") F)).
Defined.

(** The folder /mnt/c/shots. *)
Lemma mnt_folder_is_a_drive_path_witness :
  is_lower "c" || is_upper "c" = true
  /\ windowsFolder ("/mnt/" ++ String "c" ("/" ++ "shots"))
     = String (upper "c") (":\" ++ replace_all "/" "\" "shots")
  /\ to_windows ("/mnt/" ++ String "c" ("/" ++ "shots"))
     = windowsFolder ("/mnt/" ++ String "c" ("/" ++ "shots")).
Proof.
  assert (L : is_lower "c" || is_upper "c" = true) by reflexivity.
  exact (conj L (mnt_folder_is_a_drive_path "c" "shots" L)).
Defined.

(** [{ windowTitle: "chrome" }]: two matches and no windowIndex. *)
Lemma ambiguous_request_lists_options_witness :
  matchingWindows (by_title "chrome") desktop = Some [inbox; docs]
  /\ (1 < List.length [inbox; docs])%nat
  /\ (forall idx, windowIndex (by_title "chrome") = Some idx ->
                  idx < 1 \/ Z.of_nat (List.length [inbox; docs]) < idx)
  /\ forallb listable [inbox; docs] = true
  /\ has_char ":" dpi_lines = false
  /\ seven_bit (query_term (by_title "chrome")) = true
  /\ has_char ":" (query_term (by_title "chrome")) = false
  /\ includes (windowList [inbox; docs]) "DEBUG:" = false
  /\ failure_output dpi_lines (run (by_title "chrome") desktop)
     = Some (mkOutput dpi_lines
               (("MULTIPLE_WINDOWS_FOUND:chrome:" ++ windowList [inbox; docs])
                  ++ CRLF))
  /\ respond everything_exists (by_title "chrome")
       (mkOutput dpi_lines
          (("MULTIPLE_WINDOWS_FOUND:chrome:" ++ windowList [inbox; docs])
             ++ CRLF))
     = failed (multiple_helpMessage (trim (query_term (by_title "chrome")))
                 (options_text [inbox; docs]))
  /\ List.length (option_lines_from 1 [inbox; docs]
                    ++ [cancel_line (List.length [inbox; docs])])
     = S (List.length [inbox; docs]).
Proof.
  assert (M : matchingWindows (by_title "chrome") desktop = Some [inbox; docs])
    by (vm_compute; reflexivity).
  assert (N : (1 < List.length [inbox; docs])%nat) by (simpl; lia).
  assert (I : forall idx, windowIndex (by_title "chrome") = Some idx ->
                          idx < 1 \/ Z.of_nat (List.length [inbox; docs]) < idx)
    by (intros idx E; discriminate E).
  assert (L : forallb listable [inbox; docs] = true) by reflexivity.
  assert (Cn : has_char ":" dpi_lines = false) by reflexivity.
  assert (S7 : seven_bit (query_term (by_title "chrome")) = true)
    by reflexivity.
  assert (Ct : has_char ":" (query_term (by_title "chrome")) = false)
    by reflexivity.
  assert (D : includes (windowList [inbox; docs]) "DEBUG:" = false)
    by (vm_compute; reflexivity).
  assert (O : failure_output dpi_lines (run (by_title "chrome") desktop)
              = Some (mkOutput dpi_lines
                        (("MULTIPLE_WINDOWS_FOUND:chrome:"
                            ++ windowList [inbox; docs]) ++ CRLF)))
    by (vm_compute; reflexivity).
  exact (conj M (conj N (conj I (conj L (conj Cn (conj S7 (conj Ct (conj D
           (conj O
              (ambiguous_request_lists_options everything_exists
                 (by_title "chrome") desktop [inbox; docs] dpi_lines _
                 M N I L Cn S7 Ct D O)))))))))).
Defined.


(** [{ monitor: 2 }] in Direct mode (quality 80), with an encoder whose
    output never fits. *)
Lemma direct_capture_returns_the_compressed_image_witness :
  arg_returnDirect (monitor_number 2) = true
  /\ has_char ":" dpi_lines = false
  /\ 1 <= arg_quality (monitor_number 2) <= 100
  /\ (let s := compress [x00; x01] (arg_quality (monitor_number 2)) in
      respond everything_exists (monitor_number 2)
        (capture_output dpi_lines (action (monitor_number 2)) [x00; x01])
      = Image (statusText "Screenshot captured successfully" s)
          (finalBuffer s)).
Proof.
  assert (D : arg_returnDirect (monitor_number 2) = true) by reflexivity.
  assert (N : has_char ":" dpi_lines = false) by reflexivity.
  assert (Q : 1 <= arg_quality (monitor_number 2) <= 100)
    by (vm_compute; split; discriminate).
  exact (conj D (conj N (conj Q
           (direct_capture_returns_the_compressed_image everything_exists
              (monitor_number 2) dpi_lines [x00; x01] D N Q)))).
Defined.

(** [{ monitor: 2, quality: 0 }] in Direct mode. *)
Lemma direct_capture_fails_on_rejected_quality_witness :
  arg_returnDirect (with_quality (Some 0) (monitor_number 2)) = true
  /\ has_char ":" dpi_lines = false
  /\ (arg_quality (with_quality (Some 0) (monitor_number 2)) < 1
      \/ 100 < arg_quality (with_quality (Some 0) (monitor_number 2)))
  /\ respond everything_exists (with_quality (Some 0) (monitor_number 2))
       (capture_output dpi_lines
          (action (with_quality (Some 0) (monitor_number 2))) [x00; x01])
     = failed (invalid_quality_message
                 (arg_quality (with_quality (Some 0) (monitor_number 2)))).
Proof.
  assert (D : arg_returnDirect (with_quality (Some 0) (monitor_number 2)) = true)
    by reflexivity.
  assert (N : has_char ":" dpi_lines = false) by reflexivity.
  assert (Q : arg_quality (with_quality (Some 0) (monitor_number 2)) < 1
              \/ 100 < arg_quality (with_quality (Some 0) (monitor_number 2)))
    by (left; reflexivity).
  exact (conj D (conj N (conj Q
           (direct_capture_fails_on_rejected_quality everything_exists
              (with_quality (Some 0) (monitor_number 2)) dpi_lines [x00; x01]
              D N Q)))).
Defined.

(** [{ returnDirect: false, filename: "a.png", folder: "/mnt/c/shots" }] *)
Lemma file_capture_answer_follows_the_file_witness :
  arg_returnDirect (save_to "/mnt/c/shots" "a.png") = false
  /\ has_char ":" dpi_lines = false
  /\ respond everything_exists
       (save_to "/mnt/c/shots" "a.png")
       (capture_output dpi_lines (action (save_to "/mnt/c/shots" "a.png"))
          [x00; x01])
     = match everything_exists (outputPath (save_to "/mnt/c/shots" "a.png")) with
       | None => Saved (successMessage (save_to "/mnt/c/shots" "a.png"))
       | Some message => failed message
       end.
Proof.
  assert (D : arg_returnDirect (save_to "/mnt/c/shots" "a.png") = false)
    by reflexivity.
  assert (N : has_char ":" dpi_lines = false) by reflexivity.
  exact (conj D (conj N
           (file_capture_answer_follows_the_file everything_exists (save_to "/mnt/c/shots" "a.png")
              dpi_lines [x00; x01] D N))).
Defined.

(** [{ monitor: 5, returnDirect: false }] with two monitors, when an
    earlier file is at the output path: the request is answered as
    saved. *)
Lemma file_mode_does_not_read_the_script_error_witness :
  arg_returnDirect (monitor_to_file 5) = false
  /\ run (monitor_to_file 5) desktop
     = Throw "Monitor 5 not found. Available monitors: 1 to 2"
  /\ has_char ":" dpi_lines = false
  /\ has_char "_" "Monitor 5 not found. Available monitors: 1 to 2" = false
  /\ failure_output dpi_lines (run (monitor_to_file 5) desktop)
     = Some (mkOutput
               (dpi_lines ++ "ERROR: "
                  ++ "Monitor 5 not found. Available monitors: 1 to 2" ++ CRLF)
               "")
  /\ respond everything_exists
       (monitor_to_file 5)
       (mkOutput
          (dpi_lines ++ "ERROR: "
             ++ "Monitor 5 not found. Available monitors: 1 to 2" ++ CRLF)
          "")
     = match everything_exists (outputPath (monitor_to_file 5)) with
       | None => Saved (successMessage (monitor_to_file 5))
       | Some text => failed text
       end.
Proof.
  assert (D : arg_returnDirect (monitor_to_file 5) = false) by reflexivity.
  assert (T : run (monitor_to_file 5) desktop
              = Throw "Monitor 5 not found. Available monitors: 1 to 2")
    by (vm_compute; reflexivity).
  assert (N : has_char ":" dpi_lines = false) by reflexivity.
  assert (U : has_char "_" "Monitor 5 not found. Available monitors: 1 to 2"
              = false) by reflexivity.
  assert (O : failure_output dpi_lines (run (monitor_to_file 5) desktop)
              = Some (mkOutput
                        (dpi_lines ++ "ERROR: "
                           ++ "Monitor 5 not found. Available monitors: 1 to 2"
                           ++ CRLF)
                        ""))
    by (vm_compute; reflexivity).
  exact (conj D (conj T (conj N (conj U (conj O
           (file_mode_does_not_read_the_script_error everything_exists
              (monitor_to_file 5) desktop dpi_lines _ _ D T N U O)))))).
Defined.

(** [{ monitor: 5 }] in Direct mode with two monitors. *)
Lemma direct_mode_replaces_the_script_error_witness :
  arg_returnDirect (monitor_number 5) = true
  /\ run (monitor_number 5) desktop
     = Throw "Monitor 5 not found. Available monitors: 1 to 2"
  /\ has_char ":" dpi_lines = false
  /\ has_char "_" "Monitor 5 not found. Available monitors: 1 to 2" = false
  /\ has_char "B" "Monitor 5 not found. Available monitors: 1 to 2" = false
  /\ failure_output dpi_lines (run (monitor_number 5) desktop)
     = Some (mkOutput
               (dpi_lines ++ "ERROR: "
                  ++ "Monitor 5 not found. Available monitors: 1 to 2" ++ CRLF)
               "")
  /\ respond everything_exists
       (monitor_number 5)
       (mkOutput
          (dpi_lines ++ "ERROR: "
             ++ "Monitor 5 not found. Available monitors: 1 to 2" ++ CRLF)
          "")
     = failed "Failed to generate base64 output from PowerShell".
Proof.
  assert (D : arg_returnDirect (monitor_number 5) = true) by reflexivity.
  assert (T : run (monitor_number 5) desktop
              = Throw "Monitor 5 not found. Available monitors: 1 to 2")
    by (vm_compute; reflexivity).
  assert (N : has_char ":" dpi_lines = false) by reflexivity.
  assert (U : has_char "_" "Monitor 5 not found. Available monitors: 1 to 2"
              = false) by reflexivity.
  assert (B : has_char "B" "Monitor 5 not found. Available monitors: 1 to 2"
              = false) by reflexivity.
  assert (O : failure_output dpi_lines (run (monitor_number 5) desktop)
              = Some (mkOutput
                        (dpi_lines ++ "ERROR: "
                           ++ "Monitor 5 not found. Available monitors: 1 to 2"
                           ++ CRLF)
                        ""))
    by (vm_compute; reflexivity).
  exact (conj D (conj T (conj N (conj U (conj B (conj O
           (direct_mode_replaces_the_script_error everything_exists
              (monitor_number 5) desktop dpi_lines _ _ D T N U B O))))))).
Defined.

(** The format "auto" on a clipboard with a text and an image. *)
Lemma schema_formats_never_fail_witness :
  In (Some "auto") formats
  /\ exists r, read_clipboard (Some "auto")
                 text_and_image = Some r
               /\ forall message, r <> Error message.
Proof.
  assert (F : In (Some "auto") formats) by (simpl; auto).
  exact (conj F (schema_formats_never_fail (Some "auto") text_and_image F)).
Defined.

(** No format on a clipboard with a text and an image. *)
Lemma image_is_preferred_witness :
  In None formats
  /\ None <> Some "text"
  /\ ContainsImage text_and_image = true
  /\ GetImage text_and_image = Some [x00; x01]
  /\ read_clipboard None text_and_image
     = Some (Picture
               (statusText "Clipboard image retrieved successfully"
                  (compress [x00; x01] 80))
               (finalBuffer (compress [x00; x01] 80))).
Proof.
  assert (F : In None formats) by (simpl; auto).
  assert (N : None <> Some "text") by discriminate.
  assert (I : ContainsImage text_and_image = true) by reflexivity.
  assert (G : GetImage text_and_image = Some [x00; x01]) by reflexivity.
  exact (conj F (conj N (conj I (conj G
           (image_is_preferred None text_and_image
              [x00; x01] F N I G))))).
Defined.

(** The format "text" on the text "  hello " with a line end. *)
Lemma text_comes_back_trimmed_witness :
  In (Some "text") formats
  /\ detect (arg_format (Some "text")) (only_text ("  hello " ++ CRLF))
     = Format "text"
  /\ ContainsText (only_text ("  hello " ++ CRLF)) = true
  /\ Get_Clipboard_Raw (only_text ("  hello " ++ CRLF))
     = Some ("  hello " ++ CRLF)
  /\ seven_bit ("  hello " ++ CRLF) = true
  /\ includes ("  hello " ++ CRLF) "EMPTY_CLIPBOARD" = false
  /\ includes ("  hello " ++ CRLF) "NO_TEXT_IN_CLIPBOARD" = false
  /\ includes ("  hello " ++ CRLF) "NO_IMAGE_IN_CLIPBOARD" = false
  /\ read_clipboard (Some "text")
       (only_text ("  hello " ++ CRLF))
     = Some (Text ("Clipboard text content:" ++ LF ++ LF
                     ++ trim ("  hello " ++ CRLF))).
Proof.
  assert (F : In (Some "text") formats) by (simpl; auto).
  assert (D : detect (arg_format (Some "text")) (only_text ("  hello " ++ CRLF))
              = Format "text") by reflexivity.
  assert (T : ContainsText (only_text ("  hello " ++ CRLF)) = true)
    by reflexivity.
  assert (G : Get_Clipboard_Raw (only_text ("  hello " ++ CRLF))
              = Some ("  hello " ++ CRLF)) by reflexivity.
  assert (S7 : seven_bit ("  hello " ++ CRLF) = true) by reflexivity.
  assert (E1 : includes ("  hello " ++ CRLF) "EMPTY_CLIPBOARD" = false)
    by reflexivity.
  assert (E2 : includes ("  hello " ++ CRLF) "NO_TEXT_IN_CLIPBOARD" = false)
    by reflexivity.
  assert (E3 : includes ("  hello " ++ CRLF) "NO_IMAGE_IN_CLIPBOARD" = false)
    by reflexivity.
  exact (conj F (conj D (conj T (conj G (conj S7 (conj E1 (conj E2 (conj E3
           (text_comes_back_trimmed (Some "text")
              (only_text ("  hello " ++ CRLF)) ("  hello " ++ CRLF)
              F D T G S7 E1 E2 E3))))))))).
Defined.

(** The format "auto" on a text that quotes the marker. *)
Lemma text_with_marker_reads_as_empty_witness :
  In (Some "auto") formats
  /\ detect (arg_format (Some "auto"))
       (only_text "the script writes EMPTY_CLIPBOARD")
     = Format "text"
  /\ ContainsText (only_text "the script writes EMPTY_CLIPBOARD") = true
  /\ Get_Clipboard_Raw (only_text "the script writes EMPTY_CLIPBOARD")
     = Some "the script writes EMPTY_CLIPBOARD"
  /\ includes "the script writes EMPTY_CLIPBOARD" "EMPTY_CLIPBOARD" = true
  /\ read_clipboard (Some "auto")
       (only_text "the script writes EMPTY_CLIPBOARD")
     = Some (Text "Clipboard is empty").
Proof.
  assert (F : In (Some "auto") formats) by (simpl; auto).
  assert (D : detect (arg_format (Some "auto"))
                (only_text "the script writes EMPTY_CLIPBOARD")
              = Format "text") by reflexivity.
  assert (T : ContainsText (only_text "the script writes EMPTY_CLIPBOARD")
              = true) by reflexivity.
  assert (G : Get_Clipboard_Raw (only_text "the script writes EMPTY_CLIPBOARD")
              = Some "the script writes EMPTY_CLIPBOARD") by reflexivity.
  assert (E : includes "the script writes EMPTY_CLIPBOARD" "EMPTY_CLIPBOARD"
              = true) by reflexivity.
  exact (conj F (conj D (conj T (conj G (conj E
           (text_with_marker_reads_as_empty (Some "auto") (only_text "the script writes EMPTY_CLIPBOARD")
              "the script writes EMPTY_CLIPBOARD" F D T G E)))))).
Defined.


(** C8 at [{ monitor: 5 }] with two monitors, in Direct mode. *)
Lemma C8_out_of_range_monitor_is_not_reported_witness :
  truthy (windowTitle (monitor_number 5)) = false
  /\ truthy (processName (monitor_number 5)) = false
  /\ monitor (monitor_number 5) = Some (MonitorNumber 5)
  /\ isSafeInteger 5 = true
  /\ Z.of_nat (List.length (AllScreens desktop)) <= Int32_MaxValue
  /\ has_char ":" dpi_lines = false
  /\ (5 < 1 \/ Z.of_nat (List.length (AllScreens desktop)) < 5 <= Int32_MaxValue)
  /\ exists message,
       run (monitor_number 5) desktop = Throw message
       /\ (0 <= 5 ->
           message
           = "Monitor " ++ Number_toString 5
               ++ " not found. Available monitors: 1 to "
               ++ Number_toString (Z.of_nat (List.length (AllScreens desktop))))
       /\ (5 < 0 ->
           message = "Invalid monitor parameter: " ++ Number_toString 5)
       /\ failure_output dpi_lines (run (monitor_number 5) desktop)
          = Some (mkOutput (dpi_lines ++ "ERROR: " ++ message ++ CRLF) "")
       /\ respond everything_exists (monitor_number 5)
            (mkOutput (dpi_lines ++ "ERROR: " ++ message ++ CRLF) "")
          = if arg_returnDirect (monitor_number 5)
            then failed "Failed to generate base64 output from PowerShell"
            else match everything_exists (outputPath (monitor_number 5)) with
                 | None => Saved (successMessage (monitor_number 5))
                 | Some text => failed text
                 end.
Proof.
  assert (T : truthy (windowTitle (monitor_number 5)) = false) by reflexivity.
  assert (P : truthy (processName (monitor_number 5)) = false) by reflexivity.
  assert (M : monitor (monitor_number 5) = Some (MonitorNumber 5))
    by reflexivity.
  assert (S5 : isSafeInteger 5 = true) by reflexivity.
  assert (B : Z.of_nat (List.length (AllScreens desktop)) <= Int32_MaxValue)
    by (vm_compute; discriminate).
  assert (N : has_char ":" dpi_lines = false) by reflexivity.
  assert (R : 5 < 1
              \/ Z.of_nat (List.length (AllScreens desktop)) < 5 <= Int32_MaxValue)
    by (right; vm_compute; split; [reflexivity | discriminate]).
  exact (conj T (conj P (conj M (conj S5 (conj B (conj N (conj R
           (proj2 (proj2 (proj2
              (C8_out_of_range_monitor_is_not_reported everything_exists
                 (monitor_number 5) desktop 5 dpi_lines T P M S5 B N)))
              R)))))))).
Defined.

End MoreConcrete.
